(** * PDF OCR-need analyzer: a shallow embedding of the decision engine,
      the metrics extractors and the batch driver.

    Sources embedded: [PDF_Ocr_Analyzer.py] and [TextQualityCheck.py].

    Python [float] is IEEE-754 binary64; it is modelled by [spec_float]
    of the Standard Library with [prec = 53] and [emax = 1024], so that
    comparisons against the thresholds and the two divisions of the
    text-layer analyzer round exactly as they do at run time. *)

From Stdlib Require Import ZArith List String Bool Lia.
From Stdlib Require Import SpecFloat Ascii Permutation Sorted.
Import ListNotations.

#[local] Open Scope Z_scope.

(** ** The Python run time the sources rely on *)

Module Py.

(** *** Exceptions and the error monad *)

Inductive exn : Type :=
| OSError (msg : string)            (* os.stat, os.path.getsize *)
| FileDataError (msg : string)      (* fitz.open on an invalid document *)
| RuntimeError (msg : string)       (* page.get_text, pdf2image *)
| ZeroDivisionError
| OverflowError
| cv2_error (msg : string)          (* OpenCV on an array it rejects *)
| UnicodeEncodeError (msg : string). (* print on a console that lacks a character *)

(** [str(e)] *)
Definition str_exn (e : exn) : string :=
  match e with
  | OSError m | FileDataError m | RuntimeError m => m
  | cv2_error m | UnicodeEncodeError m => m
  | ZeroDivisionError => "division by zero"
  | OverflowError => "integer division result too large for a float"
  end.

Definition Exc (A : Type) : Type := (exn + A)%type.

Definition ret {A} (a : A) : Exc A := inr a.
Definition raise {A} (e : exn) : Exc A := inl e.
Definition bind {A B} (c : Exc A) (k : A -> Exc B) : Exc B :=
  match c with
  | inl e => inl e
  | inr a => k a
  end.

(** [try: c  except Exception as e: h e] *)
Definition try_except {A} (c : Exc A) (h : exn -> Exc A) : Exc A :=
  match c with
  | inl e => h e
  | inr a => inr a
  end.

(** *** binary64 *)

Definition prec : Z := 53.
Definition emax : Z := 1024.

Definition float : Type := spec_float.

Definition fdiv : float -> float -> float := SFdiv prec emax.
Definition fadd : float -> float -> float := SFadd prec emax.
(** [x < y], [x <= y], [x > y] on floats; false as soon as one is NaN *)
Definition flt : float -> float -> bool := SFltb.
Definition fle : float -> float -> bool := SFleb.
Definition fgt (x y : float) : bool := SFltb y x.

(** [float(n)]: the integer rounded to nearest, ties to even *)
Definition of_int (n : Z) : float := binary_normalize prec emax n 0 false.

(** an integer as an unrounded operand of a division *)
Definition raw_int (n : Z) : float :=
  match n with
  | Z0 => S754_zero false
  | Zpos p => S754_finite false p 0
  | Zneg p => S754_finite true p 0
  end.

(** [a / b] on two [int]s: the quotient correctly rounded once (CPython
    rounds the exact rational quotient, it does not convert the operands
    first), [ZeroDivisionError] when [b = 0], [OverflowError] when the
    quotient is out of range. *)
Definition int_truediv (a b : Z) : Exc float :=
  if b =? 0 then raise ZeroDivisionError
  else match fdiv (raw_int a) (raw_int b) with
       | S754_infinity _ => raise OverflowError
       | q => ret q
       end.

(** Literals of the sources, in canonical form. *)
Definition f0_0 : float := S754_zero false.                              (* 0.0 *)
Definition f0_02 : float := S754_finite false 5764607523034235 (-58).    (* 0.02 *)
Definition f0_3 : float := S754_finite false 5404319552844595 (-54).     (* 0.3 *)
Definition f0_5 : float := S754_finite false 4503599627370496 (-53).     (* 0.5 *)
Definition f1_0 : float := S754_finite false 4503599627370496 (-52).     (* 1.0 *)

(** [any(l)] on a list of [bool]s *)
Definition any (l : list bool) : bool := existsb (fun b => b) l.

(** [min(a, b)] on floats: [b] when [b < a], otherwise [a] *)
Definition min (a b : float) : float := if flt b a then b else a.

(** The values a result dictionary holds. *)
Inductive value : Type :=
| VStr (s : string)
| VBool (b : bool)
| VInt (n : Z)
| VFloat (x : float).

(** *** [str] as a sequence of code points *)

Definition str : Type := list N.

(** the code points [str.strip()] removes (Unicode white space) *)
Definition isspace (c : N) : bool :=
  (((9 <=? c) && (c <=? 13)) || ((28 <=? c) && (c <=? 32))
   || (c =? 133) || (c =? 160) || (c =? 5760)
   || ((8192 <=? c) && (c <=? 8202))
   || (c =? 8232) || (c =? 8233) || (c =? 8239) || (c =? 8287)
   || (c =? 12288))%N.

Fixpoint lstrip (s : str) : str :=
  match s with
  | [] => []
  | c :: s' => if isspace c then lstrip s' else s
  end.

Definition rstrip (s : str) : str := rev (lstrip (rev s)).
Definition strip (s : str) : str := rstrip (lstrip s).

(** [len(s)] and the truth value of a [str] *)
Definition len (s : str) : Z := Z.of_nat (List.length s).
Definition str_truthy (s : str) : bool :=
  match s with [] => false | _ :: _ => true end.

(** *** [dict] with string keys, in insertion order *)

Definition dict : Type := list (string * value).

(** [d.get(k)] *)
Fixpoint get (d : dict) (k : string) : option value :=
  match d with
  | [] => None
  | (k', v) :: d' => if String.eqb k' k then Some v else get d' k
  end.

(** [d.get(k, default)] *)
Definition get_default (d : dict) (k : string) (default : value) : value :=
  match get d k with
  | Some v => v
  | None => default
  end.

(** the truth value of [None] and of a dictionary *)
Definition truthy (r : option dict) : bool :=
  match r with
  | None | Some [] => false
  | Some (_ :: _) => true
  end.

(** the truth value of a value *)
Definition value_truthy (v : value) : bool :=
  match v with
  | VStr s => negb (String.eqb s "")
  | VBool b => b
  | VInt n => negb (n =? 0)
  | VFloat (S754_zero _) => false
  | VFloat _ => true
  end.

(** [sorted(l, key=key)] for keys ordered by [lt]: an insertion sort
    that keeps the elements of equal keys in their order, as every
    stable sort does. *)
Fixpoint insert_sorted {A K} (lt : K -> K -> bool) (key : A -> K)
         (x : A) (l : list A) : list A :=
  match l with
  | [] => [x]
  | y :: l' =>
      if lt (key y) (key x) then y :: insert_sorted lt key x l'
      else x :: l
  end.

Definition sorted {A K} (lt : K -> K -> bool) (key : A -> K)
           (l : list A) : list A :=
  fold_right (insert_sorted lt key) [] l.

(** *** [print]

    A line is the pieces of the f-string that builds it: its literal
    text, in UTF-8, and the values it formats.  [sys.stdout] takes the
    line or raises: [UnicodeEncodeError] when its encoding lacks a
    character of the line, [OSError] when the stream is broken. *)
Inductive piece : Type :=
| Text (s : string)                  (* literal text, and a [str] *)
| Int (n : Z)                        (* [{n}] *)
| Fmt (x : float) (spec : string).   (* [{x:spec}] *)

Definition stdout : Type := list piece -> Exc unit.

Definition print (out : stdout) (line : list piece) : Exc unit := out line.

(** ["\n"], and [s * n] *)
Definition newline : string := String (Ascii.ascii_of_nat 10) EmptyString.
Fixpoint repeat (s : string) (n : nat) : string :=
  match n with
  | O => EmptyString
  | S n' => String.append s (repeat s n')
  end.

End Py.

Declare Scope exc_scope.
Delimit Scope exc_scope with exc.
Notation "x <- c ;; k" := (Py.bind c (fun x => k))
  (at level 61, c at next level, right associativity) : exc_scope.

(** ** Records shared by the two files

    [text_analysis] and [file_metrics] are the dictionaries built by
    [analyze_pdf_text_layer] and [get_file_metrics]; both always carry the
    same keys, so they are records. *)

Record text_analysis : Type := mk_text_analysis {
  has_text_layer : bool;
  total_pages : Z;
  pages_with_text : Z;
  total_text_length : Z;
  text_pages_ratio : Py.float;
  avg_text_per_page : Py.float
}.

Record file_metrics : Type := mk_file_metrics {
  file_size_mb : Py.float;
  filename : string
}.

(** ** What the outside world answers for a path

    The sources read a PDF through [os.stat], PyMuPDF ([fitz.open], then
    [get_text] page by page), [shutil.which] and pdf2image.  A [pdf_file]
    records those answers; each may be an exception. *)

(** A numpy array of two dimensions (a third, of size 3, when the cells
    are RGB triples): its shape and its cells in row-major order. *)
Record ndarray (A : Type) : Type := mk_ndarray {
  shape0 : nat;
  shape1 : nat;
  cells : list A
}.
Arguments mk_ndarray {A} _ _ _.
Arguments shape0 {A} _.
Arguments shape1 {A} _.
Arguments cells {A} _.

(** A rendered page as [np.array(image)] sees it. *)
Inductive image : Type :=
| Gray (a : ndarray Z)                  (* len(shape) = 2, 8-bit luminance *)
| RGB (a : ndarray (Z * Z * Z))         (* len(shape) = 3 *)
| Unsupported (e : Py.exn).             (* np.array or OpenCV raises *)

Record pdf_file : Type := mk_pdf_file {
  basename : string;                          (* os.path.basename(pdf_path) *)
  st_size : Py.Exc Z;                         (* os.stat(pdf_path).st_size *)
  fitz_open : Py.Exc (list (Py.Exc Py.str));  (* the pages, each with its get_text() *)
  which_pdftoppm : option string;             (* directory of shutil.which("pdftoppm") *)
  pdf2image_pages : Py.Exc (list image)       (* the pages as poppler renders them *)
}.

(** The file [save_to_csv] writes, as the file system answers for its
    name: what [open(filename, 'w', ...)] returns, and how many lines
    the writer takes before a write raises ([None]: every write
    returns). *)
Record csv_file : Type := mk_csv_file {
  csv_open : Py.Exc unit;
  csv_room : option nat
}.

#[local] Open Scope exc_scope.

(** ** [PDF_Ocr_Analyzer.py] *)

Module PDF_Ocr_Analyzer.

(** [setup_poppler]: the directory of [pdftoppm], or [None] *)
Definition setup_poppler (pdf : pdf_file) : option string :=
  which_pdftoppm pdf.

(** One turn of the loop over the pages: [results] is updated in place. *)
Definition text_layer_step (results : text_analysis) (text : Py.str)
  : text_analysis :=
  if Py.str_truthy (Py.strip text) then
    mk_text_analysis true
      (total_pages results)
      (pages_with_text results + 1)
      (total_text_length results + Py.len (Py.strip text))
      (text_pages_ratio results)
      (avg_text_per_page results)
  else results.

(** [for page_num in range(len(doc))]: [get_text] is not guarded. *)
Fixpoint text_layer_loop (pages : list (Py.Exc Py.str))
         (results : text_analysis) : Py.Exc text_analysis :=
  match pages with
  | [] => Py.ret results
  | page :: rest =>
      text <- page ;;
      text_layer_loop rest (text_layer_step results text)
  end.

Definition analyze_pdf_text_layer (pdf : pdf_file) : Py.Exc text_analysis :=
  doc <- fitz_open pdf ;;
  let results :=
    mk_text_analysis false (Z.of_nat (List.length doc)) 0 0 Py.f0_0 Py.f0_0 in
  results <- text_layer_loop doc results ;;
  if total_pages results >? 0 then
    ratio <- Py.int_truediv (pages_with_text results) (total_pages results) ;;
    avg <- Py.int_truediv (total_text_length results)
                          (Z.max (pages_with_text results) 1) ;;
    Py.ret (mk_text_analysis (has_text_layer results) (total_pages results)
              (pages_with_text results) (total_text_length results) ratio avg)
  else Py.ret results.

Section Density.

(** [cv2.cvtColor(_, cv2.COLOR_RGB2GRAY)] on one pixel; OpenCV's
    fixed-point weights are not part of the sources. *)
Variable cvtColor_RGB2GRAY : Z * Z * Z -> Z.

(** [cv2.threshold(gray, 127, 255, cv2.THRESH_BINARY_INV)] on one pixel *)
Definition threshold_binary_inv (v : Z) : Z :=
  if v >? 127 then 0 else 255.

(** [np.sum(binary == 255)] *)
Definition count_255 (binary : list Z) : Z :=
  Z.of_nat (List.length (filter (fun v => v =? 255) binary)).

(** The body of the [try] of [calculate_text_density], from [gray] on.
    OpenCV raises on an array without pixels.  On any other array the
    quotient of a numpy integer by an [int] is the IEEE quotient of the
    two converted operands; it raises nothing. *)
Definition density_of_gray (gray : ndarray Z) : Py.Exc Py.float :=
  let total_pixels := Z.of_nat (shape0 gray) * Z.of_nat (shape1 gray) in
  if total_pixels =? 0 then
    Py.raise (Py.cv2_error "(-215:Assertion failed) !_src.empty()")
  else
    let binary := map threshold_binary_inv (cells gray) in
    let black_pixels := count_255 binary in
    let text_density :=
      Py.fdiv (Py.of_int black_pixels) (Py.of_int total_pixels) in
    Py.ret (Py.min text_density Py.f1_0).

(** The body of the [try] of [calculate_text_density]. *)
Definition text_density (img : image) : Py.Exc Py.float :=
  match img with
  | RGB a =>
      density_of_gray
        (mk_ndarray (shape0 a) (shape1 a) (map cvtColor_RGB2GRAY (cells a)))
  | Gray a => density_of_gray a
  | Unsupported e => Py.raise e
  end.

(** [calculate_text_density], as a value: what it returns once the line
    of its handler is printed ([Console.calculate_text_density] has the
    line). *)
Definition calculate_text_density (img : image) : Py.float :=
  match text_density img with
  | inr density => density
  | inl _ => Py.f0_0                  (* except Exception: return 0.0 *)
  end.

(** [convert_from_path(pdf_path, first_page=1, last_page=n, dpi=100)]:
    the first [n] pages, none when [n < 1]. *)
Definition convert_from_path (pdf : pdf_file) (last_page : Z)
  : Py.Exc (list image) :=
  pages <- pdf2image_pages pdf ;;
  Py.ret (firstn (Z.to_nat last_page) pages).

(** [np.mean] of a list of floats: their binary64 sum in the order of
    numpy, divided by the number of elements; NaN on the empty list.

    numpy adds a contiguous array pairwise.  Fewer than eight elements
    are added from left to right, starting from 0.0.  Up to 128
    elements go into eight accumulators, element [i] into accumulator
    [i mod 8], for as long as a full block of eight is left; the
    accumulators are then added as
    [((r0 + r1) + (r2 + r3)) + ((r4 + r5) + (r6 + r7))] and the elements
    left over are added to that from left to right.  A longer array is
    split in two, the first part of a length that is a multiple of
    eight, and the sums of the parts are added.  The reduction adds the
    result to its initial value 0.0. *)
Fixpoint pairwise_blocks (r0 r1 r2 r3 r4 r5 r6 r7 : Py.float)
         (l : list Py.float) : Py.float :=
  match l with
  | a0 :: a1 :: a2 :: a3 :: a4 :: a5 :: a6 :: a7 :: rest =>
      pairwise_blocks (Py.fadd r0 a0) (Py.fadd r1 a1) (Py.fadd r2 a2)
        (Py.fadd r3 a3) (Py.fadd r4 a4) (Py.fadd r5 a5) (Py.fadd r6 a6)
        (Py.fadd r7 a7) rest
  | _ =>
      fold_left Py.fadd l
        (Py.fadd (Py.fadd (Py.fadd r0 r1) (Py.fadd r2 r3))
                 (Py.fadd (Py.fadd r4 r5) (Py.fadd r6 r7)))
  end.

(** [fuel] bounds the depth of the splitting; the length of the list is
    enough, since both parts of a split are shorter. *)
Fixpoint pairwise_sum (fuel : nat) (l : list Py.float) : Py.float :=
  let n := List.length l in
  if (n <? 8)%nat then fold_left Py.fadd l Py.f0_0
  else if (n <=? 128)%nat then
    match l with
    | a0 :: a1 :: a2 :: a3 :: a4 :: a5 :: a6 :: a7 :: rest =>
        pairwise_blocks a0 a1 a2 a3 a4 a5 a6 a7 rest
    | _ => Py.f0_0                    (* not reached: [n >= 8] *)
    end
  else
    match fuel with
    | O => Py.f0_0                    (* not reached: [fuel >= n] *)
    | S fuel' =>
        let n2 := (n / 2 - (n / 2) mod 8)%nat in
        Py.fadd (pairwise_sum fuel' (firstn n2 l))
                (pairwise_sum fuel' (skipn n2 l))
    end.

Definition np_sum (l : list Py.float) : Py.float :=
  Py.fadd Py.f0_0 (pairwise_sum (List.length l) l).
Definition np_mean (l : list Py.float) : Py.float :=
  Py.fdiv (np_sum l) (Py.of_int (Z.of_nat (List.length l))).

(** [analyze_visual_text_density], as a value: what it returns once the
    lines it prints are printed ([Console.analyze_visual_text_density]
    has the lines). *)
Definition analyze_visual_text_density (pdf : pdf_file) (sample_pages : Z)
  : Py.float :=
  match convert_from_path pdf (Z.min sample_pages 10) with
  | inl _ => Py.f0_0                  (* except Exception: return 0.0 *)
  | inr [] => Py.f0_0                 (* if not images: return 0.0 *)
  | inr images =>
      let densities := map calculate_text_density images in
      match densities with
      | [] => Py.f0_0
      | _ => np_mean densities
      end
  end.

(** [get_file_metrics] *)
Definition get_file_metrics (pdf : pdf_file) : Py.Exc file_metrics :=
  size <- st_size pdf ;;
  mb <- Py.int_truediv size (1024 * 1024) ;;
  Py.ret (mk_file_metrics mb (basename pdf)).

(** The list [rules] of [needs_ocr_analysis].  An [int] compared with
    a [float] is compared by value; 5 and 50 are exact in binary64. *)
Definition rules (text : text_analysis) (visual_analysis : Py.float)
           (file : file_metrics) : list bool :=
  [ negb (has_text_layer text);
    Py.flt (text_pages_ratio text) Py.f0_3;
    Py.flt visual_analysis Py.f0_02;
    Py.fgt (file_size_mb file) (Py.of_int 5)
      && Py.flt (avg_text_per_page text) (Py.of_int 50);
    (total_pages text >? 10)
      && Py.flt (text_pages_ratio text) Py.f0_5 ].

Definition needs_ocr_analysis (text : text_analysis)
           (visual_analysis : Py.float) (file : file_metrics) : bool :=
  Py.any (rules text visual_analysis file).

(** The dictionary [result] of [analyze_pdf_ocr_need]. *)
Definition result_dict (file : file_metrics) (text : text_analysis)
           (visual_density : Py.float) (ocr_required : bool) : Py.dict :=
  [ ("filename", Py.VStr (filename file));
    ("has_text_layer", Py.VBool (has_text_layer text));
    ("text_pages_ratio", Py.VFloat (text_pages_ratio text));
    ("avg_text_density", Py.VFloat visual_density);
    ("ocr_required", Py.VBool ocr_required);
    ("file_size_mb", Py.VFloat (file_size_mb file));
    ("total_pages", Py.VInt (total_pages text)) ]%string.

(** The body of the [try] of [analyze_pdf_ocr_need]. *)
Definition analyze_pdf_ocr_need_body (pdf : pdf_file) : Py.Exc Py.dict :=
  file <- get_file_metrics pdf ;;
  text <- analyze_pdf_text_layer pdf ;;
  let visual_density :=
    match setup_poppler pdf with
    | Some (String _ _) => analyze_visual_text_density pdf 5
    | Some EmptyString | None => Py.f0_0
    end in
  let ocr_required := needs_ocr_analysis text visual_density file in
  Py.ret (result_dict file text visual_density ocr_required).

(** [analyze_pdf_ocr_need]: the result, or [None] after any exception.
    The lines it prints are left out, those before its [try] as well:
    this is what the function returns when [sys.stdout] takes them. *)
Definition analyze_pdf_ocr_need (pdf : pdf_file) : Py.Exc (option Py.dict) :=
  Py.try_except
    (result <- analyze_pdf_ocr_need_body pdf ;; Py.ret (Some result))
    (fun _ => Py.ret None).

(** The row the [except] branch of [analyze_pdf_folder] appends. *)
Definition error_row (pdf : pdf_file) (e : Py.exn) : Py.Exc Py.dict :=
  size <- st_size pdf ;;                       (* os.path.getsize *)
  mb <- Py.int_truediv size (1024 * 1024) ;;
  Py.ret [ ("filename", Py.VStr (basename pdf));
           ("has_text_layer", Py.VBool false);
           ("text_pages_ratio", Py.VFloat Py.f0_0);
           ("avg_text_density", Py.VFloat Py.f0_0);
           ("ocr_required", Py.VBool true);
           ("file_size_mb", Py.VFloat mb);
           ("total_pages", Py.VInt 0);
           ("error", Py.VStr (Py.str_exn e)) ]%string.

(** The loop of [analyze_pdf_folder] over [pdf_files]; [results] is the
    list being appended to. *)
Fixpoint folder_loop (pdf_files : list pdf_file) (results : list Py.dict)
  : Py.Exc (list Py.dict) :=
  match pdf_files with
  | [] => Py.ret results
  | pdf :: rest =>
      match analyze_pdf_ocr_need pdf with
      | inr result =>
          if Py.truthy result then
            match result with
            | Some r => folder_loop rest (results ++ [r])
            | None => folder_loop rest results
            end
          else folder_loop rest results
      | inl e =>
          row <- error_row pdf e ;;
          folder_loop rest (results ++ [row])
      end
  end.

(** [analyze_pdf_folder]: [folder] is [None] when the path does not
    exist, otherwise the [*.pdf] children [glob] finds.  The lines it
    prints are left out: this is what the function returns when
    [sys.stdout] takes them. *)
Definition analyze_pdf_folder (folder : option (list pdf_file))
  : Py.Exc (list Py.dict) :=
  match folder with
  | None => Py.ret []
  | Some [] => Py.ret []
  | Some pdf_files => folder_loop pdf_files []
  end.

Definition fieldnames : list string :=
  [ "filename"; "has_text_layer"; "avg_text_density"; "ocr_required" ]%string.

(** The lines [save_to_csv] hands to the writer when nothing fails: the
    header, then one line per result.  A cell is the value handed to
    the writer; [''] is [VStr ""]. *)
Definition csv_lines (results : list Py.dict) : list (list Py.value) :=
  map Py.VStr fieldnames
  :: map (fun result =>
            map (fun field => Py.get_default result field (Py.VStr ""))
                fieldnames)
         results.

(** the lines the writer takes before a write raises *)
Definition taken {A} (room : option nat) (lines : list A) : list A :=
  match room with
  | None => lines
  | Some n => firstn n lines
  end.

(** [save_to_csv]: [None] when the file is not opened (there is no
    result, or [open] raises and the handler prints the error);
    otherwise the lines the writer took, header first, all of them
    unless a write raised, which the handler catches as well. *)
Definition save_to_csv (results : list Py.dict) (filename : csv_file)
  : option (list (list Py.value)) :=
  match results with
  | [] => None                        (* if not results: return *)
  | _ =>
      match csv_open filename with
      | inl _ => None                 (* except Exception as e *)
      | inr _ => Some (taken (csv_room filename) (csv_lines results))
      end
  end.

(** The key of the sort of [print_summary_report]:
    [(not x.get('ocr_required', False), x['filename'])].  [None] stands
    for the [KeyError] of a result without ['filename']; a file name that
    is not a [str] is outside this model. *)
Definition report_key (x : Py.dict) : option (bool * string) :=
  match Py.get x "filename" with
  | Some (Py.VStr name) =>
      Some (negb (Py.value_truthy
                    (Py.get_default x "ocr_required" (Py.VBool false))),
            name)
  | _ => None
  end.

(** [<] on the keys, as on tuples: [False < True], then the names by
    code point. *)
Definition key_lt (k1 k2 : bool * string) : bool :=
  match fst k1, fst k2 with
  | false, true => true
  | true, false => false
  | _, _ => String.ltb (snd k1) (snd k2)
  end.

(** the keys are computed before anything is compared *)
Fixpoint with_keys (results : list Py.dict)
  : option (list ((bool * string) * Py.dict)) :=
  match results with
  | [] => Some []
  | x :: rest =>
      match report_key x, with_keys rest with
      | Some k, Some keyed => Some ((k, x) :: keyed)
      | _, _ => None
      end
  end.

(** [results_sorted] of [print_summary_report] *)
Definition results_sorted (results : list Py.dict) : option (list Py.dict) :=
  match with_keys results with
  | Some keyed => Some (map snd (Py.sorted key_lt fst keyed))
  | None => None
  end.

(** [sum(1 for r in results if r.get(field, False))] *)
Definition count_where (field : string) (results : list Py.dict) : Z :=
  Z.of_nat (List.length
              (filter (fun r => Py.value_truthy
                                  (Py.get_default r field (Py.VBool false)))
                      results)).

(** The statistics of [print_summary_report]. *)
Definition total_files (results : list Py.dict) : Z :=
  Z.of_nat (List.length results).

Definition ocr_required_count (results : list Py.dict) : Z :=
  count_where "ocr_required" results.

Definition has_text_count (results : list Py.dict) : Z :=
  count_where "has_text_layer" results.

End Density.

(** *** The functions and their console

    The functions of the pipeline with the lines they print.  A [print]
    that raises is an exception like any other: it is caught where it
    stands inside a [try], and it leaves the function where it does
    not. *)

Module Console.

Section Printing.

Variable out : Py.stdout.
Variable cvtColor_RGB2GRAY : Z * Z * Z -> Z.

Definition setup_poppler (pdf : pdf_file) : Py.Exc (option string) :=
  match which_pdftoppm pdf with
  | Some poppler_dir =>
      printed <- Py.print out [ Py.Text "✓ Poppler найден: ";
                                Py.Text poppler_dir ] ;;
      Py.ret (Some poppler_dir)
  | None =>
      printed <- Py.print out [ Py.Text "❌ Poppler не найден в PATH" ] ;;
      printed <- Py.print out
        [ Py.Text "   Установите Poppler и добавьте папку bin в переменную PATH" ] ;;
      Py.ret None
  end.

Definition analyze_pdf_text_layer (pdf : pdf_file) : Py.Exc text_analysis :=
  printed <- Py.print out [ Py.Text "📖 Анализируем текстовый слой..." ] ;;
  PDF_Ocr_Analyzer.analyze_pdf_text_layer pdf.

Definition calculate_text_density (img : image) : Py.Exc Py.float :=
  Py.try_except
    (text_density cvtColor_RGB2GRAY img)
    (fun e =>
       printed <- Py.print out [ Py.Text "⚠ Ошибка анализа плотности: ";
                                 Py.Text (Py.str_exn e) ] ;;
       Py.ret Py.f0_0).

(** The loop over [enumerate(images)]: [i] counts from 0, [densities]
    is the list being appended to. *)
Fixpoint density_loop (images : list image) (i : Z)
         (densities : list Py.float) : Py.Exc (list Py.float) :=
  match images with
  | [] => Py.ret densities
  | img :: rest =>
      density <- calculate_text_density img ;;
      printed <- Py.print out [ Py.Text "   Страница "; Py.Int (i + 1);
                                Py.Text ": плотность ";
                                Py.Fmt density ".3%" ] ;;
      density_loop rest (i + 1) (densities ++ [density])
  end.

Definition analyze_visual_text_density (pdf : pdf_file) (sample_pages : Z)
  : Py.Exc Py.float :=
  printed <- Py.print out [ Py.Text "👁 Анализируем визуальную плотность..." ] ;;
  Py.try_except
    (images <- convert_from_path pdf (Z.min sample_pages 10) ;;
     match images with
     | [] => Py.ret Py.f0_0           (* if not images: return 0.0 *)
     | _ =>
         densities <- density_loop images 0 [] ;;
         let avg_density :=
           match densities with
           | [] => Py.f0_0
           | _ => np_mean densities
           end in
         printed <- Py.print out [ Py.Text "   Средняя плотность: ";
                                   Py.Fmt avg_density ".3%" ] ;;
         Py.ret avg_density
     end)
    (fun e =>
       printed <- Py.print out [ Py.Text "⚠ Ошибка визуального анализа: ";
                                 Py.Text (Py.str_exn e) ] ;;
       Py.ret Py.f0_0).

Definition analyze_pdf_ocr_need (pdf : pdf_file) : Py.Exc (option Py.dict) :=
  printed <- Py.print out [ Py.Text "🔍 Анализируем PDF: ";
                            Py.Text (basename pdf) ] ;;
  printed <- Py.print out [ Py.Text (Py.repeat "=" 50) ] ;;
  Py.try_except
    (file <- get_file_metrics pdf ;;
     printed <- Py.print out [ Py.Text "📊 Размер файла: ";
                               Py.Fmt (file_size_mb file) ".2f";
                               Py.Text " MB" ] ;;
     text <- analyze_pdf_text_layer pdf ;;
     printed <- Py.print out [ Py.Text "📖 Страниц с текстом: ";
                               Py.Int (pages_with_text text);
                               Py.Text "/";
                               Py.Int (total_pages text) ] ;;
     printed <- Py.print out [ Py.Text "📊 Доля текстовых страниц: ";
                               Py.Fmt (text_pages_ratio text) ".1%" ] ;;
     printed <- Py.print out [ Py.Text "📝 Средний текст на страницу: ";
                               Py.Fmt (avg_text_per_page text) ".0f";
                               Py.Text " символов" ] ;;
     poppler_path <- setup_poppler pdf ;;
     visual_density <-
       match poppler_path with
       | Some (String _ _) =>
           visual_density <- analyze_visual_text_density pdf 5 ;;
           printed <- Py.print out
             [ Py.Text "🎯 Визуальная плотность текста: ";
               Py.Fmt visual_density ".3%" ] ;;
           Py.ret visual_density
       | Some EmptyString | None =>
           printed <- Py.print out
             [ Py.Text "⚠ Poppler не найден, пропускаем визуальный анализ" ] ;;
           Py.ret Py.f0_0
       end ;;
     let ocr_required := needs_ocr_analysis text visual_density file in
     let result := result_dict file text visual_density ocr_required in
     printed <- Py.print out [ Py.Text (Py.repeat "=" 50) ] ;;
     let status :=
       if ocr_required then "🚨 OCR ТРЕБУЕТСЯ"%string
       else "✅ OCR НЕ ТРЕБУЕТСЯ"%string in
     printed <- Py.print out [ Py.Text "РЕЗУЛЬТАТ: "; Py.Text status ] ;;
     Py.ret (Some result))
    (fun e =>
       printed <- Py.print out [ Py.Text "❌ Ошибка анализа: ";
                                 Py.Text (Py.str_exn e) ] ;;
       Py.ret None).

(** The loop of [analyze_pdf_folder] over [enumerate(pdf_files, 1)];
    [total] is [len(pdf_files)], [results] the list being appended to. *)
Fixpoint folder_loop (pdf_files : list pdf_file) (i total : Z)
         (results : list Py.dict) : Py.Exc (list Py.dict) :=
  match pdf_files with
  | [] => Py.ret results
  | pdf :: rest =>
      printed <- Py.print out
        [ Py.Text (Py.newline ++ "📄 Обрабатываем файл "); Py.Int i;
          Py.Text "/"; Py.Int total; Py.Text ":" ] ;;
      printed <- Py.print out [ Py.Text "   ";
                                Py.Text (basename pdf) ] ;;
      results <-
        Py.try_except
          (result <- analyze_pdf_ocr_need pdf ;;
           Py.ret (if Py.truthy result then
                     match result with
                     | Some r => results ++ [r]
                     | None => results
                     end
                   else results))
          (fun e =>
             printed <- Py.print out [ Py.Text "❌ Ошибка обработки файла: ";
                                       Py.Text (Py.str_exn e) ] ;;
             row <- error_row pdf e ;;
             Py.ret (results ++ [row])) ;;
      folder_loop rest (i + 1) total results
  end.

Definition analyze_pdf_folder (folder : option (list pdf_file))
  : Py.Exc (list Py.dict) :=
  match folder with
  | None =>
      printed <- Py.print out [ Py.Text "❌ Папка не существует!" ] ;;
      Py.ret []
  | Some [] =>
      printed <- Py.print out [ Py.Text "❌ PDF файлы не найдены в папке!" ] ;;
      Py.ret []
  | Some pdf_files =>
      printed <- Py.print out
        [ Py.Text "📁 Найдено PDF файлов: ";
          Py.Int (Z.of_nat (List.length pdf_files)) ] ;;
      printed <- Py.print out [ Py.Text (Py.repeat "=" 60) ] ;;
      folder_loop pdf_files 1 (Z.of_nat (List.length pdf_files)) []
  end.

End Printing.

End Console.

End PDF_Ocr_Analyzer.

(** ** [TextQualityCheck.py] *)

Module TextQualityCheck.

Definition text_layer_step (results : text_analysis) (text : Py.str)
  : text_analysis :=
  if Py.str_truthy (Py.strip text) then
    mk_text_analysis true
      (total_pages results)
      (pages_with_text results + 1)
      (total_text_length results + Py.len (Py.strip text))
      (text_pages_ratio results)
      (avg_text_per_page results)
  else results.

Fixpoint text_layer_loop (pages : list (Py.Exc Py.str))
         (results : text_analysis) : Py.Exc text_analysis :=
  match pages with
  | [] => Py.ret results
  | page :: rest =>
      text <- page ;;
      text_layer_loop rest (text_layer_step results text)
  end.

Definition analyze_pdf_text_layer (pdf : pdf_file) : Py.Exc text_analysis :=
  doc <- fitz_open pdf ;;
  let results :=
    mk_text_analysis false (Z.of_nat (List.length doc)) 0 0 Py.f0_0 Py.f0_0 in
  results <- text_layer_loop doc results ;;
  if total_pages results >? 0 then
    ratio <- Py.int_truediv (pages_with_text results) (total_pages results) ;;
    avg <- Py.int_truediv (total_text_length results)
                          (Z.max (pages_with_text results) 1) ;;
    Py.ret (mk_text_analysis (has_text_layer results) (total_pages results)
              (pages_with_text results) (total_text_length results) ratio avg)
  else Py.ret results.

Definition needs_ocr_analysis (text_analysis0 : text_analysis)
           (visual_analysis : Py.float) (file_metrics0 : file_metrics) : bool :=
  let rules :=
    [ negb (has_text_layer text_analysis0);
      Py.flt (text_pages_ratio text_analysis0) Py.f0_3;
      Py.flt visual_analysis Py.f0_02;
      Py.fgt (file_size_mb file_metrics0) (Py.of_int 5)
        && Py.flt (avg_text_per_page text_analysis0) (Py.of_int 50);
      (total_pages text_analysis0 >? 10)
        && Py.flt (text_pages_ratio text_analysis0) Py.f0_5 ] in
  Py.any rules.

End TextQualityCheck.

(** ** Inputs of the scenarios *)

Definition f0_9 : Py.float := S754_finite false 8106479329266893 (-53).   (* 0.9 *)
Definition f0_15 : Py.float := S754_finite false 5404319552844595 (-55).  (* 0.15 *)
Definition f0_4 : Py.float := S754_finite false 7205759403792794 (-54).   (* 0.4 *)
Definition f2_pow_m10 : Py.float := S754_finite false 4503599627370496 (-62). (* 2 ** -10 *)

(** A conversion to luminance with the weights OpenCV documents for
    [COLOR_RGB2GRAY] (0.299, 0.587, 0.114), for concrete runs on pages
    that are already grey; OpenCV's fixed-point arithmetic rounds some
    pixels differently, and every theorem holds for any conversion. *)
Definition rgb2gray_601 (rgb : Z * Z * Z) : Z :=
  let '(r, g, b) := rgb in (299 * r + 587 * g + 114 * b + 500) / 1000.

(** Scenario C: 20 pages, 18 with text, 300 characters on average. *)
Definition scenario_C_text (total_len : Z) : text_analysis :=
  mk_text_analysis true 20 18 total_len f0_9 (Py.of_int 300).
Definition scenario_C_file (name : string) : file_metrics :=
  mk_file_metrics (Py.of_int 2) name.

(** A list of rule outcomes in which rule [i] (from 0) alone holds. *)
Definition one_hot (i : nat) : list bool := map (Nat.eqb i) (seq 0 5).

(** Scenario A: ten pages of 500 characters each, one megabyte, no
    [pdftoppm] on the path. *)
Definition scenario_A_pdf : pdf_file :=
  mk_pdf_file "a.pdf" (inr 1048576)
    (inr (repeat (inr (repeat 97%N 500)) 10))
    None
    (inl (Py.RuntimeError "Unable to get page count. Is poppler installed and in PATH?")).

(** A file PyMuPDF cannot open, and one it reads. *)
Definition corrupt_pdf : pdf_file :=
  mk_pdf_file "corrupt.pdf" (inr 4096)
    (inl (Py.FileDataError "Failed to open file"))
    (Some "/usr/bin"%string)
    (inl (Py.RuntimeError "Unable to get page count.")).

Definition missing_pdf : pdf_file :=
  mk_pdf_file "missing.pdf"
    (inl (Py.OSError "No such file or directory"))
    (inl (Py.FileDataError "no such file"))
    (Some "/usr/bin"%string)
    (inl (Py.RuntimeError "Unable to get page count.")).

Definition half_inked : image :=
  Gray (mk_ndarray 1 2 [0; 255]).

(** the densities 0.1, 0.2, ..., 0.8 of eight pages *)
Definition tenths : list Py.float :=
  [ S754_finite false 7205759403792794 (-56);
    S754_finite false 7205759403792794 (-55);
    S754_finite false 5404319552844595 (-54);
    S754_finite false 7205759403792794 (-54);
    S754_finite false 4503599627370496 (-53);
    S754_finite false 5404319552844595 (-53);
    S754_finite false 6305039478318694 (-53);
    S754_finite false 7205759403792794 (-53) ].

Definition good_pdf : pdf_file :=
  mk_pdf_file "good.pdf" (inr 2097152)
    (inr [inr [104; 105]%N; inr [32; 111; 107; 10]%N])
    (Some "/usr/bin"%string)
    (inr [half_inked; half_inked]).

(** A document whose second page makes [get_text] raise. *)
Definition bad_page_pdf : pdf_file :=
  mk_pdf_file "badpage.pdf" (inr 4096)
    (inr [inr [97; 98; 99]%N; inl (Py.RuntimeError "cannot load page")])
    None
    (inr []).

(** A document of which poppler renders two pages: OpenCV rejects the
    first, the second is all ink. *)
Definition all_ink : image :=
  Gray (mk_ndarray 1 2 [0; 0]).

Definition partial_failure_pdf : pdf_file :=
  mk_pdf_file "partial.pdf" (inr 4096)
    (inr [inr []; inr []])
    (Some "/usr/bin"%string)
    (inr [Unsupported (Py.RuntimeError "unsupported image mode"); all_ink]).

(** ** What the text-layer loop computes, stated on the page texts *)

(** a page counts as a text page when its stripped text is not empty *)
Definition has_text (text : Py.str) : bool := Py.str_truthy (Py.strip text).

Definition count_text_pages (texts : list Py.str) : Z :=
  Z.of_nat (List.length (filter has_text texts)).

Fixpoint sum_text_length (texts : list Py.str) : Z :=
  match texts with
  | [] => 0
  | text :: rest =>
      (if has_text text then Py.len (Py.strip text) else 0)
      + sum_text_length rest
  end.

(** the rows a batch yields: one per document whose analysis returned *)
Definition rows_of (cvt : Z * Z * Z -> Z) (pdf_files : list pdf_file)
  : list Py.dict :=
  flat_map (fun pdf =>
              match PDF_Ocr_Analyzer.analyze_pdf_ocr_need_body cvt pdf with
              | inr row => [row]
              | inl _ => []
              end) pdf_files.

(** ** Valid non-negative binary64 values

    [scaled x] is the value of [x] times 2^1074, an integer for every
    valid finite value; [good x] says [x] is [+0.0] or a positive finite
    value in canonical form. *)

Definition scaled (x : Py.float) : Z :=
  match x with
  | S754_finite false m e => Zpos m * 2 ^ (e + 1074)
  | _ => 0
  end.

Definition good (x : Py.float) : Prop :=
  x = S754_zero false
  \/ exists m e, x = S754_finite false m e
                 /\ bounded Py.prec Py.emax m e = true.

(** the exponent of the binary64 format for a value of magnitude [e] *)
Abbreviation fexp := (SpecFloat.fexp Py.prec Py.emax).

(** whether a right shift has lost a non-zero bit *)
Definition inexact (mrs : shr_record) : bool := shr_r mrs || shr_s mrs.

(** The exponent and the shift [SFdiv] chooses for two finite operands. *)
Definition div_exp (mx : positive) (ex : Z) (my : positive) (ey : Z) : Z :=
  Z.min (fexp (Zdigits2 (Zpos mx) + ex - (Zdigits2 (Zpos my) + ey))) (ex - ey).

Definition div_shift (mx : positive) (ex : Z) (my : positive) (ey : Z) : Z :=
  ex - ey - div_exp mx ex my ey.

(** a value of [0.0, 1.0] in valid form *)
Definition unit_interval (x : Py.float) : Prop :=
  good x /\ scaled x <= scaled Py.f1_0.

(** a valid value that is at most the integer [B] *)
Definition at_most (B : Z) (x : Py.float) : Prop :=
  good x /\ scaled x <= B * 2 ^ 1074.

(** An array as poppler renders a page: as many cells as its shape says,
    at least one and fewer than 2^53. *)
Definition wf_array {A} (a : ndarray A) : Prop :=
  List.length (cells a) = (shape0 a * shape1 a)%nat
  /\ 0 < Z.of_nat (shape0 a) * Z.of_nat (shape1 a) < 2 ^ 53.

Definition wf_image (img : image) : Prop :=
  match img with
  | Gray a => wf_array a
  | RGB a => wf_array a
  | Unsupported _ => True
  end.

(** A numpy array, with or without pixels: as many cells as its shape
    says, fewer than 2^53. *)
Definition np_array {A} (a : ndarray A) : Prop :=
  List.length (cells a) = (shape0 a * shape1 a)%nat
  /\ Z.of_nat (shape0 a) * Z.of_nat (shape1 a) < 2 ^ 53.

Definition np_image (img : image) : Prop :=
  match img with
  | Gray a => np_array a
  | RGB a => np_array a
  | Unsupported _ => True
  end.

(** a console that takes every line *)
Definition takes_every_line (out : Py.stdout) : Prop :=
  forall line, out line = Py.ret tt.

(** a console that cannot encode what the program prints *)
Definition ascii_console : Py.stdout :=
  fun _ => Py.raise (Py.UnicodeEncodeError
                       "'ascii' codec can't encode character")%string.

(** a file that opens and takes every line *)
Definition writable : csv_file := mk_csv_file (inr tt) None.

(** ** The report, the page texts and the rendered pages

    Notions in which the properties of the report, of the text-layer
    loop and of the page density are stated. *)

(** a result the report counts as requiring OCR:
    [r.get('ocr_required', False)] *)
Definition flagged (x : Py.dict) : bool :=
  Py.value_truthy (Py.get_default x "ocr_required" (Py.VBool false)).

(** [x] is listed no later than [y]: the sort key of [y] is not below
    the sort key of [x] *)
Definition row_le (x y : Py.dict) : Prop :=
  match PDF_Ocr_Analyzer.report_key x, PDF_Ocr_Analyzer.report_key y with
  | Some kx, Some ky => PDF_Ocr_Analyzer.key_lt ky kx = false
  | _, _ => False
  end.

(** whether the sort key of [x] is [k] *)
Definition has_key (k : bool * string) (x : Py.dict) : bool :=
  match PDF_Ocr_Analyzer.report_key x with
  | Some k' => Bool.eqb (fst k) (fst k') && String.eqb (snd k) (snd k')
  | None => false
  end.

(** [text'] is [text] between two runs of white space *)
Definition padded (text text' : Py.str) : Prop :=
  exists before after,
    Forall (fun c => Py.isspace c = true) before
    /\ Forall (fun c => Py.isspace c = true) after
    /\ text' = before ++ text ++ after.

(** the array [calculate_text_density] thresholds: the page itself when
    it has two dimensions, its conversion when it has three *)
Definition gray_of (cvt : Z * Z * Z -> Z) (img : image)
  : option (ndarray Z) :=
  match img with
  | Gray a => Some a
  | RGB a => Some (mk_ndarray (shape0 a) (shape1 a) (map cvt (cells a)))
  | Unsupported _ => None
  end.

(** the pixels the threshold turns into ink: those of value at most 127 *)
Definition dark_pixels (gray : ndarray Z) : Z :=
  Z.of_nat (List.length (filter (fun v => v <=? 127) (cells gray))).


(** a document that [os.stat] and PyMuPDF read without error, of a size
    and with a text that binary64 can hold *)
Definition readable (pdf : pdf_file) : Prop :=
  (exists size, st_size pdf = inr size /\ 0 <= size <= 2 ^ 1023)
  /\ exists texts,
       fitz_open pdf = inr (map inr texts)
       /\ sum_text_length texts <= 2 ^ 1023.

(** ** The decision engine *)

Section DecisionEngine.

Import PDF_Ocr_Analyzer.

Lemma any_true_iff (l : list bool) : Py.any l = true <-> In true l.
Proof.
  unfold Py.any. rewrite existsb_exists. split.
  - intros [b [Hin Hb]]. now subst.
  - intros Hin. now exists true.
Qed.

Lemma needs_ocr_analysis_rules text d file :
  needs_ocr_analysis text d file = true <-> In true (rules text d file).
Proof. apply any_true_iff. Qed.

Lemma needs_ocr_analysis_same text d file :
  TextQualityCheck.needs_ocr_analysis text d file
  = needs_ocr_analysis text d file.
Proof. reflexivity. Qed.

End DecisionEngine.

(** ** Order on binary64 values *)

Section FloatOrder.

Lemma SFcompare_finite_pos m1 e1 m2 e2 :
  SFcompare (S754_finite false m1 e1) (S754_finite false m2 e2)
  = Some match e1 ?= e2 with
         | Lt => Lt
         | Gt => Gt
         | Eq => (m1 ?= m2)%positive
         end.
Proof. reflexivity. Qed.

Lemma SFcompare_finite_neg m1 e1 m2 e2 :
  SFcompare (S754_finite true m1 e1) (S754_finite true m2 e2)
  = Some match e1 ?= e2 with
         | Lt => Gt
         | Gt => Lt
         | Eq => CompOpp (m1 ?= m2)%positive
         end.
Proof. reflexivity. Qed.

(** [x <= y] and [y < z] give [x < z], NaN included. *)
Lemma fle_flt_trans (x y z : Py.float) :
  Py.fle x y = true -> Py.flt y z = true -> Py.flt x z = true.
Proof.
  unfold Py.fle, Py.flt, SFleb, SFltb.
  destruct x as [sx|sx| |sx mx ex], y as [sy|sy| |sy my ey],
      z as [sz|sz| |sz mz ez];
    try (destruct sx); try (destruct sy); try (destruct sz);
    try (cbn; congruence).
  - rewrite !SFcompare_finite_neg.
    destruct (Z.compare_spec ex ey), (Z.compare_spec ey ez),
      (Z.compare_spec ex ez); try lia; subst; try congruence;
      cbn; try congruence.
    destruct (Pos.compare_spec mx my), (Pos.compare_spec my mz),
      (Pos.compare_spec mx mz); cbn; try congruence; lia.
  - rewrite !SFcompare_finite_pos.
    destruct (Z.compare_spec ex ey), (Z.compare_spec ey ez),
      (Z.compare_spec ex ez); try lia; subst; try congruence;
      cbn; try congruence.
    destruct (Pos.compare_spec mx my), (Pos.compare_spec my mz),
      (Pos.compare_spec mx mz); cbn; try congruence; lia.
Qed.

(** Swapping the operands of a comparison reverses its outcome. *)
Lemma SFcompare_antisym (x y : Py.float) :
  SFcompare y x = match SFcompare x y with
                  | Some c => Some (CompOpp c)
                  | None => None
                  end.
Proof.
  destruct x as [sx|sx| |sx mx ex], y as [sy|sy| |sy my ey];
    try (destruct sx); try (destruct sy); try reflexivity.
  - rewrite !SFcompare_finite_neg, (Z.compare_antisym ex ey),
      (Pos.compare_antisym mx my).
    destruct (ex ?= ey), (mx ?= my)%positive; reflexivity.
  - rewrite !SFcompare_finite_pos, (Z.compare_antisym ex ey),
      (Pos.compare_antisym mx my).
    destruct (ex ?= ey), (mx ?= my)%positive; reflexivity.
Qed.

(** Only NaN is unordered. *)
Lemma SFcompare_none (x y : Py.float) :
  SFcompare x y = None -> x = S754_nan \/ y = S754_nan.
Proof.
  destruct x as [sx|sx| |sx mx ex], y as [sy|sy| |sy my ey];
    try (destruct sx); try (destruct sy); cbn [SFcompare]; auto; discriminate.
Qed.

End FloatOrder.

(** ** Rounding in binary64 *)

Section Binary64.

Lemma fexp_eq e : fexp e = Z.max (e - 53) (-1074).
Proof. reflexivity. Qed.

Lemma fexp_mono a b : a <= b -> fexp a <= fexp b.
Proof. rewrite !fexp_eq. lia. Qed.

(** *** Powers of two *)

Lemma pow2_pos k : 0 <= k -> 0 < 2 ^ k.
Proof. intros. apply Z.pow_pos_nonneg; lia. Qed.

Lemma pow2_le a b : 0 <= a <= b -> 2 ^ a <= 2 ^ b.
Proof. intros. apply Z.pow_le_mono_r; lia. Qed.

Lemma pow2_lt_inv a b : 0 <= b -> 2 ^ a < 2 ^ b -> a < b.
Proof. intros Hb H. apply (Z.pow_lt_mono_r_iff 2); lia. Qed.

Lemma pow2_split a b : 0 <= a <= b -> 2 ^ b = 2 ^ a * 2 ^ (b - a).
Proof. intros. rewrite <- Z.pow_add_r by lia. f_equal. lia. Qed.

Lemma mul_chain a b c d x y :
  a <= x -> y < b -> 0 < c -> 0 < d -> x * c <= y * d -> a * c < b * d.
Proof.
  intros. assert (a * c <= x * c) by nia. assert (y * d < b * d) by nia. lia.
Qed.

(** *** Number of binary digits *)

Lemma digits2_pos_bounds p :
  2 ^ (Zpos (digits2_pos p) - 1) <= Zpos p < 2 ^ Zpos (digits2_pos p).
Proof.
  induction p as [p IH|p IH|]; cbn [digits2_pos];
    rewrite ?Pos2Z.inj_succ.
  - replace (Z.succ (Zpos (digits2_pos p)) - 1)
      with (Z.succ (Zpos (digits2_pos p) - 1)) by lia.
    rewrite !Z.pow_succ_r by lia. lia.
  - replace (Z.succ (Zpos (digits2_pos p)) - 1)
      with (Z.succ (Zpos (digits2_pos p) - 1)) by lia.
    rewrite !Z.pow_succ_r by lia. lia.
  - cbn. lia.
Qed.

Lemma Zdigits2_bounds m :
  0 < m -> 2 ^ (Zdigits2 m - 1) <= m < 2 ^ Zdigits2 m.
Proof. destruct m as [|p|p]; try lia. intros _. apply digits2_pos_bounds. Qed.

Lemma Zdigits2_nonneg m : 0 <= Zdigits2 m.
Proof. destruct m; cbn; lia. Qed.

Lemma Zdigits2_pos m : 0 < m -> 0 < Zdigits2 m.
Proof. destruct m; cbn; lia. Qed.

Lemma Zdigits2_le_pow m k : 0 <= k -> 0 <= m < 2 ^ k -> Zdigits2 m <= k.
Proof.
  intros Hk [H0 Hm]. destruct (Z.eq_dec m 0) as [->|Hne]; [cbn; lia|].
  pose proof (Zdigits2_bounds m ltac:(lia)) as [Hlo _].
  assert (Zdigits2 m - 1 < k); [|lia].
  apply pow2_lt_inv; lia.
Qed.

Lemma Zdigits2_gt_pow m k : 0 <= k -> 2 ^ k <= m -> k < Zdigits2 m.
Proof.
  intros Hk Hm. pose proof (pow2_pos k Hk).
  pose proof (Zdigits2_bounds m ltac:(lia)) as [_ Hhi].
  apply pow2_lt_inv; [apply Zdigits2_nonneg|lia].
Qed.

(** *** Shifting right with sticky bits *)

Lemma iter_pos_nat {A} (f : A -> A) n : forall x,
  iter_pos f n x = Nat.iter (Pos.to_nat n) f x.
Proof.
  induction n as [n IH|n IH|]; intros x; cbn [iter_pos].
  - rewrite !IH, Pos2Nat.inj_xI.
    replace (S (2 * Pos.to_nat n)) with (Pos.to_nat n + (Pos.to_nat n + 1))%nat by lia.
    rewrite !Nat.iter_add. reflexivity.
  - rewrite !IH, Pos2Nat.inj_xO.
    replace (2 * Pos.to_nat n)%nat with (Pos.to_nat n + Pos.to_nat n)%nat by lia.
    rewrite Nat.iter_add. reflexivity.
  - reflexivity.
Qed.

Lemma shr_1_spec mrs :
  0 <= shr_m mrs ->
  shr_m (shr_1 mrs) = shr_m mrs / 2
  /\ inexact (shr_1 mrs) = Z.odd (shr_m mrs) || inexact mrs.
Proof.
  destruct mrs as [m r s]. unfold inexact. cbn [shr_m shr_r shr_s].
  intros Hm. destruct m as [|[p|p|]|p]; try lia; cbn [shr_1 shr_m shr_r shr_s].
  - split; reflexivity.
  - split; [|reflexivity].
    rewrite Pos2Z.inj_xI. apply Z.div_unique with 1; lia.
  - split; [|reflexivity].
    rewrite Pos2Z.inj_xO. apply Z.div_unique with 0; lia.
  - split; reflexivity.
Qed.

Lemma shr_iter_spec k : forall mrs,
  0 <= shr_m mrs ->
  shr_m (Nat.iter k shr_1 mrs) = shr_m mrs / 2 ^ Z.of_nat k
  /\ (inexact (Nat.iter k shr_1 mrs) = false <->
      shr_m mrs mod 2 ^ Z.of_nat k = 0 /\ inexact mrs = false).
Proof.
  induction k as [|k IH]; intros mrs Hm.
  - cbn. rewrite Z.div_1_r, Z.mod_1_r. tauto.
  - rewrite Nat.iter_succ. destruct (IH mrs Hm) as [IHm IHi].
    assert (H2k : 0 < 2 ^ Z.of_nat k) by (apply pow2_pos; lia).
    assert (Hk : 0 <= shr_m (Nat.iter k shr_1 mrs)).
    { rewrite IHm. apply Z.div_pos; lia. }
    destruct (shr_1_spec _ Hk) as [Sm Si].
    rewrite Sm, Si, IHm, Nat2Z.inj_succ, Z.pow_succ_r by lia.
    split.
    + rewrite Z.div_div by lia. f_equal. lia.
    + rewrite orb_false_iff, IHi.
      rewrite (Z.mul_comm 2), Z.rem_mul_r by lia.
      pose proof (Z.mod_pos_bound (shr_m mrs) (2 ^ Z.of_nat k) H2k).
      pose proof (Z.mod_pos_bound (shr_m mrs / 2 ^ Z.of_nat k) 2 ltac:(lia)).
      rewrite <- Z.negb_even, negb_false_iff.
      rewrite Zeven_mod, Z.eqb_eq.
      set (a := shr_m mrs mod 2 ^ Z.of_nat k) in *.
      set (b := (shr_m mrs / 2 ^ Z.of_nat k) mod 2) in *.
      split.
      * intros [Hb [Ha Hi]]. split; [nia|exact Hi].
      * intros [Hab Hi]. assert (b = 0) by nia. assert (a = 0) by nia. tauto.
Qed.

Lemma loc_exact_iff mrs :
  loc_of_shr_record mrs = loc_Exact <-> inexact mrs = false.
Proof. destruct mrs as [m [|] [|]]; cbn; split; congruence. Qed.

Lemma record_of_loc_spec m l :
  shr_m (shr_record_of_loc m l) = m
  /\ (inexact (shr_record_of_loc m l) = false <-> l = loc_Exact).
Proof. destruct l as [|[| |]]; cbn; split; try split; congruence. Qed.

Lemma round_nearest_even_bounds m l :
  m <= round_nearest_even m l <= m + 1
  /\ (l = loc_Exact -> round_nearest_even m l = m).
Proof.
  destruct l as [|[| |]]; cbn [round_nearest_even];
    try destruct (Z.even m); split; try lia; congruence.
Qed.

(** [shr_fexp]: the mantissa is divided by a power of two, the result
    is exact when nothing is lost. *)
Lemma shr_fexp_spec mx ex lx :
  0 <= mx ->
  exists mrs,
    shr_fexp Py.prec Py.emax mx ex lx
    = (mrs, Z.max ex (fexp (Zdigits2 mx + ex)))
    /\ shr_m mrs = mx / 2 ^ (Z.max ex (fexp (Zdigits2 mx + ex)) - ex)
    /\ (loc_of_shr_record mrs = loc_Exact <->
        mx mod 2 ^ (Z.max ex (fexp (Zdigits2 mx + ex)) - ex) = 0
        /\ lx = loc_Exact).
Proof.
  intros Hmx. unfold shr_fexp, shr.
  destruct (record_of_loc_spec mx lx) as [Rm Ri].
  remember (fexp (Zdigits2 mx + ex) - ex) as n eqn:Hn.
  destruct n as [|p|p].
  - exists (shr_record_of_loc mx lx).
    replace (Z.max ex (fexp (Zdigits2 mx + ex))) with ex by lia.
    rewrite Z.sub_diag, Z.pow_0_r, Z.div_1_r, Z.mod_1_r, loc_exact_iff.
    repeat split; tauto.
  - exists (iter_pos shr_1 p (shr_record_of_loc mx lx)).
    replace (Z.max ex (fexp (Zdigits2 mx + ex))) with (ex + Zpos p) by lia.
    replace (ex + Zpos p - ex) with (Zpos p) by lia.
    rewrite iter_pos_nat, loc_exact_iff.
    destruct (shr_iter_spec (Pos.to_nat p) (shr_record_of_loc mx lx))
      as [Sm Si]; [rewrite Rm; exact Hmx|].
    rewrite positive_nat_Z, Rm in *.
    repeat split; try tauto.
  - exists (shr_record_of_loc mx lx).
    replace (Z.max ex (fexp (Zdigits2 mx + ex))) with ex by lia.
    rewrite Z.sub_diag, Z.pow_0_r, Z.div_1_r, Z.mod_1_r, loc_exact_iff.
    repeat split; tauto.
Qed.

Lemma bounded_spec m e :
  bounded Py.prec Py.emax m e = true <->
  fexp (Zdigits2 (Zpos m) + e) = e /\ e <= 971.
Proof.
  unfold bounded, canonical_mantissa.
  rewrite andb_true_iff, Z.eqb_eq, Z.leb_le. reflexivity.
Qed.

Lemma bounded_facts m e :
  bounded Py.prec Py.emax m e = true ->
  -1074 <= e <= 971 /\ Zpos m < 2 ^ 53
  /\ (2 ^ 52 <= Zpos m \/ e = -1074).
Proof.
  rewrite bounded_spec, fexp_eq. intros [Hc He].
  pose proof (Zdigits2_bounds (Zpos m) ltac:(lia)) as [Hlo Hhi].
  pose proof (Zdigits2_pos (Zpos m) ltac:(lia)) as Hd.
  split; [lia|]. split.
  - eapply Z.lt_le_trans; [exact Hhi|]. apply pow2_le. lia.
  - destruct (Z.eq_dec e (-1074)) as [->|Hne]; [now right|left].
    replace (Zdigits2 (Zpos m)) with 53 in Hlo by lia. exact Hlo.
Qed.

Lemma bounded_intro m e :
  -1074 <= e <= 971 -> 0 < m < 2 ^ 53 -> (2 ^ 52 <= m \/ e = -1074) ->
  exists p, m = Zpos p /\ bounded Py.prec Py.emax p e = true.
Proof.
  intros He Hm Hnorm. destruct m as [|p|p]; try lia. exists p.
  split; [reflexivity|]. rewrite bounded_spec, fexp_eq. split; [|lia].
  pose proof (Zdigits2_le_pow (Zpos p) 53 ltac:(lia) ltac:(lia)).
  pose proof (Zdigits2_pos (Zpos p) ltac:(lia)).
  destruct Hnorm as [Hn| ->]; [|lia].
  pose proof (Zdigits2_gt_pow (Zpos p) 52 ltac:(lia) Hn). lia.
Qed.

(** Rounding to nearest never crosses a representable bound: when the
    value [mx * 2^ex] (located by [lx]) is at most [mC * 2^eC], so is
    its rounding, which is a valid non-negative binary64. *)
Lemma round_aux_le mx ex lx mC eC :
  0 <= mx ->
  ex <= fexp (Zdigits2 mx + ex) ->
  bounded Py.prec Py.emax mC eC = true ->
  ex <= eC ->
  (mx < Zpos mC * 2 ^ (eC - ex)
   \/ (mx = Zpos mC * 2 ^ (eC - ex) /\ lx = loc_Exact)) ->
  good (binary_round_aux Py.prec Py.emax false mx ex lx)
  /\ scaled (binary_round_aux Py.prec Py.emax false mx ex lx)
     <= scaled (S754_finite false mC eC).
Proof.
  intros Hmx Hal HC Hex Hle.
  destruct (bounded_facts _ _ HC) as (HeC & HmC & _).
  apply bounded_spec in HC. destruct HC as [HcC _].
  set (d := Zdigits2 mx) in *.
  set (e1 := fexp (d + ex)) in *.
  assert (He1 : -1074 <= e1 /\ d + ex - 53 <= e1). { unfold e1; rewrite fexp_eq; lia. }
  assert (Hd : 0 <= d) by apply Zdigits2_nonneg.
  assert (HK : mx <= Zpos mC * 2 ^ (eC - ex)) by lia.
  pose proof (pow2_pos (eC - ex) ltac:(lia)) as HpK.
  (* the exponent after the first shift is at most eC *)
  assert (He1C : e1 <= eC).
  { destruct (Z.eq_dec mx 0) as [H0|H0].
    - unfold e1, d in *. rewrite H0 in *. cbn [Zdigits2] in *.
      rewrite fexp_eq in *. lia.
    - pose proof (Zdigits2_bounds mx ltac:(lia)) as [Hlo _]. fold d in Hlo.
      pose proof (Zdigits2_bounds (Zpos mC) ltac:(lia)) as [_ HhiC].
      pose proof (Zdigits2_pos (Zpos mC) ltac:(lia)) as HdC.
      assert (d - 1 < Zdigits2 (Zpos mC) + (eC - ex)).
      { apply pow2_lt_inv; [lia|]. rewrite Z.pow_add_r by lia. nia. }
      rewrite <- HcC. unfold e1. apply fexp_mono. lia. }
  set (n := e1 - ex) in *.
  assert (Hn : 0 <= n) by (unfold n; lia).
  pose proof (pow2_pos n Hn) as Hpn.
  set (K1 := Zpos mC * 2 ^ (eC - e1)).
  pose proof (pow2_pos (eC - e1) ltac:(lia)) as HpK1.
  assert (HKK : Zpos mC * 2 ^ (eC - ex) = K1 * 2 ^ n).
  { unfold K1, n. rewrite <- Z.mul_assoc, <- Z.pow_add_r by lia.
    do 2 f_equal. lia. }
  destruct (shr_fexp_spec mx ex lx Hmx) as (mrs & Heq & Hm1 & Hloc).
  replace (Z.max ex (fexp (Zdigits2 mx + ex))) with e1 in * by (unfold e1, d in *; lia).
  fold n in Hm1, Hloc.
  unfold binary_round_aux. rewrite Heq.
  set (m1 := shr_m mrs) in *.
  destruct (round_nearest_even_bounds m1 (loc_of_shr_record mrs)) as [Hr Hrx].
  set (m2 := round_nearest_even m1 (loc_of_shr_record mrs)) in *.
  assert (Hm1pos : 0 <= m1) by (rewrite Hm1; apply Z.div_pos; lia).
  (* the rounded mantissa stays below the bound *)
  assert (Hm2K : m2 <= K1).
  { destruct Hle as [Hlt|[Heq' Hx]].
    - assert (m1 < K1); [|lia].
      rewrite Hm1. apply Z.div_lt_upper_bound; [lia|]. rewrite Z.mul_comm. lia.
    - assert (Hexact : loc_of_shr_record mrs = loc_Exact).
      { apply Hloc. split; [|exact Hx]. rewrite Heq', HKK. apply Z.mod_mul. lia. }
      rewrite (Hrx Hexact), Hm1, Heq', HKK, Z.div_mul; lia. }
  assert (Hm1hi : m1 < 2 ^ 53).
  { rewrite Hm1. apply Z.div_lt_upper_bound; [lia|].
    destruct (Z.eq_dec mx 0) as [->|H0]; [lia|].
    pose proof (Zdigits2_bounds mx ltac:(lia)) as [_ Hhi]. fold d in Hhi.
    eapply Z.lt_le_trans; [exact Hhi|].
    rewrite <- Z.pow_add_r by lia. apply pow2_le. unfold n. lia. }
  assert (Hm1lo : 2 ^ 52 <= m1 \/ e1 = -1074).
  { destruct (Z.eq_dec e1 (-1074)) as [|Hne]; [now right|left].
    assert (Hn' : n = d - 53) by (unfold n, e1 in *; rewrite fexp_eq in *; lia).
    assert (H0 : 0 < mx).
    { destruct (Z.eq_dec mx 0) as [H0|H0]; [|lia].
      unfold d in *. rewrite H0 in *. cbn [Zdigits2] in *. lia. }
    pose proof (Zdigits2_bounds mx H0) as [Hlo _]. fold d in Hlo.
    rewrite Hm1. apply Z.div_le_lower_bound; [lia|].
    rewrite <- Z.pow_add_r by lia.
    replace (n + 52) with (d - 1) by lia. exact Hlo. }
  assert (Hsc : 2 ^ (eC + 1074) = 2 ^ (eC - e1) * 2 ^ (e1 + 1074)).
  { rewrite <- Z.pow_add_r by lia. f_equal. lia. }
  pose proof (pow2_pos (e1 + 1074) ltac:(lia)) as Hpe1.
  destruct (shr_fexp_spec m2 e1 loc_Exact ltac:(lia)) as (mrs2 & Heq2 & Hm3 & _).
  rewrite Heq2.
  destruct (Z_lt_le_dec m2 (2 ^ 53)) as [Hsmall|Hbig].
  - (* no renormalization *)
    pose proof (Zdigits2_le_pow m2 53 ltac:(lia) ltac:(lia)) as Hd2.
    replace (Z.max e1 (fexp (Zdigits2 m2 + e1))) with e1 in *
      by (rewrite fexp_eq; lia).
    rewrite Z.sub_diag, Z.pow_0_r, Z.div_1_r in Hm3. rewrite Hm3.
    destruct (Z.eq_dec m2 0) as [->|H0].
    + split; [now left|]. cbn [scaled].
      pose proof (pow2_pos (eC + 1074) ltac:(lia)). lia.
    + destruct (bounded_intro m2 e1) as (p & Hp & Hb); try lia.
      rewrite Hp.
      replace (e1 <=? Py.emax - Py.prec) with true
        by (symmetry; apply Z.leb_le; unfold Py.emax, Py.prec; lia).
      split; [right; eauto|]. cbn [scaled]. rewrite <- Hp, Hsc.
      unfold K1 in Hm2K. nia.
  - (* the mantissa reached 2^53 *)
    assert (Hm2 : m2 = 2 ^ 53) by lia.
    assert (He1lt : e1 < eC).
    { destruct (Z.eq_dec e1 eC) as [E|E]; [|lia].
      unfold K1 in Hm2K. rewrite E, Z.sub_diag, Z.pow_0_r in Hm2K. lia. }
    rewrite Hm2 in *.
    replace (Zdigits2 (2 ^ 53)) with 54 in * by reflexivity.
    replace (Z.max e1 (fexp (54 + e1))) with (e1 + 1) in *
      by (rewrite fexp_eq; lia).
    replace (e1 + 1 - e1) with 1 in Hm3 by lia.
    replace (2 ^ 53 / 2 ^ 1) with (Zpos (4503599627370496)) in Hm3 by reflexivity.
    rewrite Hm3.
    replace (e1 + 1 <=? Py.emax - Py.prec) with true
        by (symmetry; apply Z.leb_le; unfold Py.emax, Py.prec; lia).
    split.
    + right. do 2 eexists. split; [reflexivity|].
      rewrite bounded_spec, fexp_eq.
      replace (Zdigits2 (Zpos 4503599627370496)) with 53 by reflexivity. lia.
    + cbn [scaled]. rewrite Hsc.
      replace (e1 + 1 + 1074) with (Z.succ (e1 + 1074)) by lia.
      rewrite Z.pow_succ_r by lia. unfold K1 in Hm2K. nia.
Qed.

Lemma good_nonneg x : good x -> Py.fle Py.f0_0 x = true.
Proof. intros [->|(m & e & -> & _)]; reflexivity. Qed.


(** On valid non-negative values the order of binary64 is the order of
    the scaled integers. *)
Lemma good_fle x y :
  good x -> good y -> scaled x <= scaled y -> Py.fle x y = true.
Proof.
  intros [->|(mx & ex & -> & Hx)] [->|(my & ey & -> & Hy)]; try reflexivity.
  - cbn [scaled]. destruct (bounded_facts _ _ Hx) as (He & _).
    pose proof (pow2_pos (ex + 1074) ltac:(lia)). lia.
  - cbn [scaled]. intros Hle.
    destruct (bounded_facts _ _ Hx) as (Hex & Hmx & Hnx).
    destruct (bounded_facts _ _ Hy) as (Hey & Hmy & Hny).
    pose proof (pow2_pos (ex + 1074) ltac:(lia)) as Hpx.
    pose proof (pow2_pos (ey + 1074) ltac:(lia)) as Hpy.
    unfold Py.fle, SFleb. rewrite SFcompare_finite_pos.
    destruct (Z.compare_spec ex ey) as [->|Hlt|Hgt]; [|reflexivity|].
    + destruct (Pos.compare_spec mx my) as [->|Hlt|Hgt]; try reflexivity.
      nia.
    + exfalso.
      assert (2 ^ (ex + 1074) = 2 ^ (ex - ey) * 2 ^ (ey + 1074)) as Hs.
      { rewrite <- Z.pow_add_r by lia. f_equal. lia. }
      assert (2 ^ 1 <= 2 ^ (ex - ey)) by (apply pow2_le; lia).
      change (2 ^ 1) with 2 in *.
      destruct Hnx as [Hnx|Hnx]; [|lia].
      change (2 ^ 53) with (2 * 2 ^ 52) in Hmy. nia.
Qed.

Lemma div_eucl_eq a b : Z.div_eucl a b = (a / b, a mod b).
Proof. unfold Z.div, Z.modulo. now destruct (Z.div_eucl a b). Qed.

Lemma new_location_zero nb : new_location nb 0 = loc_Exact.
Proof.
  unfold new_location, new_location_even, new_location_odd.
  now destruct (Z.even nb).
Qed.

(** The quotient of two positive finite operands is a valid binary64 at
    most [C] when the dividend is at most [C] times the divisor. *)
Lemma fdiv_le mx ex my ey mC eC c :
  bounded Py.prec Py.emax mC eC = true ->
  0 <= ex + c -> 0 <= eC + ey + c ->
  Zpos mx * 2 ^ (ex + c) <= Zpos mC * Zpos my * 2 ^ (eC + ey + c) ->
  good (Py.fdiv (S754_finite false mx ex) (S754_finite false my ey))
  /\ scaled (Py.fdiv (S754_finite false mx ex) (S754_finite false my ey))
     <= scaled (S754_finite false mC eC).
Proof.
  intros BC Ha Hb Hle.
  unfold Py.fdiv, SFdiv, SFdiv_core_binary. cbn [xorb].
  set (d1 := Zdigits2 (Zpos mx)). set (d2 := Zdigits2 (Zpos my)).
  set (dC := Zdigits2 (Zpos mC)).
  set (D := d1 + ex - (d2 + ey)).
  set (e' := Z.min (fexp D) (ex - ey)).
  set (s := ex - ey - e').
  pose proof (Zdigits2_bounds (Zpos mx) ltac:(lia)) as [Hlo1 Hhi1].
  pose proof (Zdigits2_bounds (Zpos my) ltac:(lia)) as [Hlo2 Hhi2].
  pose proof (Zdigits2_bounds (Zpos mC) ltac:(lia)) as [HloC HhiC].
  pose proof (Zdigits2_pos (Zpos mx) ltac:(lia)) as Hd1.
  pose proof (Zdigits2_pos (Zpos my) ltac:(lia)) as Hd2.
  pose proof (Zdigits2_pos (Zpos mC) ltac:(lia)) as HdC.
  fold d1 in Hlo1, Hhi1, Hd1. fold d2 in Hlo2, Hhi2, Hd2.
  fold dC in HloC, HhiC, HdC.
  pose proof BC as BC'. apply bounded_spec in BC'. destruct BC' as [HcC _].
  fold dC in HcC.
  pose proof (pow2_pos (ex + c) Ha) as Hpa.
  pose proof (pow2_pos (eC + ey + c) Hb) as Hpb.
  assert (HD : D <= dC + eC).
  { assert (d1 - 1 + (ex + c) < dC + d2 + (eC + ey + c)); [|unfold D; lia].
    apply pow2_lt_inv; [lia|].
    rewrite (Z.pow_add_r 2 (d1 - 1)), (Z.pow_add_r 2 (dC + d2)),
      (Z.pow_add_r 2 dC) by lia.
    apply (mul_chain _ _ _ _ (Zpos mx) (Zpos mC * Zpos my)); try assumption.
    pose proof (pow2_pos d2 ltac:(lia)). nia. }
  assert (He' : e' <= eC /\ e' <= fexp D /\ e' <= ex - ey).
  { pose proof (fexp_mono _ _ HD). unfold e'. lia. }
  assert (Hs : 0 <= s) by (unfold s; lia).
  pose proof (pow2_pos s Hs) as Hps.
  set (m' := match s with
             | 0 => Zpos mx
             | Zpos _ => Z.shiftl (Zpos mx) s
             | Zneg _ => 0
             end).
  assert (Hm' : m' = Zpos mx * 2 ^ s).
  { unfold m'. destruct s eqn:E; try lia.
    apply Z.shiftl_mul_pow2. lia. }
  clearbody m'. rewrite div_eucl_eq.
  set (q := m' / Zpos my). set (r := m' mod Zpos my).
  pose proof (Z.div_mod m' (Zpos my) ltac:(lia)) as Hdm.
  pose proof (Z.mod_pos_bound m' (Zpos my) ltac:(lia)) as Hr.
  fold q r in Hdm, Hr.
  assert (Hq0 : 0 <= q) by (apply Z.div_pos; lia).
  set (K := Zpos mC * 2 ^ (eC - e')).
  pose proof (pow2_pos (eC - e') ltac:(lia)) as HpK.
  (* the shifted dividend is at most K times the divisor *)
  assert (Hbound : m' <= Zpos my * K).
  { unfold K. rewrite Hm'.
    destruct (Z_lt_le_dec (ey + c + e') 0) as [Hg|Hg].
    - pose proof (pow2_pos (- (ey + c + e')) ltac:(lia)) as Hpg.
      replace s with ((ex + c) + - (ey + c + e')) by (unfold s; lia).
      replace (eC - e') with ((eC + ey + c) + - (ey + c + e')) by lia.
      rewrite (Z.pow_add_r 2 (ex + c)), (Z.pow_add_r 2 (eC + ey + c)) by lia.
      set (X := 2 ^ (ex + c)) in *. set (Y := 2 ^ (eC + ey + c)) in *.
      set (G := 2 ^ (- (ey + c + e'))) in *.
      assert (Zpos mx * X * G <= Zpos mC * Zpos my * Y * G) by nia. lia.
    - pose proof (pow2_pos (ey + c + e') Hg) as Hpg.
      assert (Zpos mx * 2 ^ s * 2 ^ (ey + c + e')
              <= Zpos my * (Zpos mC * 2 ^ (eC - e')) * 2 ^ (ey + c + e'));
        [|nia].
      rewrite <- !Z.mul_assoc, <- !Z.pow_add_r by lia.
      replace (s + (ey + c + e')) with (ex + c) by (unfold s; lia).
      replace (eC - e' + (ey + c + e')) with (eC + ey + c) by lia. lia. }
  apply round_aux_le.
  - exact Hq0.
  - (* the quotient has enough digits *)
    destruct (Z.eq_dec q 0) as [Hz|Hnz].
    + rewrite Hz. cbn [Zdigits2]. rewrite Z.add_0_l.
      assert (d1 - 1 + s < d2).
      { apply pow2_lt_inv; [lia|]. rewrite Z.pow_add_r by lia. nia. }
      rewrite fexp_eq in *. unfold s, D in *. lia.
    + pose proof (Zdigits2_bounds q ltac:(lia)) as [_ Hhiq].
      pose proof (Zdigits2_pos q ltac:(lia)) as Hdq.
      assert (d1 - 1 + s < Zdigits2 q + d2).
      { apply pow2_lt_inv; [lia|]. rewrite !Z.pow_add_r by lia. nia. }
      eapply Z.le_trans; [apply (proj1 (proj2 He'))|].
      apply fexp_mono. unfold s, D in *. lia.
  - exact BC.
  - lia.
  - fold K.
    destruct (Z.eq_dec r 0) as [Hr0|Hr0].
    + destruct (Z.eq_dec q K) as [Hq|Hq].
      * right. split; [exact Hq|]. rewrite Hr0. apply new_location_zero.
      * left. nia.
    + left. nia.
Qed.

(** In particular the quotient is in [0, 1] when the dividend is at most
    the divisor. *)
Lemma fdiv_le_one mx ex my ey c :
  0 <= ex + c -> 0 <= ey + c ->
  Zpos mx * 2 ^ (ex + c) <= Zpos my * 2 ^ (ey + c) ->
  good (Py.fdiv (S754_finite false mx ex) (S754_finite false my ey))
  /\ scaled (Py.fdiv (S754_finite false mx ex) (S754_finite false my ey))
     <= scaled Py.f1_0.
Proof.
  intros Ha Hb Hle.
  apply (fdiv_le mx ex my ey 4503599627370496 (-52) (c + 52));
    [reflexivity|lia|lia|].
  replace (ex + (c + 52)) with (ex + c + 52) by lia.
  replace (-52 + ey + (c + 52)) with (ey + c) by lia.
  rewrite Z.pow_add_r by lia.
  change (Zpos 4503599627370496) with (2 ^ 52).
  pose proof (pow2_pos 52 ltac:(lia)). nia.
Qed.

Lemma Zdigits2_unique m k :
  0 < m -> 2 ^ (k - 1) <= m < 2 ^ k -> Zdigits2 m = k.
Proof.
  intros Hm [Hlo Hhi].
  assert (Hk : 0 < k).
  { destruct (Z_lt_le_dec 0 k); [assumption|].
    destruct (Z.eq_dec k 0) as [->|]; [cbn in Hhi; lia|].
    rewrite (Z.pow_neg_r 2 k) in Hhi by lia. lia. }
  pose proof (Zdigits2_le_pow m k ltac:(lia) ltac:(lia)).
  pose proof (Zdigits2_gt_pow m (k - 1) ltac:(lia) Hlo). lia.
Qed.

Lemma Zdigits2_shift m k :
  0 < m -> 0 <= k -> Zdigits2 (m * 2 ^ k) = Zdigits2 m + k.
Proof.
  intros Hm Hk. pose proof (pow2_pos k Hk).
  pose proof (Zdigits2_bounds m Hm) as [Hlo Hhi].
  pose proof (Zdigits2_pos m Hm).
  apply Zdigits2_unique; [nia|].
  replace (Zdigits2 m + k - 1) with (Zdigits2 m - 1 + k) by lia.
  rewrite !Z.pow_add_r by lia. nia.
Qed.

Lemma Pos_iter_xO m d : Zpos (Pos.iter xO m d) = Zpos m * 2 ^ Zpos d.
Proof.
  induction d as [|d IH] using Pos.peano_ind.
  - cbn. lia.
  - rewrite Pos.iter_succ, Pos2Z.inj_xO, IH, Pos2Z.inj_succ,
      Z.pow_succ_r by lia. lia.
Qed.

(** [shl_align]: the exponent is lowered to the target, exactly. *)
Lemma shl_align_spec mx ex e :
  snd (shl_align mx ex e) = Z.min ex e
  /\ Zpos (fst (shl_align mx ex e)) = Zpos mx * 2 ^ (ex - Z.min ex e).
Proof.
  unfold shl_align. destruct (e - ex) as [|d|d] eqn:E; cbn [fst snd].
  - replace (Z.min ex e) with ex by lia. rewrite Z.sub_diag. cbn. lia.
  - replace (Z.min ex e) with ex by lia. rewrite Z.sub_diag. cbn. lia.
  - replace (Z.min ex e) with e by lia. split; [reflexivity|].
    rewrite Pos_iter_xO. do 2 f_equal. lia.
Qed.

(** Rounding a representable value changes nothing. *)
Lemma round_aux_id m e :
  bounded Py.prec Py.emax m e = true ->
  binary_round_aux Py.prec Py.emax false (Zpos m) e loc_Exact
  = S754_finite false m e.
Proof.
  intros Hb. apply bounded_spec in Hb. destruct Hb as [Hc He].
  unfold binary_round_aux.
  destruct (shr_fexp_spec (Zpos m) e loc_Exact ltac:(lia))
    as (mrs & Heq & Hm & Hloc).
  rewrite Hc, Z.max_id, Z.sub_diag, Z.pow_0_r in *.
  rewrite Z.div_1_r in Hm. rewrite Z.mod_1_r in Hloc.
  rewrite Heq. rewrite (proj2 Hloc (conj eq_refl eq_refl)), Hm.
  cbn [round_nearest_even]. rewrite Heq, Hm.
  replace (e <=? Py.emax - Py.prec) with true; [reflexivity|].
  symmetry. apply Z.leb_le. unfold Py.emax, Py.prec. lia.
Qed.

(** [float(n)] is exact below 2^53. *)
Lemma of_int_spec n :
  0 < n < 2 ^ 53 ->
  exists m e,
    Py.of_int n = S754_finite false m e
    /\ bounded Py.prec Py.emax m e = true
    /\ Zpos m * 2 ^ (e + 1074) = n * 2 ^ 1074.
Proof.
  intros Hn. destruct n as [|p|p]; try lia.
  unfold Py.of_int, binary_normalize, binary_round.
  destruct (shl_align_spec p 0 (fexp (Zpos (digits2_pos p) + 0))) as [Se Sm].
  destruct (shl_align p 0 (fexp (Zpos (digits2_pos p) + 0))) as [mz ez].
  cbn [fst snd] in Se, Sm.
  change (Zpos (digits2_pos p)) with (Zdigits2 (Zpos p)) in *.
  pose proof (Zdigits2_le_pow (Zpos p) 53 ltac:(lia) ltac:(lia)) as Hd.
  pose proof (Zdigits2_pos (Zpos p) ltac:(lia)) as Hd0.
  rewrite fexp_eq in Se.
  assert (Hez : ez = Zdigits2 (Zpos p) - 53) by lia.
  replace (0 - Z.min 0 (fexp (Zdigits2 (Zpos p) + 0))) with (- ez) in Sm
    by (rewrite fexp_eq; lia).
  assert (Hb : bounded Py.prec Py.emax mz ez = true).
  { rewrite bounded_spec, Sm, Zdigits2_shift, fexp_eq by lia. lia. }
  exists mz, ez. split; [apply round_aux_id; exact Hb|]. split; [exact Hb|].
  rewrite Sm, <- Z.mul_assoc, <- Z.pow_add_r by lia. do 2 f_equal. lia.
Qed.

(** The sum of two valid non-negative values bounded by the integers
    [A] and [B] is valid and bounded by [A + B], as long as [A + B] is
    below 2^53. *)
Lemma fadd_le x y A B :
  good x -> good y ->
  scaled x <= A * 2 ^ 1074 -> scaled y <= B * 2 ^ 1074 ->
  0 <= A -> 0 <= B -> A + B < 2 ^ 53 ->
  good (Py.fadd x y) /\ scaled (Py.fadd x y) <= (A + B) * 2 ^ 1074.
Proof.
  intros Gx Gy Hx Hy HA HB HAB.
  assert (HP : 0 < 2 ^ 1074) by (apply pow2_pos; lia).
  destruct Gx as [->|(mx & ex & -> & Bx)], Gy as [->|(my & ey & -> & By)].
  - split; [now left|]. cbn [Py.fadd SFadd scaled]. nia.
  - change (Py.fadd (S754_zero false) (S754_finite false my ey))
      with (S754_finite false my ey).
    split; [right; eauto|]. nia.
  - change (Py.fadd (S754_finite false mx ex) (S754_zero false))
      with (S754_finite false mx ex).
    split; [right; eauto|]. nia.
  - cbn [scaled] in Hx, Hy.
    destruct (bounded_facts _ _ Bx) as (Hex & _).
    destruct (bounded_facts _ _ By) as (Hey & _).
    pose proof (pow2_pos (ex + 1074) ltac:(lia)) as Hpx.
    pose proof (pow2_pos (ey + 1074) ltac:(lia)) as Hpy.
    assert (HAB1 : 0 < A + B) by nia.
    destruct (of_int_spec (A + B) ltac:(lia)) as (mC & eC & _ & BC & HC).
    rewrite <- HC. change (Zpos mC * 2 ^ (eC + 1074))
      with (scaled (S754_finite false mC eC)).
    unfold Py.fadd, SFadd. cbn [cond_Zopp].
    set (ez := Z.min ex ey).
    destruct (shl_align_spec mx ex ez) as [_ Sx].
    destruct (shl_align_spec my ey ez) as [_ Sy].
    replace (Z.min ex ez) with ez in Sx by (unfold ez; lia).
    replace (Z.min ey ez) with ez in Sy by (unfold ez; lia).
    set (ax := fst (shl_align mx ex ez)) in *.
    set (ay := fst (shl_align my ey ez)) in *.
    change (Zpos ax + Zpos ay) with (Zpos (ax + ay)).
    cbn [binary_normalize]. unfold binary_round.
    destruct (shl_align_spec (ax + ay) ez
                (fexp (Zpos (digits2_pos (ax + ay)) + ez))) as [Se Sm].
    destruct (shl_align (ax + ay) ez
                (fexp (Zpos (digits2_pos (ax + ay)) + ez))) as [mz ez'].
    cbn [fst snd] in Se, Sm.
    change (Zpos (digits2_pos (ax + ay))) with (Zdigits2 (Zpos (ax + ay))) in *.
    set (m := Zpos (ax + ay)) in *.
    assert (Hm : m = Zpos mx * 2 ^ (ex - ez) + Zpos my * 2 ^ (ey - ez))
      by (unfold m; rewrite Pos2Z.inj_add; lia).
    assert (Hez : -1074 <= ez) by (unfold ez; lia).
    pose proof (pow2_pos (ez + 1074) ltac:(lia)) as Hpz.
    (* the exact sum, scaled *)
    assert (Hsum : m * 2 ^ (ez + 1074) <= Zpos mC * 2 ^ (eC + 1074)).
    { rewrite HC, Hm, Z.mul_add_distr_r, <- !Z.mul_assoc, <- !Z.pow_add_r
        by (unfold ez; lia).
      replace (ex - ez + (ez + 1074)) with (ex + 1074) by lia.
      replace (ey - ez + (ez + 1074)) with (ey + 1074) by lia. lia. }
    destruct (bounded_facts _ _ BC) as (HeC & HmC & _).
    pose proof BC as BC'. apply bounded_spec in BC'. destruct BC' as [HcC _].
    pose proof (pow2_pos (eC + 1074) ltac:(lia)) as HpC.
    (* its magnitude is at most that of the bound *)
    assert (Hmag : Zdigits2 m + ez <= Zdigits2 (Zpos mC) + eC).
    { pose proof (Zdigits2_bounds m ltac:(lia)) as [Hlo _].
      pose proof (Zdigits2_bounds (Zpos mC) ltac:(lia)) as [_ Hhi].
      pose proof (Zdigits2_pos m ltac:(lia)).
      pose proof (Zdigits2_pos (Zpos mC) ltac:(lia)).
      assert (Zdigits2 m - 1 + (ez + 1074) < Zdigits2 (Zpos mC) + (eC + 1074));
        [|lia].
      apply pow2_lt_inv; [lia|].
      rewrite (Z.pow_add_r 2 (Zdigits2 m - 1)),
        (Z.pow_add_r 2 (Zdigits2 (Zpos mC))) by lia.
      eapply mul_chain; eauto. }
    assert (Hfe : fexp (Zdigits2 m + ez) <= eC)
      by (rewrite <- HcC; apply fexp_mono; exact Hmag).
    assert (Hez' : -1074 <= ez' <= ez /\ ez' <= eC)
      by (rewrite fexp_eq in *; lia).
    rewrite <- Se in Sm.
    pose proof (pow2_pos (ez - ez') ltac:(lia)) as Hpd.
    apply round_aux_le.
    + lia.
    + rewrite Sm, Zdigits2_shift by lia.
      replace (Zdigits2 m + (ez - ez') + ez') with (Zdigits2 m + ez) by lia.
      lia.
    + exact BC.
    + lia.
    + assert (Hle : Zpos mz <= Zpos mC * 2 ^ (eC - ez')).
      { assert (Zpos mz * 2 ^ (ez' + 1074)
                <= Zpos mC * 2 ^ (eC - ez') * 2 ^ (ez' + 1074)).
        { rewrite Sm, <- !Z.mul_assoc, <- !Z.pow_add_r by lia.
          replace (ez - ez' + (ez' + 1074)) with (ez + 1074) by lia.
          replace (eC - ez' + (ez' + 1074)) with (eC + 1074) by lia.
          exact Hsum. }
        pose proof (pow2_pos (ez' + 1074) ltac:(lia)). nia. }
      destruct (Z.eq_dec (Zpos mz) (Zpos mC * 2 ^ (eC - ez'))); [right|left];
        [split; [assumption|reflexivity]|lia].
Qed.

Lemma good_one : good Py.f1_0.
Proof. right. do 2 eexists. split; reflexivity. Qed.

Lemma unit_interval_zero : unit_interval Py.f0_0.
Proof. split; [now left|]. cbn. lia. Qed.

Lemma unit_interval_fle x :
  unit_interval x ->
  Py.fle Py.f0_0 x = true /\ Py.fle x Py.f1_0 = true.
Proof.
  intros [G H]. split; [now apply good_nonneg|].
  apply good_fle; auto using good_one.
Qed.

(** The quotient of two exact integers, [0 <= a <= b], [0 < b < 2^53]. *)
Lemma fdiv_of_int_unit a b :
  0 <= a <= b -> 0 < b < 2 ^ 53 ->
  unit_interval (Py.fdiv (Py.of_int a) (Py.of_int b)).
Proof.
  intros Ha Hb.
  destruct (of_int_spec b Hb) as (mb & eb & -> & Bb & Vb).
  destruct (Z.eq_dec a 0) as [->|Hne].
  - apply unit_interval_zero.
  - destruct (of_int_spec a ltac:(lia)) as (ma & ea & -> & Ba & Va).
    destruct (bounded_facts _ _ Ba) as (Hea & _).
    destruct (bounded_facts _ _ Bb) as (Heb & _).
    apply (fdiv_le_one ma ea mb eb 1074); lia.
Qed.

Lemma min_one_unit x : unit_interval x -> unit_interval (Py.min x Py.f1_0).
Proof.
  intros H. unfold Py.min. destruct (Py.flt Py.f1_0 x); [|exact H].
  split; [apply good_one|lia].
Qed.

(** The sum from the left of [n] values of [0, 1] is at most [k + n]
    when it starts from a value at most [k]. *)
Lemma fold_fadd_le l : forall acc k,
  Forall unit_interval l ->
  good acc -> scaled acc <= k * 2 ^ 1074 -> 0 <= k ->
  k + Z.of_nat (List.length l) < 2 ^ 53 ->
  good (fold_left Py.fadd l acc)
  /\ scaled (fold_left Py.fadd l acc)
     <= (k + Z.of_nat (List.length l)) * 2 ^ 1074.
Proof.
  induction l as [|x l IH]; intros acc k Hl Ga Ha Hk Hlen.
  - cbn. rewrite Z.add_0_r. auto.
  - inversion Hl as [|? ? [Gx Hx] Hl']; subst.
    cbn [fold_left List.length] in *. rewrite Nat2Z.inj_succ in *.
    destruct (fadd_le acc x k 1 Ga Gx Ha) as [Gs Hs]; try lia.
    { change (scaled Py.f1_0) with (1 * 2 ^ 1074) in Hx. exact Hx. }
    destruct (IH (Py.fadd acc x) (k + 1) Hl' Gs Hs) as [G H]; try lia.
    split; [exact G|]. replace (k + Z.succ (Z.of_nat (List.length l)))
      with (k + 1 + Z.of_nat (List.length l)) by lia. exact H.
Qed.

End Binary64.

(** ** The text-layer analyzer, the orchestrator and the batch driver *)

Section Pipeline.

Import PDF_Ocr_Analyzer.

Variable cvt : Z * Z * Z -> Z.

Lemma text_layer_same pdf :
  TextQualityCheck.analyze_pdf_text_layer pdf = analyze_pdf_text_layer pdf.
Proof. reflexivity. Qed.

(** The loop on pages that all extract. *)
Lemma text_layer_loop_ok texts : forall results,
  text_layer_loop (map inr texts) results
  = Py.ret (mk_text_analysis
              (has_text_layer results || existsb has_text texts)
              (total_pages results)
              (pages_with_text results + count_text_pages texts)
              (total_text_length results + sum_text_length texts)
              (text_pages_ratio results)
              (avg_text_per_page results)).
Proof.
  induction texts as [|text rest IH]; intros results.
  - cbn. unfold count_text_pages. cbn.
    rewrite orb_false_r, !Z.add_0_r. now destruct results.
  - cbn [map text_layer_loop Py.bind]. rewrite IH.
    unfold text_layer_step, count_text_pages. cbn [existsb filter sum_text_length].
    fold (has_text text). destruct (has_text text); cbn [has_text_layer
      total_pages pages_with_text total_text_length text_pages_ratio
      avg_text_per_page List.length orb].
    + f_equal. f_equal; try lia.
    + reflexivity.
Qed.

(** The loop stops at the first page whose extraction raises. *)
Lemma text_layer_loop_raises before e after : forall results,
  text_layer_loop (map inr before ++ inl e :: after) results = Py.raise e.
Proof.
  induction before as [|text rest IH]; intros results.
  - reflexivity.
  - cbn [map app text_layer_loop Py.bind]. apply IH.
Qed.

(** The orchestrator returns [None] exactly when its body raises. *)
Lemma analyze_pdf_ocr_need_spec pdf :
  analyze_pdf_ocr_need cvt pdf
  = Py.ret match analyze_pdf_ocr_need_body cvt pdf with
           | inr result => Some result
           | inl _ => None
           end.
Proof.
  unfold analyze_pdf_ocr_need.
  now destruct (analyze_pdf_ocr_need_body cvt pdf).
Qed.

Lemma analyze_pdf_ocr_need_body_nonempty pdf result :
  analyze_pdf_ocr_need_body cvt pdf = inr result ->
  Py.truthy (Some result) = true.
Proof.
  unfold analyze_pdf_ocr_need_body.
  destruct (get_file_metrics pdf) as [|file]; [discriminate|].
  destruct (analyze_pdf_text_layer pdf) as [|text]; [discriminate|].
  cbn. intros [= <-]. reflexivity.
Qed.

(** The batch loop never reaches its [except] branch: its rows are those
    of the documents whose analysis returned, in order. *)
Lemma folder_loop_spec pdf_files : forall results,
  folder_loop cvt pdf_files results = Py.ret (results ++ rows_of cvt pdf_files).
Proof.
  induction pdf_files as [|pdf rest IH]; intros results.
  - cbn. now rewrite app_nil_r.
  - cbn [folder_loop rows_of flat_map]. rewrite analyze_pdf_ocr_need_spec.
    cbn [Py.ret].
    destruct (analyze_pdf_ocr_need_body cvt pdf) as [e|row] eqn:Hbody.
    + cbn. apply IH.
    + rewrite (analyze_pdf_ocr_need_body_nonempty _ _ Hbody).
      rewrite IH. unfold rows_of. now rewrite <- app_assoc.
Qed.

Lemma analyze_pdf_folder_spec pdf_files :
  analyze_pdf_folder cvt (Some pdf_files) = Py.ret (rows_of cvt pdf_files).
Proof.
  destruct pdf_files as [|pdf rest]; [reflexivity|].
  unfold analyze_pdf_folder. now rewrite folder_loop_spec.
Qed.

(** What [save_to_csv] writes to a file that opens and takes every
    line: the header, then one row per result, each cell the value of
    its field or [''] when the result lacks it. *)
Lemma save_to_csv_spec result results filename :
  csv_open filename = inr tt -> csv_room filename = None ->
  exists rows,
    save_to_csv (result :: results) filename
    = Some (map Py.VStr fieldnames :: rows)
    /\ List.length rows = List.length (result :: results)
    /\ forall i r, nth_error (result :: results) i = Some r ->
         nth_error rows i
         = Some (map (fun field => Py.get_default r field (Py.VStr ""))
                     fieldnames).
Proof.
  intros Hopen Hroom. unfold save_to_csv. rewrite Hopen, Hroom.
  eexists. split; [reflexivity|]. split; [now rewrite length_map|].
  intros i r Hi. now rewrite nth_error_map, Hi.
Qed.

(** Whatever the file does, [save_to_csv] hands the writer nothing but
    the first lines of [csv_lines]. *)
Lemma save_to_csv_prefix results filename lines :
  save_to_csv results filename = Some lines ->
  results <> []
  /\ csv_open filename = inr tt
  /\ exists n, lines = firstn n (csv_lines results).
Proof.
  unfold save_to_csv. destruct results as [|r rest]; [discriminate|].
  destruct (csv_open filename) as [e|[]]; [discriminate|].
  intros [= <-]. split; [discriminate|]. split; [reflexivity|].
  destruct (csv_room filename) as [n|]; cbn [taken].
  - now exists n.
  - exists (List.length (csv_lines (r :: rest))). now rewrite firstn_all.
Qed.

Lemma open_failure_body pdf e :
  fitz_open pdf = inl e ->
  exists e', analyze_pdf_ocr_need_body cvt pdf = inl e'.
Proof.
  intros Hopen. unfold analyze_pdf_ocr_need_body, analyze_pdf_text_layer.
  rewrite Hopen.
  destruct (get_file_metrics pdf) as [e1|file]; cbn; eauto.
Qed.

End Pipeline.

(** ** The derived metrics and the density estimate *)

Section Metrics.

Import PDF_Ocr_Analyzer.

Variable cvt : Z * Z * Z -> Z.

(** [a / b] for [0 <= a <= b], [b] positive, returns a value of [0, 1]. *)
Lemma int_truediv_unit a b :
  0 <= a <= b -> 0 < b ->
  exists q, Py.int_truediv a b = Py.ret q /\ unit_interval q.
Proof.
  intros Ha Hb. unfold Py.int_truediv.
  replace (b =? 0) with false by (symmetry; apply Z.eqb_neq; lia).
  destruct b as [|pb|pb]; try lia.
  destruct a as [|pa|pa]; try lia.
  - exists Py.f0_0. split; [reflexivity|apply unit_interval_zero].
  - cbn [Py.raw_int].
    destruct (fdiv_le_one pa 0 pb 0 0) as [G H]; try lia.
    exists (Py.fdiv (S754_finite false pa 0) (S754_finite false pb 0)).
    split; [|split; assumption].
    destruct G as [->|(m & e & -> & _)]; reflexivity.
Qed.

Lemma pages_all_or_first_failure (pages : list (Py.Exc Py.str)) :
  (exists texts, pages = map inr texts)
  \/ (exists before e after, pages = map inr before ++ inl e :: after).
Proof.
  induction pages as [|[e|text] rest IH].
  - left. now exists [].
  - right. now exists [], e, rest.
  - destruct IH as [[texts ->]|(before & e & after & ->)].
    + left. now exists (text :: texts).
    + right. now exists (text :: before), e, after.
Qed.

Lemma count_text_pages_bounds texts :
  0 <= count_text_pages texts <= Z.of_nat (List.length texts).
Proof.
  unfold count_text_pages. split; [lia|]. apply Nat2Z.inj_le.
  induction texts as [|text rest IH]; cbn [filter List.length]; [lia|].
  destruct (has_text text); cbn [List.length]; lia.
Qed.

Lemma has_text_layer_count texts :
  existsb has_text texts = (count_text_pages texts >? 0).
Proof.
  unfold count_text_pages.
  induction texts as [|text rest IH]; cbn [existsb filter]; [reflexivity|].
  destruct (has_text text); cbn [orb List.length]; [|exact IH].
  symmetry. apply Z.gtb_lt. lia.
Qed.

Lemma sum_text_length_nonneg texts : 0 <= sum_text_length texts.
Proof.
  induction texts as [|text rest IH]; cbn [sum_text_length]; [lia|].
  unfold Py.len. destruct (has_text text); lia.
Qed.

(** [a / b] returns (no [OverflowError]) for [0 <= a <= 2^1023]. *)
Lemma int_truediv_returns a b :
  0 <= a <= 2 ^ 1023 -> 0 < b ->
  exists q, Py.int_truediv a b = Py.ret q.
Proof.
  intros Ha Hb. unfold Py.int_truediv.
  replace (b =? 0) with false by (symmetry; apply Z.eqb_neq; lia).
  destruct b as [|pb|pb]; try lia.
  destruct a as [|pa|pa]; try lia.
  - now exists Py.f0_0.
  - cbn [Py.raw_int].
    destruct (fdiv_le pa 0 pb 0 4503599627370496 971 0) as [G _];
      [reflexivity|lia|lia| |].
    + change (Zpos 4503599627370496) with (2 ^ 52).
      change (2 ^ (0 + 0)) with 1. change (2 ^ (971 + 0 + 0)) with (2 ^ 971).
      change (2 ^ 1023) with (2 ^ 52 * 2 ^ 971) in Ha.
      assert (0 < 2 ^ 52 * 2 ^ 971) by reflexivity. nia.
    + exists (Py.fdiv (S754_finite false pa 0) (S754_finite false pb 0)).
      destruct G as [->|(m & e & -> & _)]; reflexivity.
Qed.

(** The analyzer returns when the document opens, every page extracts
    and the text is shorter than 2^1023 characters. *)
Lemma analyze_pdf_text_layer_returns pdf texts :
  fitz_open pdf = inr (map inr texts) ->
  sum_text_length texts <= 2 ^ 1023 ->
  exists metrics, analyze_pdf_text_layer pdf = Py.ret metrics.
Proof.
  intros Hopen Hsum. unfold analyze_pdf_text_layer. rewrite Hopen.
  cbn [Py.bind]. rewrite text_layer_loop_ok. cbn [Py.bind Py.ret].
  cbn [total_pages pages_with_text total_text_length has_text_layer
       text_pages_ratio avg_text_per_page orb].
  rewrite length_map, !Z.add_0_l.
  pose proof (count_text_pages_bounds texts) as Hc.
  pose proof (sum_text_length_nonneg texts) as Hs.
  destruct (Z.of_nat (List.length texts) >? 0) eqn:Hpos; [|eauto].
  apply Z.gtb_lt in Hpos.
  destruct (int_truediv_unit (count_text_pages texts)
              (Z.of_nat (List.length texts)) Hc Hpos) as (q & -> & _).
  destruct (int_truediv_returns (sum_text_length texts)
              (Z.max (count_text_pages texts) 1)) as (avg & ->); try lia.
  cbn [Py.bind Py.ret]. eauto.
Qed.

(** What the returned record counts. *)
Lemma analyze_pdf_text_layer_counts pdf texts metrics :
  fitz_open pdf = inr (map inr texts) ->
  analyze_pdf_text_layer pdf = Py.ret metrics ->
  total_pages metrics = Z.of_nat (List.length texts)
  /\ pages_with_text metrics = count_text_pages texts
  /\ total_text_length metrics = sum_text_length texts.
Proof.
  intros Hopen.
  unfold analyze_pdf_text_layer. rewrite Hopen.
  cbn [Py.bind]. rewrite text_layer_loop_ok. cbn [Py.bind Py.ret].
  cbn [total_pages pages_with_text total_text_length has_text_layer].
  rewrite length_map.
  destruct (Z.of_nat (List.length texts) >? 0).
  - destruct (Py.int_truediv _ _); [discriminate|].
    destruct (Py.int_truediv _ _); [discriminate|].
    cbn. intros [= <-]. cbn. repeat split; lia.
  - intros [= <-]. cbn. repeat split; lia.
Qed.

Lemma count_255_bounds (l : list Z) :
  0 <= count_255 l <= Z.of_nat (List.length l).
Proof.
  unfold count_255. split; [lia|]. apply Nat2Z.inj_le.
  induction l as [|v rest IH]; cbn [filter List.length]; [lia|].
  destruct (v =? 255); cbn [List.length]; lia.
Qed.

Lemma density_of_gray_unit (a : ndarray Z) (d : Py.float) :
  np_array a -> density_of_gray a = Py.ret d -> unit_interval d.
Proof.
  intros [Hlen Hsize]. unfold density_of_gray.
  destruct (Z.of_nat (shape0 a) * Z.of_nat (shape1 a) =? 0) eqn:E;
    [discriminate|].
  apply Z.eqb_neq in E. intros [= <-].
  apply min_one_unit, fdiv_of_int_unit; [|lia].
  pose proof (count_255_bounds (map threshold_binary_inv (cells a))) as H.
  rewrite length_map, Hlen, Nat2Z.inj_mul in H. exact H.
Qed.

Lemma calculate_text_density_unit img :
  np_image img -> unit_interval (calculate_text_density cvt img).
Proof.
  unfold calculate_text_density.
  destruct (text_density cvt img) as [e|d] eqn:E;
    [intros _; apply unit_interval_zero|].
  destruct img as [a|a|e]; cbn [np_image text_density] in *.
  - intros Ha. exact (density_of_gray_unit a d Ha E).
  - intros [Hlen Hsize]. refine (density_of_gray_unit _ d _ E).
    split; cbn [cells shape0 shape1]; [now rewrite length_map|exact Hsize].
  - discriminate E.
Qed.

Lemma wf_np_image img : wf_image img -> np_image img.
Proof.
  destruct img as [a|a|e]; cbn; [| |trivial];
    intros [Hlen Hsize]; split; [exact Hlen|lia|exact Hlen|lia].
Qed.

(** *** The order in which numpy adds *)

Lemma at_most_unit x : unit_interval x <-> at_most 1 x.
Proof.
  unfold unit_interval, at_most.
  change (scaled Py.f1_0) with (1 * 2 ^ 1074). reflexivity.
Qed.

Lemma at_most_zero : at_most 0 Py.f0_0.
Proof. split; [now left|]. cbn. lia. Qed.

Lemma at_most_fadd A B x y :
  at_most A x -> at_most B y -> 0 <= A -> 0 <= B -> A + B < 2 ^ 53 ->
  at_most (A + B) (Py.fadd x y).
Proof.
  intros [Gx Hx] [Gy Hy] HA HB Hlt.
  exact (fadd_le x y A B Gx Gy Hx Hy HA HB Hlt).
Qed.

Lemma at_most_le A B x : at_most A x -> A <= B -> at_most B x.
Proof.
  intros [G H] Hle. split; [exact G|].
  pose proof (pow2_pos 1074 ltac:(lia)). nia.
Qed.

Lemma fold_fadd_at_most B l : forall acc k,
  Forall (at_most B) l -> at_most k acc -> 0 <= k -> 0 <= B ->
  k + B * Z.of_nat (List.length l) < 2 ^ 53 ->
  at_most (k + B * Z.of_nat (List.length l)) (fold_left Py.fadd l acc).
Proof.
  induction l as [|x l IH]; intros acc k Hl Ha Hk HB Hlen.
  - cbn [fold_left List.length]. now replace (k + B * Z.of_nat 0) with k by lia.
  - inversion Hl as [|? ? Hx Hl']; subst.
    cbn [fold_left List.length] in *. rewrite Nat2Z.inj_succ in *.
    replace (k + B * Z.succ (Z.of_nat (List.length l)))
      with (k + B + B * Z.of_nat (List.length l)) by lia.
    apply IH; try assumption; try nia.
    apply at_most_fadd; try assumption; nia.
Qed.

(** The eight accumulators, once no full block is left. *)
Lemma pairwise_rest_at_most B C r0 r1 r2 r3 r4 r5 r6 r7 l :
  at_most C r0 -> at_most C r1 -> at_most C r2 -> at_most C r3 ->
  at_most C r4 -> at_most C r5 -> at_most C r6 -> at_most C r7 ->
  Forall (at_most B) l -> 0 <= B -> 0 <= C ->
  8 * C + B * Z.of_nat (List.length l) < 2 ^ 53 ->
  at_most (8 * C + B * Z.of_nat (List.length l))
    (fold_left Py.fadd l
       (Py.fadd (Py.fadd (Py.fadd r0 r1) (Py.fadd r2 r3))
                (Py.fadd (Py.fadd r4 r5) (Py.fadd r6 r7)))).
Proof.
  intros H0 H1 H2 H3 H4 H5 H6 H7 Hl HB HC Hlt.
  assert (Hn : 0 <= B * Z.of_nat (List.length l)) by nia.
  apply fold_fadd_at_most; try assumption; try lia.
  replace (8 * C) with ((C + C + (C + C)) + (C + C + (C + C))) by lia.
  repeat (apply at_most_fadd; try assumption; try lia).
Qed.

Lemma pairwise_blocks_at_most B : forall n l C r0 r1 r2 r3 r4 r5 r6 r7,
  (List.length l <= n)%nat ->
  at_most C r0 -> at_most C r1 -> at_most C r2 -> at_most C r3 ->
  at_most C r4 -> at_most C r5 -> at_most C r6 -> at_most C r7 ->
  Forall (at_most B) l -> 0 <= B -> 0 <= C ->
  8 * C + B * Z.of_nat (List.length l) < 2 ^ 53 ->
  at_most (8 * C + B * Z.of_nat (List.length l))
    (pairwise_blocks r0 r1 r2 r3 r4 r5 r6 r7 l).
Proof.
  induction n as [|n IH];
    intros l C r0 r1 r2 r3 r4 r5 r6 r7 Hn H0 H1 H2 H3 H4 H5 H6 H7 Hl HB HC Hlt.
  - destruct l; [|cbn in Hn; lia]. cbn [pairwise_blocks].
    now apply pairwise_rest_at_most.
  - destruct l as [|a0 [|a1 [|a2 [|a3 [|a4 [|a5 [|a6 [|a7 rest]]]]]]]];
      try (cbn [pairwise_blocks]; now apply pairwise_rest_at_most).
    cbn [pairwise_blocks].
    repeat match goal with
           | H : Forall _ (_ :: _) |- _ =>
               let Hx := fresh "Ha" in
               apply Forall_cons_iff in H; destruct H as [Hx H]
           end.
    cbn [List.length] in *.
    replace (8 * C + B * Z.of_nat (S (S (S (S (S (S (S (S (List.length rest))))))))))
      with (8 * (C + B) + B * Z.of_nat (List.length rest)) by lia.
    apply IH; try assumption; try lia;
      apply at_most_fadd; try assumption; nia.
Qed.

Lemma pairwise_sum_eq fuel l :
  pairwise_sum fuel l
  = if (List.length l <? 8)%nat then fold_left Py.fadd l Py.f0_0
    else if (List.length l <=? 128)%nat then
      match l with
      | a0 :: a1 :: a2 :: a3 :: a4 :: a5 :: a6 :: a7 :: rest =>
          pairwise_blocks a0 a1 a2 a3 a4 a5 a6 a7 rest
      | _ => Py.f0_0
      end
    else
      match fuel with
      | O => Py.f0_0
      | S fuel' =>
          Py.fadd
            (pairwise_sum fuel'
               (firstn (List.length l / 2 - (List.length l / 2) mod 8) l))
            (pairwise_sum fuel'
               (skipn (List.length l / 2 - (List.length l / 2) mod 8) l))
      end.
Proof. destruct fuel; reflexivity. Qed.

Lemma pairwise_sum_at_most B : forall fuel l,
  Forall (at_most B) l -> 0 <= B ->
  B * Z.of_nat (List.length l) < 2 ^ 53 ->
  at_most (B * Z.of_nat (List.length l)) (pairwise_sum fuel l).
Proof.
  induction fuel as [|fuel IH]; intros l Hl HB Hlt; rewrite pairwise_sum_eq.
  all: destruct (List.length l <? 8)%nat eqn:E8;
    [ replace (B * Z.of_nat (List.length l))
        with (0 + B * Z.of_nat (List.length l)) by lia;
      apply fold_fadd_at_most; try assumption; try lia; apply at_most_zero | ].
  all: apply Nat.ltb_ge in E8.
  all: destruct (List.length l <=? 128)%nat eqn:E128;
    [ destruct l as [|a0 [|a1 [|a2 [|a3 [|a4 [|a5 [|a6 [|a7 rest]]]]]]]];
      try (cbn [List.length] in E8; lia);
      repeat match goal with
             | H : Forall _ (_ :: _) |- _ =>
                 let Hx := fresh "Ha" in
                 apply Forall_cons_iff in H; destruct H as [Hx H]
             end;
      cbn [List.length] in *;
      replace (B * Z.of_nat (S (S (S (S (S (S (S (S (List.length rest))))))))))
        with (8 * B + B * Z.of_nat (List.length rest)) by lia;
      apply (pairwise_blocks_at_most B (List.length rest));
      try assumption; try lia | ].
  - apply at_most_le with 0; [apply at_most_zero|nia].
  - set (n2 := (List.length l / 2 - (List.length l / 2) mod 8)%nat).
    assert (Hn2 : (n2 <= List.length l)%nat).
    { unfold n2. pose proof (Nat.Div0.div_le_upper_bound (List.length l) 2
                               (List.length l)).
      assert (List.length l / 2 <= List.length l)%nat
        by (apply Nat.Div0.div_le_upper_bound; lia). lia. }
    rewrite <- (firstn_skipn n2 l) in Hl. apply Forall_app in Hl.
    destruct Hl as [Hf Hs].
    assert (Elen : Z.of_nat (List.length l)
                   = Z.of_nat (List.length (firstn n2 l))
                     + Z.of_nat (List.length (skipn n2 l))).
    { rewrite <- Nat2Z.inj_add, <- length_app, firstn_skipn. reflexivity. }
    rewrite Elen in *. rewrite Z.mul_add_distr_l in *.
    assert (0 <= B * Z.of_nat (List.length (firstn n2 l))) by nia.
    assert (0 <= B * Z.of_nat (List.length (skipn n2 l))) by nia.
    apply at_most_fadd; try lia; apply IH; try assumption; lia.
Qed.

(** From eight values on the order of numpy matters: the mean of 0.1,
    0.2, ..., 0.8 is 0.45, where adding from left to right would give
    0.44999999999999996. *)
Lemma np_mean_of_tenths :
  np_mean tenths = S754_finite false 8106479329266893 (-54)
  /\ Py.fdiv (fold_left Py.fadd tenths Py.f0_0) (Py.of_int 8)
     = S754_finite false 8106479329266892 (-54).
Proof. split; vm_compute; reflexivity. Qed.

Lemma np_sum_at_most B l :
  Forall (at_most B) l -> 0 <= B ->
  B * Z.of_nat (List.length l) < 2 ^ 53 ->
  at_most (B * Z.of_nat (List.length l)) (np_sum l).
Proof.
  intros Hl HB Hlt. unfold np_sum.
  replace (B * Z.of_nat (List.length l))
    with (0 + B * Z.of_nat (List.length l)) by lia.
  assert (0 <= B * Z.of_nat (List.length l)) by nia.
  apply at_most_fadd; try lia; [apply at_most_zero|].
  now apply pairwise_sum_at_most.
Qed.

(** The mean of values of [0, 1] is a value of [0, 1]. *)
Lemma np_mean_unit l :
  l <> [] -> Forall unit_interval l -> Z.of_nat (List.length l) < 2 ^ 53 ->
  unit_interval (np_mean l).
Proof.
  intros Hne Hl Hlen. unfold np_mean.
  assert (Hn : 0 < Z.of_nat (List.length l)) by (destruct l; [congruence|cbn; lia]).
  destruct (np_sum_at_most 1 l) as [G H]; try lia.
  { eapply Forall_impl; [|exact Hl]. intros x. apply at_most_unit. }
  rewrite Z.mul_1_l in H.
  destruct (of_int_spec _ (conj Hn Hlen)) as (mn & en & -> & Bn & Vn).
  destruct G as [E|(ms & es & E & Bs)]; rewrite E in *.
  - apply unit_interval_zero.
  - cbn [scaled] in H.
    destruct (bounded_facts _ _ Bs) as (Hes & _).
    destruct (bounded_facts _ _ Bn) as (Hen & _).
    apply (fdiv_le_one ms es mn en 1074); lia.
Qed.

(** The estimate, by cases on what pdf2image returns. *)
Lemma analyze_visual_text_density_cases pdf sample_pages :
  analyze_visual_text_density cvt pdf sample_pages
  = match pdf2image_pages pdf with
    | inl _ => Py.f0_0
    | inr pages =>
        match firstn (Z.to_nat (Z.min sample_pages 10)) pages with
        | [] => Py.f0_0
        | images => np_mean (map (calculate_text_density cvt) images)
        end
    end.
Proof.
  unfold analyze_visual_text_density, convert_from_path.
  destruct (pdf2image_pages pdf) as [e|pages]; [reflexivity|].
  cbn [Py.bind Py.ret].
  now destruct (firstn (Z.to_nat (Z.min sample_pages 10)) pages).
Qed.

(** On a console that takes every line the estimator returns, and it
    returns the estimate. *)
Lemma console_calculate_text_density out img :
  takes_every_line out ->
  Console.calculate_text_density out cvt img
  = Py.ret (calculate_text_density cvt img).
Proof.
  intros Hout. unfold Console.calculate_text_density, calculate_text_density.
  destruct (text_density cvt img) as [e|d]; cbn [Py.try_except];
    [|reflexivity].
  unfold Py.print. now rewrite Hout.
Qed.

Lemma console_density_loop out images : forall i densities,
  takes_every_line out ->
  Console.density_loop out cvt images i densities
  = Py.ret (densities ++ map (calculate_text_density cvt) images).
Proof.
  induction images as [|img rest IH]; intros i densities Hout.
  - cbn. now rewrite app_nil_r.
  - cbn [Console.density_loop map].
    rewrite (console_calculate_text_density out img Hout).
    cbn [Py.bind Py.ret]. unfold Py.print at 1. rewrite Hout.
    cbn [Py.bind Py.ret]. rewrite (IH _ _ Hout), <- app_assoc. reflexivity.
Qed.

Lemma console_analyze_visual_text_density out pdf sample_pages :
  takes_every_line out ->
  Console.analyze_visual_text_density out cvt pdf sample_pages
  = Py.ret (analyze_visual_text_density cvt pdf sample_pages).
Proof.
  intros Hout.
  unfold Console.analyze_visual_text_density, analyze_visual_text_density.
  unfold Py.print at 1. rewrite Hout. cbn [Py.bind Py.ret].
  destruct (convert_from_path pdf (Z.min sample_pages 10)) as [e|images].
  - cbn [Py.bind Py.try_except]. unfold Py.print. now rewrite Hout.
  - cbn [Py.bind]. destruct images as [|img rest]; [reflexivity|].
    rewrite (console_density_loop out (img :: rest) 0 [] Hout).
    cbn [Py.bind Py.ret app]. unfold Py.print. rewrite Hout.
    reflexivity.
Qed.

(** printing on a console that takes every line *)
Ltac run_prints H :=
  repeat (progress (unfold Py.print; rewrite ?H;
                    cbn [Py.bind Py.ret Py.try_except])).

Lemma console_setup_poppler out pdf :
  takes_every_line out ->
  Console.setup_poppler out pdf = Py.ret (setup_poppler pdf).
Proof.
  intros Hout. unfold Console.setup_poppler, setup_poppler.
  destruct (which_pdftoppm pdf); run_prints Hout; reflexivity.
Qed.

Lemma console_analyze_pdf_text_layer out pdf :
  takes_every_line out ->
  Console.analyze_pdf_text_layer out pdf = analyze_pdf_text_layer pdf.
Proof.
  intros Hout. unfold Console.analyze_pdf_text_layer.
  run_prints Hout. reflexivity.
Qed.

Lemma console_analyze_pdf_ocr_need out pdf :
  takes_every_line out ->
  Console.analyze_pdf_ocr_need out cvt pdf = analyze_pdf_ocr_need cvt pdf.
Proof.
  intros Hout.
  unfold Console.analyze_pdf_ocr_need, analyze_pdf_ocr_need,
    analyze_pdf_ocr_need_body.
  run_prints Hout.
  destruct (get_file_metrics pdf) as [e|file]; run_prints Hout;
    [reflexivity|].
  rewrite (console_analyze_pdf_text_layer out pdf Hout).
  destruct (analyze_pdf_text_layer pdf) as [e|text]; run_prints Hout;
    [reflexivity|].
  rewrite (console_setup_poppler out pdf Hout). run_prints Hout.
  destruct (setup_poppler pdf) as [[|c dir]|]; run_prints Hout;
    try reflexivity.
  rewrite (console_analyze_visual_text_density out pdf 5 Hout).
  run_prints Hout. reflexivity.
Qed.

Lemma console_folder_loop out pdf_files : forall i total results,
  takes_every_line out ->
  Console.folder_loop out cvt pdf_files i total results
  = folder_loop cvt pdf_files results.
Proof.
  induction pdf_files as [|pdf rest IH]; intros i total results Hout;
    [reflexivity|].
  cbn [Console.folder_loop folder_loop]. run_prints Hout.
  rewrite (console_analyze_pdf_ocr_need out pdf Hout).
  destruct (analyze_pdf_ocr_need cvt pdf) as [e|result]; run_prints Hout.
  - destruct (error_row pdf e) as [e'|row]; [reflexivity|].
    cbn [Py.bind Py.ret]. now apply IH.
  - destruct (Py.truthy result); [destruct result|]; now apply IH.
Qed.

Lemma console_analyze_pdf_folder out folder :
  takes_every_line out ->
  Console.analyze_pdf_folder out cvt folder = analyze_pdf_folder cvt folder.
Proof.
  intros Hout. unfold Console.analyze_pdf_folder, analyze_pdf_folder.
  destruct folder as [[|pdf rest]|]; run_prints Hout; try reflexivity.
  now apply console_folder_loop.
Qed.

(** [min(d, 1.0)] is at most 1.0 unless [d] is NaN. *)
Lemma min_one_clamps d :
  Py.fle (Py.min d Py.f1_0) Py.f1_0 = true \/ Py.min d Py.f1_0 = S754_nan.
Proof.
  unfold Py.min, Py.flt, Py.fle, SFltb, SFleb.
  destruct (SFcompare Py.f1_0 d) as [[| |]|] eqn:E.
  - left. rewrite SFcompare_antisym, E. reflexivity.
  - left. reflexivity.
  - left. rewrite SFcompare_antisym, E. reflexivity.
  - right. destruct (SFcompare_none _ _ E) as [H|H]; [discriminate|exact H].
Qed.

End Metrics.

(** ** The claims of the specification *)

(** C1. [needs_ocr_analysis] is true exactly when one of the five rules
    holds, in both files, and it is false on the inputs of Scenario C
    (20 pages, 18 with text, ratio 18/20 = 0.9, density 0.15, 2 MB,
    300 characters per text page). *)
Theorem needs_ocr_analysis_five_rules :
  (forall text d file,
      PDF_Ocr_Analyzer.needs_ocr_analysis text d file = true <->
      (has_text_layer text = false
       \/ Py.flt (text_pages_ratio text) Py.f0_3 = true
       \/ Py.flt d Py.f0_02 = true
       \/ (Py.fgt (file_size_mb file) (Py.of_int 5) = true
           /\ Py.flt (avg_text_per_page text) (Py.of_int 50) = true)
       \/ (total_pages text > 10
           /\ Py.flt (text_pages_ratio text) Py.f0_5 = true)))
  /\ (forall text d file,
      TextQualityCheck.needs_ocr_analysis text d file = true <->
      (has_text_layer text = false
       \/ Py.flt (text_pages_ratio text) Py.f0_3 = true
       \/ Py.flt d Py.f0_02 = true
       \/ (Py.fgt (file_size_mb file) (Py.of_int 5) = true
           /\ Py.flt (avg_text_per_page text) (Py.of_int 50) = true)
       \/ (total_pages text > 10
           /\ Py.flt (text_pages_ratio text) Py.f0_5 = true)))
  /\ Py.int_truediv 18 20 = Py.ret f0_9
  /\ Py.int_truediv 15 100 = Py.ret f0_15
  /\ Py.int_truediv (2 * 1024 * 1024) (1024 * 1024) = Py.ret (Py.of_int 2)
  /\ (forall total_len name,
      PDF_Ocr_Analyzer.needs_ocr_analysis
        (scenario_C_text total_len) f0_15 (scenario_C_file name) = false
      /\ TextQualityCheck.needs_ocr_analysis
        (scenario_C_text total_len) f0_15 (scenario_C_file name) = false).
Proof.
  assert (H : forall text d file,
      PDF_Ocr_Analyzer.needs_ocr_analysis text d file = true <->
      (has_text_layer text = false
       \/ Py.flt (text_pages_ratio text) Py.f0_3 = true
       \/ Py.flt d Py.f0_02 = true
       \/ (Py.fgt (file_size_mb file) (Py.of_int 5) = true
           /\ Py.flt (avg_text_per_page text) (Py.of_int 50) = true)
       \/ (total_pages text > 10
           /\ Py.flt (text_pages_ratio text) Py.f0_5 = true))).
  { intros text d file.
    unfold PDF_Ocr_Analyzer.needs_ocr_analysis, PDF_Ocr_Analyzer.rules, Py.any.
    cbn [existsb].
    rewrite !orb_true_iff, !andb_true_iff, negb_true_iff, Z.gtb_gt.
    intuition congruence. }
  split; [exact H|].
  split; [intros text d file; rewrite needs_ocr_analysis_same; apply H|].
  repeat split; vm_compute; reflexivity.
Qed.

(** C2, on the code.  A document whose open fails gets no row at all: the
    orchestrator returns [None] and the batch loop skips it, so the rows
    of a batch are those of the documents that were read. *)
Theorem open_failure_leaves_no_row :
  (forall cvt,
      PDF_Ocr_Analyzer.analyze_pdf_ocr_need cvt corrupt_pdf = Py.ret None
      /\ PDF_Ocr_Analyzer.analyze_pdf_folder cvt (Some [corrupt_pdf]) = Py.ret []
      /\ PDF_Ocr_Analyzer.analyze_pdf_folder cvt (Some [missing_pdf]) = Py.ret [])
  /\ (forall cvt before pdf e after,
         fitz_open pdf = inl e ->
         PDF_Ocr_Analyzer.analyze_pdf_folder cvt (Some (before ++ pdf :: after))
         = PDF_Ocr_Analyzer.analyze_pdf_folder cvt (Some (before ++ after))).
Proof.
  split.
  - intros cvt. repeat split; vm_compute; reflexivity.
  - intros cvt before pdf e after Hopen.
    rewrite !analyze_pdf_folder_spec. f_equal.
    unfold rows_of. rewrite !flat_map_app. f_equal. cbn [flat_map].
    destruct (open_failure_body cvt pdf e Hopen) as [e' ->]. reflexivity.
Qed.

Lemma open_failure_leaves_no_row_witness :
  fitz_open corrupt_pdf = inl (Py.FileDataError "Failed to open file")
  /\ PDF_Ocr_Analyzer.analyze_pdf_folder rgb2gray_601
       (Some ([good_pdf] ++ corrupt_pdf :: []))
     = PDF_Ocr_Analyzer.analyze_pdf_folder rgb2gray_601 (Some ([good_pdf] ++ [])).
Proof.
  split; [reflexivity|].
  apply (proj2 open_failure_leaves_no_row rgb2gray_601 [good_pdf] corrupt_pdf
           (Py.FileDataError "Failed to open file") []).
  reflexivity.
Defined.

(** C3, as stated, fails: on a two-page document whose second page makes
    [get_text] raise, the analyzer raises and returns no metrics, in both
    files, and the orchestrator returns [None]. *)
Lemma page_failure_fails_analysis :
  PDF_Ocr_Analyzer.analyze_pdf_text_layer bad_page_pdf
  = Py.raise (Py.RuntimeError "cannot load page")
  /\ TextQualityCheck.analyze_pdf_text_layer bad_page_pdf
     = Py.raise (Py.RuntimeError "cannot load page")
  /\ ~ (exists metrics,
           PDF_Ocr_Analyzer.analyze_pdf_text_layer bad_page_pdf
           = Py.ret metrics)
  /\ PDF_Ocr_Analyzer.analyze_pdf_ocr_need rgb2gray_601 bad_page_pdf
     = Py.ret None.
Proof.
  repeat split; try (vm_compute; reflexivity).
  intros [metrics H]. vm_compute in H. discriminate.
Qed.

(** C3, amended.  Extraction is not guarded page by page: when a page
    makes [get_text] raise, [analyze_pdf_text_layer] raises that
    exception (of the first such page) in both files and the orchestrator
    returns [None]; when every page extracts (and the text is shorter
    than 2^1023 characters) the analyzer returns metrics that count every
    page. *)
Theorem page_failure_propagates :
  (forall cvt pdf before e after,
      fitz_open pdf = inr (map inr before ++ inl e :: after) ->
      PDF_Ocr_Analyzer.analyze_pdf_text_layer pdf = Py.raise e
      /\ TextQualityCheck.analyze_pdf_text_layer pdf = Py.raise e
      /\ PDF_Ocr_Analyzer.analyze_pdf_ocr_need cvt pdf = Py.ret None)
  /\ (forall pdf texts,
         fitz_open pdf = inr (map inr texts) ->
         sum_text_length texts <= 2 ^ 1023 ->
         exists metrics,
           PDF_Ocr_Analyzer.analyze_pdf_text_layer pdf = Py.ret metrics
           /\ TextQualityCheck.analyze_pdf_text_layer pdf = Py.ret metrics
           /\ total_pages metrics = Z.of_nat (List.length texts)
           /\ pages_with_text metrics = count_text_pages texts
           /\ total_text_length metrics = sum_text_length texts).
Proof.
  split.
  - intros cvt pdf before e after Hopen.
    assert (H : PDF_Ocr_Analyzer.analyze_pdf_text_layer pdf = Py.raise e).
    { unfold PDF_Ocr_Analyzer.analyze_pdf_text_layer. rewrite Hopen.
      cbn [Py.bind]. now rewrite text_layer_loop_raises. }
    split; [exact H|]. split; [rewrite text_layer_same; exact H|].
    rewrite analyze_pdf_ocr_need_spec.
    unfold PDF_Ocr_Analyzer.analyze_pdf_ocr_need_body. rewrite H.
    now destruct (PDF_Ocr_Analyzer.get_file_metrics pdf).
  - intros pdf texts Hopen Hsum.
    destruct (analyze_pdf_text_layer_returns pdf texts Hopen Hsum)
      as [metrics Hm].
    exists metrics. split; [exact Hm|].
    split; [rewrite text_layer_same; exact Hm|].
    exact (analyze_pdf_text_layer_counts pdf texts metrics Hopen Hm).
Qed.

Lemma page_failure_propagates_witness :
  fitz_open bad_page_pdf
  = inr (map inr [[97; 98; 99]%N]
         ++ inl (Py.RuntimeError "cannot load page") :: [])
  /\ PDF_Ocr_Analyzer.analyze_pdf_text_layer bad_page_pdf
     = Py.raise (Py.RuntimeError "cannot load page")
  /\ fitz_open good_pdf = inr (map inr [[104; 105]%N; [32; 111; 107; 10]%N])
  /\ sum_text_length [[104; 105]%N; [32; 111; 107; 10]%N] <= 2 ^ 1023
  /\ exists metrics,
       PDF_Ocr_Analyzer.analyze_pdf_text_layer good_pdf = Py.ret metrics
       /\ pages_with_text metrics
          = count_text_pages [[104; 105]%N; [32; 111; 107; 10]%N].
Proof.
  split; [reflexivity|].
  split.
  { apply (proj1 page_failure_propagates rgb2gray_601 bad_page_pdf
             [[97; 98; 99]%N] (Py.RuntimeError "cannot load page") []).
    reflexivity. }
  split; [reflexivity|].
  assert (Hsum : sum_text_length [[104; 105]%N; [32; 111; 107; 10]%N]
                 <= 2 ^ 1023) by (vm_compute; discriminate).
  split; [exact Hsum|].
  destruct (proj2 page_failure_propagates good_pdf
              [[104; 105]%N; [32; 111; 107; 10]%N] eq_refl Hsum)
    as (metrics & Hm & _ & _ & Hc & _).
  exists metrics. split; assumption.
Defined.

(** C4. Without the rasterization backend the orchestrator takes 0.0 as
    visual density; rule 3 then holds whatever the text-layer metrics, so
    the verdict is OCR-required.  On Scenario A (ten pages, all with text,
    5000 characters, 1 MB) the metrics are those of a text-bearing
    document and the result still has [ocr_required = True]. *)
Theorem no_backend_forces_ocr :
  (forall text file,
      PDF_Ocr_Analyzer.needs_ocr_analysis text Py.f0_0 file = true
      /\ TextQualityCheck.needs_ocr_analysis text Py.f0_0 file = true)
  /\ (forall cvt pdf file text,
         PDF_Ocr_Analyzer.setup_poppler pdf = None ->
         PDF_Ocr_Analyzer.get_file_metrics pdf = Py.ret file ->
         PDF_Ocr_Analyzer.analyze_pdf_text_layer pdf = Py.ret text ->
         PDF_Ocr_Analyzer.analyze_pdf_ocr_need cvt pdf
         = Py.ret (Some (PDF_Ocr_Analyzer.result_dict file text Py.f0_0 true)))
  /\ PDF_Ocr_Analyzer.analyze_pdf_text_layer scenario_A_pdf
     = Py.ret (mk_text_analysis true 10 10 5000 Py.f1_0 (Py.of_int 500))
  /\ PDF_Ocr_Analyzer.get_file_metrics scenario_A_pdf
     = Py.ret (mk_file_metrics Py.f1_0 "a.pdf")
  /\ (forall cvt,
         PDF_Ocr_Analyzer.analyze_pdf_ocr_need cvt scenario_A_pdf
         = Py.ret (Some [ ("filename", Py.VStr "a.pdf");
                          ("has_text_layer", Py.VBool true);
                          ("text_pages_ratio", Py.VFloat Py.f1_0);
                          ("avg_text_density", Py.VFloat Py.f0_0);
                          ("ocr_required", Py.VBool true);
                          ("file_size_mb", Py.VFloat Py.f1_0);
                          ("total_pages", Py.VInt 10) ]%string)).
Proof.
  assert (H0 : forall text file,
             PDF_Ocr_Analyzer.needs_ocr_analysis text Py.f0_0 file = true).
  { intros text file.
    unfold PDF_Ocr_Analyzer.needs_ocr_analysis, PDF_Ocr_Analyzer.rules, Py.any.
    cbn [existsb].
    replace (Py.flt Py.f0_0 Py.f0_02) with true by reflexivity.
    now rewrite !orb_true_r. }
  split; [intros text file; split; [apply H0|]|].
  { rewrite needs_ocr_analysis_same. apply H0. }
  split.
  { intros cvt pdf file text Hpop Hfile Htext.
    unfold PDF_Ocr_Analyzer.analyze_pdf_ocr_need,
      PDF_Ocr_Analyzer.analyze_pdf_ocr_need_body.
    rewrite Hfile, Htext, Hpop. cbn [Py.bind Py.ret Py.try_except].
    now rewrite H0. }
  repeat split; intros; vm_compute; reflexivity.
Qed.

Lemma no_backend_forces_ocr_witness :
  PDF_Ocr_Analyzer.setup_poppler scenario_A_pdf = None
  /\ PDF_Ocr_Analyzer.get_file_metrics scenario_A_pdf
     = Py.ret (mk_file_metrics Py.f1_0 "a.pdf")
  /\ PDF_Ocr_Analyzer.analyze_pdf_text_layer scenario_A_pdf
     = Py.ret (mk_text_analysis true 10 10 5000 Py.f1_0 (Py.of_int 500))
  /\ PDF_Ocr_Analyzer.analyze_pdf_ocr_need rgb2gray_601 scenario_A_pdf
     = Py.ret (Some (PDF_Ocr_Analyzer.result_dict
                       (mk_file_metrics Py.f1_0 "a.pdf")
                       (mk_text_analysis true 10 10 5000 Py.f1_0 (Py.of_int 500))
                       Py.f0_0 true)).
Proof.
  split; [reflexivity|].
  split; [vm_compute; reflexivity|].
  split; [vm_compute; reflexivity|].
  apply (proj1 (proj2 no_backend_forces_ocr) rgb2gray_601 scenario_A_pdf).
  - reflexivity.
  - vm_compute; reflexivity.
  - vm_compute; reflexivity.
Defined.

(** C5. Each rule alone suffices: for each of the five rules there is an
    input on which that rule holds and the other four do not, on every
    such input the function (of either file) returns true; and equal
    inputs give equal outputs. *)
Theorem each_rule_is_sufficient :
  (forall i : nat, (i < 5)%nat ->
     (exists text d file, PDF_Ocr_Analyzer.rules text d file = one_hot i)
     /\ (forall text d file,
            PDF_Ocr_Analyzer.rules text d file = one_hot i ->
            PDF_Ocr_Analyzer.needs_ocr_analysis text d file = true
            /\ TextQualityCheck.needs_ocr_analysis text d file = true))
  /\ (forall text d file text' d' file',
         text = text' -> d = d' -> file = file' ->
         PDF_Ocr_Analyzer.needs_ocr_analysis text d file
         = PDF_Ocr_Analyzer.needs_ocr_analysis text' d' file'
         /\ TextQualityCheck.needs_ocr_analysis text d file
            = TextQualityCheck.needs_ocr_analysis text' d' file').
Proof.
  split.
  - intros i Hi. split.
    + destruct i as [|[|[|[|[|i]]]]]; try lia.
      * exists (mk_text_analysis false 1 0 0 Py.f1_0 Py.f1_0), Py.f1_0,
          (mk_file_metrics Py.f1_0 "r1.pdf"). reflexivity.
      * exists (mk_text_analysis true 10 1 900 Py.f0_0 (Py.of_int 900)), Py.f1_0,
          (mk_file_metrics Py.f1_0 "r2.pdf"). reflexivity.
      * exists (mk_text_analysis true 1 1 900 Py.f1_0 (Py.of_int 900)), Py.f0_0,
          (mk_file_metrics Py.f1_0 "r3.pdf"). reflexivity.
      * exists (mk_text_analysis true 1 1 7 Py.f1_0 (Py.of_int 7)), Py.f1_0,
          (mk_file_metrics (Py.of_int 6) "r4.pdf"). reflexivity.
      * exists (mk_text_analysis true 11 4 900 f0_4 (Py.of_int 225)), Py.f1_0,
          (mk_file_metrics Py.f1_0 "r5.pdf"). reflexivity.
    + intros text d file Hrules.
      assert (H : PDF_Ocr_Analyzer.needs_ocr_analysis text d file = true).
      { unfold PDF_Ocr_Analyzer.needs_ocr_analysis. rewrite Hrules.
        destruct i as [|[|[|[|[|i]]]]]; try lia; reflexivity. }
      split; [exact H|]. rewrite needs_ocr_analysis_same. exact H.
  - intros; subst; split; reflexivity.
Qed.

Lemma each_rule_is_sufficient_witness :
  (2 < 5)%nat
  /\ (exists text d file, PDF_Ocr_Analyzer.rules text d file = one_hot 2)
  /\ (PDF_Ocr_Analyzer.rules
        (mk_text_analysis true 1 1 900 Py.f1_0 (Py.of_int 900)) Py.f0_0
        (mk_file_metrics Py.f1_0 "r3.pdf") = one_hot 2 ->
      PDF_Ocr_Analyzer.needs_ocr_analysis
        (mk_text_analysis true 1 1 900 Py.f1_0 (Py.of_int 900)) Py.f0_0
        (mk_file_metrics Py.f1_0 "r3.pdf") = true).
Proof.
  split; [lia|].
  destruct (proj1 each_rule_is_sufficient 2%nat ltac:(lia)) as [Hex Hall].
  split; [exact Hex|].
  intros H. exact (proj1 (Hall _ _ _ H)).
Defined.

(** C6. [analyze_pdf_text_layer] returns a record for every document
    that opens, whose pages all extract and whose text is shorter than
    2^1023 characters, and every record it returns satisfies:
    [0 <= text_pages_ratio <= 1], [pages_with_text <= total_pages],
    [has_text_layer = (pages_with_text > 0)], [avg_text_per_page] is the
    quotient [total_text_length / max(pages_with_text, 1)] as Python
    computes it, and both ratios are 0.0 when there is no page (otherwise
    [text_pages_ratio] is [pages_with_text / total_pages]). *)
Theorem text_layer_metrics_invariants :
  (forall (pdf : pdf_file) (texts : list Py.str),
      fitz_open pdf = inr (map inr texts) ->
      sum_text_length texts <= 2 ^ 1023 ->
      exists metrics,
        PDF_Ocr_Analyzer.analyze_pdf_text_layer pdf = Py.ret metrics)
  /\ (forall (pdf : pdf_file) (metrics : text_analysis),
    PDF_Ocr_Analyzer.analyze_pdf_text_layer pdf = Py.ret metrics ->
    Py.fle Py.f0_0 (text_pages_ratio metrics) = true
    /\ Py.fle (text_pages_ratio metrics) Py.f1_0 = true
    /\ 0 <= pages_with_text metrics <= total_pages metrics
    /\ has_text_layer metrics = (pages_with_text metrics >? 0)
    /\ Py.int_truediv (total_text_length metrics)
                      (Z.max (pages_with_text metrics) 1)
       = Py.ret (avg_text_per_page metrics)
    /\ (total_pages metrics = 0 ->
        text_pages_ratio metrics = Py.f0_0
        /\ avg_text_per_page metrics = Py.f0_0)
    /\ (total_pages metrics > 0 ->
        Py.int_truediv (pages_with_text metrics) (total_pages metrics)
        = Py.ret (text_pages_ratio metrics))).
Proof.
  split; [exact analyze_pdf_text_layer_returns|].
  intros pdf metrics.
  unfold PDF_Ocr_Analyzer.analyze_pdf_text_layer.
  destruct (fitz_open pdf) as [e|pages]; [discriminate|]. cbn [Py.bind].
  destruct (pages_all_or_first_failure pages)
    as [[texts ->]|(before & e & after & ->)].
  2:{ rewrite text_layer_loop_raises. discriminate. }
  rewrite text_layer_loop_ok. cbn [Py.bind Py.ret].
  cbn [total_pages pages_with_text total_text_length has_text_layer
       text_pages_ratio avg_text_per_page orb].
  rewrite length_map, !Z.add_0_l.
  pose proof (count_text_pages_bounds texts) as Hc.
  pose proof (has_text_layer_count texts) as Hh.
  destruct (Z.of_nat (List.length texts) >? 0) eqn:Hpos.
  - apply Z.gtb_lt in Hpos.
    destruct (int_truediv_unit (count_text_pages texts)
                (Z.of_nat (List.length texts)) Hc Hpos) as (q & Hq & Hu).
    rewrite Hq. cbn [Py.bind Py.ret].
    destruct (Py.int_truediv (sum_text_length texts)
                (Z.max (count_text_pages texts) 1)) as [e|avg] eqn:Havg;
      [discriminate|].
    cbn [Py.bind Py.ret]. intros [= <-].
    cbn [total_pages pages_with_text total_text_length has_text_layer
         text_pages_ratio avg_text_per_page].
    destruct (unit_interval_fle q Hu) as [H0 H1].
    repeat split; try assumption; try lia.
    intros _. exact Hq.
  - intros [= <-].
    cbn [total_pages pages_with_text total_text_length has_text_layer
         text_pages_ratio avg_text_per_page].
    assert (Hlen : texts = []).
    { destruct texts; [reflexivity|]. cbn in Hpos. discriminate. }
    subst texts. repeat split; try reflexivity; try lia; discriminate.
Qed.

Lemma text_layer_metrics_invariants_witness :
  PDF_Ocr_Analyzer.analyze_pdf_text_layer good_pdf
  = Py.ret (mk_text_analysis true 2 2 4 Py.f1_0 (Py.of_int 2))
  /\ Py.fle (text_pages_ratio (mk_text_analysis true 2 2 4 Py.f1_0 (Py.of_int 2)))
            Py.f1_0 = true.
Proof.
  split; [vm_compute; reflexivity|].
  apply (proj2 text_layer_metrics_invariants good_pdf
           (mk_text_analysis true 2 2 4 Py.f1_0 (Py.of_int 2))).
  vm_compute; reflexivity.
Defined.

(** C7, as stated, fails: OpenCV rejects the first of two rendered pages,
    an image-processing step has failed, and the estimate is 0.5, the
    mean of 0.0 for that page and 1.0 for the other, not 0.0. *)
Lemma page_density_failure_is_averaged :
  PDF_Ocr_Analyzer.calculate_text_density rgb2gray_601
    (Unsupported (Py.RuntimeError "unsupported image mode")) = Py.f0_0
  /\ PDF_Ocr_Analyzer.calculate_text_density rgb2gray_601 all_ink = Py.f1_0
  /\ PDF_Ocr_Analyzer.analyze_visual_text_density rgb2gray_601
       partial_failure_pdf 5 = Py.f0_5
  /\ PDF_Ocr_Analyzer.analyze_visual_text_density rgb2gray_601
       partial_failure_pdf 5 <> Py.f0_0.
Proof.
  repeat split; try (vm_compute; reflexivity).
  vm_compute. discriminate.
Qed.

(** The conjunct of C7 on aborting needs its proviso: on a console that
    cannot encode the line printed before the [try], the estimator
    raises. *)
Lemma estimator_aborts_when_print_raises :
  PDF_Ocr_Analyzer.Console.analyze_visual_text_density ascii_console
    rgb2gray_601 good_pdf 5
  = Py.raise (Py.UnicodeEncodeError "'ascii' codec can't encode character").
Proof. reflexivity. Qed.

(** C7, amended.  The estimate is 0.0 when pdf2image raises and when it
    renders no page; otherwise it is the mean of the densities of the
    first [min(sample_pages, 10)] pages, where a page whose processing
    raises counts for 0.0; every density lies in [0.0, 1.0] and so does
    the estimate; and on a console that takes the lines it prints the
    estimator returns that estimate, whatever pdf2image and OpenCV do:
    it does not abort the analysis. *)
Theorem visual_density_estimate :
  forall (cvt : Z * Z * Z -> Z) (pdf : pdf_file) (sample_pages : Z),
    (forall e, pdf2image_pages pdf = inl e ->
       PDF_Ocr_Analyzer.analyze_visual_text_density cvt pdf sample_pages
       = Py.f0_0)
    /\ (forall pages images,
           pdf2image_pages pdf = inr pages ->
           images = firstn (Z.to_nat (Z.min sample_pages 10)) pages ->
           (images = [] ->
            PDF_Ocr_Analyzer.analyze_visual_text_density cvt pdf sample_pages
            = Py.f0_0)
           /\ (images <> [] ->
               PDF_Ocr_Analyzer.analyze_visual_text_density cvt pdf sample_pages
               = PDF_Ocr_Analyzer.np_mean
                   (map (PDF_Ocr_Analyzer.calculate_text_density cvt) images))
           /\ (Forall np_image images ->
               Py.fle Py.f0_0
                 (PDF_Ocr_Analyzer.analyze_visual_text_density cvt pdf sample_pages)
               = true
               /\ Py.fle
                    (PDF_Ocr_Analyzer.analyze_visual_text_density cvt pdf sample_pages)
                    Py.f1_0
                  = true))
    /\ (forall e,
           PDF_Ocr_Analyzer.calculate_text_density cvt (Unsupported e) = Py.f0_0)
    /\ (forall img,
           np_image img ->
           Py.fle Py.f0_0 (PDF_Ocr_Analyzer.calculate_text_density cvt img)
           = true
           /\ Py.fle (PDF_Ocr_Analyzer.calculate_text_density cvt img) Py.f1_0
              = true)
    /\ (forall out,
           takes_every_line out ->
           PDF_Ocr_Analyzer.Console.analyze_visual_text_density out cvt pdf
             sample_pages
           = Py.ret (PDF_Ocr_Analyzer.analyze_visual_text_density cvt pdf
                       sample_pages)).
Proof.
  intros cvt pdf sample_pages.
  split; [|split; [|split; [|split]]].
  - intros e He. rewrite analyze_visual_text_density_cases, He. reflexivity.
  - intros pages images Hp Hi.
    rewrite analyze_visual_text_density_cases, Hp, <- Hi.
    split; [|split].
    + intros ->. reflexivity.
    + intros Hne. destruct images; [congruence|reflexivity].
    + intros Hwf.
      assert (Hu : unit_interval
                     match images with
                     | [] => Py.f0_0
                     | _ :: _ =>
                         PDF_Ocr_Analyzer.np_mean
                           (map (PDF_Ocr_Analyzer.calculate_text_density cvt) images)
                     end).
      { destruct images as [|img rest] eqn:E; [apply unit_interval_zero|].
        rewrite <- E in *. apply np_mean_unit.
        - rewrite E. discriminate.
        - apply Forall_map.
          eapply Forall_impl; [|exact Hwf].
          intros a. apply calculate_text_density_unit.
        - rewrite length_map, Hi.
          pose proof (firstn_le_length (Z.to_nat (Z.min sample_pages 10)) pages).
          assert (Z.of_nat (Z.to_nat (Z.min sample_pages 10)) <= 10) by lia.
          assert (10 < 2 ^ 53) by reflexivity. lia. }
      apply unit_interval_fle. destruct images; exact Hu.
  - reflexivity.
  - intros img Himg. apply unit_interval_fle.
    now apply calculate_text_density_unit.
  - intros out Hout. now apply console_analyze_visual_text_density.
Qed.

Lemma visual_density_estimate_witness :
  pdf2image_pages good_pdf = inr [half_inked; half_inked]
  /\ [half_inked; half_inked]
     = firstn (Z.to_nat (Z.min 5 10)) [half_inked; half_inked]
  /\ Forall np_image [half_inked; half_inked]
  /\ Py.fle (PDF_Ocr_Analyzer.analyze_visual_text_density rgb2gray_601 good_pdf 5)
            Py.f1_0 = true.
Proof.
  assert (Hwf : Forall np_image [half_inked; half_inked]).
  { repeat constructor; cbn; lia. }
  split; [reflexivity|]. split; [reflexivity|]. split; [exact Hwf|].
  apply (proj1 (proj2 (visual_density_estimate rgb2gray_601 good_pdf 5))
           [half_inked; half_inked] [half_inked; half_inked]
           eq_refl eq_refl).
  exact Hwf.
Defined.

(** C8, on the code.  Whatever the file does, the lines written for a
    batch of one readable and one unreadable document are first lines
    of the header row and a single data row, and to a file that opens
    and takes every line both are written: the document that errored
    has none.  For a batch of errored documents alone the file is not
    even opened. *)
Theorem csv_has_no_row_for_errored_document :
  forall (cvt : Z * Z * Z -> Z) (filename : csv_file),
    exists rows,
      PDF_Ocr_Analyzer.analyze_pdf_folder cvt (Some [good_pdf; corrupt_pdf])
      = Py.ret rows
      /\ PDF_Ocr_Analyzer.save_to_csv rows filename
         = match csv_open filename with
           | inl _ => None
           | inr _ =>
               Some (PDF_Ocr_Analyzer.taken (csv_room filename)
                       [ [ Py.VStr "filename"; Py.VStr "has_text_layer";
                           Py.VStr "avg_text_density"; Py.VStr "ocr_required" ];
                         [ Py.VStr "good.pdf"; Py.VBool true;
                           Py.VFloat Py.f0_5; Py.VBool false ] ])
           end
      /\ PDF_Ocr_Analyzer.save_to_csv rows writable
         = Some [ [ Py.VStr "filename"; Py.VStr "has_text_layer";
                    Py.VStr "avg_text_density"; Py.VStr "ocr_required" ];
                  [ Py.VStr "good.pdf"; Py.VBool true;
                    Py.VFloat Py.f0_5; Py.VBool false ] ]
      /\ PDF_Ocr_Analyzer.analyze_pdf_folder cvt (Some [corrupt_pdf]) = Py.ret []
      /\ PDF_Ocr_Analyzer.save_to_csv [] filename = None.
Proof.
  intros cvt filename. eexists. split; [vm_compute; reflexivity|].
  split; [|repeat split; vm_compute; reflexivity].
  unfold PDF_Ocr_Analyzer.save_to_csv.
  destruct (csv_open filename) as [e|[]]; reflexivity.
Qed.

(** C9. The two copies of [needs_ocr_analysis] return the same boolean on
    every input. *)
Theorem needs_ocr_analysis_files_agree :
  forall (text : text_analysis) (visual_density : Py.float) (file : file_metrics),
    PDF_Ocr_Analyzer.needs_ocr_analysis text visual_density file
    = TextQualityCheck.needs_ocr_analysis text visual_density file.
Proof.
  intros text d file.
  unfold PDF_Ocr_Analyzer.needs_ocr_analysis, PDF_Ocr_Analyzer.rules,
    TextQualityCheck.needs_ocr_analysis.
  reflexivity.
Qed.

(** C10. [needs_ocr_analysis] is antitone in the visual density: with the
    other two inputs fixed and [d1 <= d2], a verdict of OCR-required at
    [d2] is a verdict of OCR-required at [d1], in both files. *)
Theorem needs_ocr_analysis_antitone_in_density :
  forall (text : text_analysis) (file : file_metrics) (d1 d2 : Py.float),
    Py.fle d1 d2 = true ->
    (PDF_Ocr_Analyzer.needs_ocr_analysis text d2 file = true ->
     PDF_Ocr_Analyzer.needs_ocr_analysis text d1 file = true)
    /\ (TextQualityCheck.needs_ocr_analysis text d2 file = true ->
        TextQualityCheck.needs_ocr_analysis text d1 file = true).
Proof.
  intros text file d1 d2 Hle.
  assert (H : PDF_Ocr_Analyzer.needs_ocr_analysis text d2 file = true ->
              PDF_Ocr_Analyzer.needs_ocr_analysis text d1 file = true).
  { unfold PDF_Ocr_Analyzer.needs_ocr_analysis, PDF_Ocr_Analyzer.rules, Py.any.
    cbn [existsb]. rewrite !orb_true_iff.
    intros [H|[H|[H|H]]]; auto.
    right; right; left. eapply fle_flt_trans; eauto. }
  split; [exact H|]. rewrite !needs_ocr_analysis_same. exact H.
Qed.

Lemma needs_ocr_analysis_antitone_in_density_witness :
  Py.fle Py.f0_0 f2_pow_m10 = true
  /\ (PDF_Ocr_Analyzer.needs_ocr_analysis
        (mk_text_analysis true 1 1 40 Py.f1_0 (Py.of_int 40)) f2_pow_m10
        (mk_file_metrics Py.f1_0 "memo.pdf") = true ->
      PDF_Ocr_Analyzer.needs_ocr_analysis
        (mk_text_analysis true 1 1 40 Py.f1_0 (Py.of_int 40)) Py.f0_0
        (mk_file_metrics Py.f1_0 "memo.pdf") = true).
Proof.
  split; [reflexivity|].
  apply (needs_ocr_analysis_antitone_in_density
           (mk_text_analysis true 1 1 40 Py.f1_0 (Py.of_int 40))
           (mk_file_metrics Py.f1_0 "memo.pdf") Py.f0_0 f2_pow_m10).
  reflexivity.
Defined.

(** ** Further properties of the code *)

(** What [binary_round_aux] returns on an aligned non-negative mantissa:
    the mantissa [m2] rounded at exponent [e1], renormalized when it
    reaches 2^53, infinity above the largest exponent. *)
Lemma round_aux_shape mx ex lx :
  0 <= mx ->
  ex <= fexp (Zdigits2 mx + ex) ->
  exists m2,
    mx / 2 ^ (fexp (Zdigits2 mx + ex) - ex) <= m2
      <= mx / 2 ^ (fexp (Zdigits2 mx + ex) - ex) + 1
    /\ (mx mod 2 ^ (fexp (Zdigits2 mx + ex) - ex) = 0 -> lx = loc_Exact ->
        m2 = mx / 2 ^ (fexp (Zdigits2 mx + ex) - ex))
    /\ m2 <= 2 ^ 53
    /\ (0 < mx -> 2 ^ 52 <= m2 \/ fexp (Zdigits2 mx + ex) = -1074)
    /\ binary_round_aux Py.prec Py.emax false mx ex lx
       = if m2 <? 2 ^ 53 then
           match m2 with
           | Zpos p =>
               if fexp (Zdigits2 mx + ex) <=? 971
               then S754_finite false p (fexp (Zdigits2 mx + ex))
               else S754_infinity false
           | _ => S754_zero false
           end
         else
           if fexp (Zdigits2 mx + ex) + 1 <=? 971
           then S754_finite false 4503599627370496 (fexp (Zdigits2 mx + ex) + 1)
           else S754_infinity false.
Proof.
  intros Hmx Hal.
  set (d := Zdigits2 mx) in *.
  set (e1 := fexp (d + ex)) in *.
  assert (He1 : -1074 <= e1 /\ d + ex - 53 <= e1) by (unfold e1; rewrite fexp_eq; lia).
  assert (Hd : 0 <= d) by apply Zdigits2_nonneg.
  set (n := e1 - ex) in *.
  assert (Hn : 0 <= n) by (unfold n; lia).
  pose proof (pow2_pos n Hn) as Hpn.
  destruct (shr_fexp_spec mx ex lx Hmx) as (mrs & Heq & Hm1 & Hloc).
  replace (Z.max ex (fexp (Zdigits2 mx + ex))) with e1 in * by (unfold e1, d in *; lia).
  fold n in Hm1, Hloc.
  unfold binary_round_aux. rewrite Heq.
  set (m1 := shr_m mrs) in *.
  destruct (round_nearest_even_bounds m1 (loc_of_shr_record mrs)) as [Hr Hrx].
  set (m2 := round_nearest_even m1 (loc_of_shr_record mrs)) in *.
  assert (Hm1pos : 0 <= m1) by (rewrite Hm1; apply Z.div_pos; lia).
  assert (Hm1hi : m1 < 2 ^ 53).
  { rewrite Hm1. apply Z.div_lt_upper_bound; [lia|].
    destruct (Z.eq_dec mx 0) as [->|H0]; [lia|].
    pose proof (Zdigits2_bounds mx ltac:(lia)) as [_ Hhi]. fold d in Hhi.
    eapply Z.lt_le_trans; [exact Hhi|].
    rewrite <- Z.pow_add_r by lia. apply pow2_le. unfold n. lia. }
  assert (Hm1lo : 0 < mx -> 2 ^ 52 <= m1 \/ e1 = -1074).
  { intros H0. destruct (Z.eq_dec e1 (-1074)) as [|Hne]; [now right|left].
    assert (Hn' : n = d - 53) by (unfold n, e1 in *; rewrite fexp_eq in *; lia).
    pose proof (Zdigits2_bounds mx H0) as [Hlo _]. fold d in Hlo.
    rewrite Hm1. apply Z.div_le_lower_bound; [lia|].
    rewrite <- Z.pow_add_r by lia.
    replace (n + 52) with (d - 1) by lia. exact Hlo. }
  exists m2. rewrite <- Hm1.
  split; [exact Hr|]. split.
  { intros Hmod Hx. apply Hrx, Hloc. now split. }
  split; [lia|]. split.
  { intros H0. destruct (Hm1lo H0); [left; lia|now right]. }
  destruct (shr_fexp_spec m2 e1 loc_Exact ltac:(lia)) as (mrs2 & Heq2 & Hm3 & _).
  rewrite Heq2.
  destruct (Z.ltb_spec m2 (2 ^ 53)) as [Hsmall|Hbig].
  - pose proof (Zdigits2_le_pow m2 53 ltac:(lia) ltac:(lia)) as Hd2.
    replace (Z.max e1 (fexp (Zdigits2 m2 + e1))) with e1 in *
      by (rewrite fexp_eq; lia).
    rewrite Z.sub_diag, Z.pow_0_r, Z.div_1_r in Hm3. rewrite Hm3.
    destruct m2 as [|p|p]; try reflexivity. lia.
  - assert (Hm2 : m2 = 2 ^ 53) by lia.
    rewrite Hm2 in *.
    replace (Zdigits2 (2 ^ 53)) with 54 in * by reflexivity.
    replace (Z.max e1 (fexp (54 + e1))) with (e1 + 1) in *
      by (rewrite fexp_eq; lia).
    replace (e1 + 1 - e1) with 1 in Hm3 by lia.
    replace (2 ^ 53 / 2 ^ 1) with (Zpos (4503599627370496)) in Hm3 by reflexivity.
    rewrite Hm3. reflexivity.
Qed.

Lemma div_shift_nonneg mx ex my ey : 0 <= div_shift mx ex my ey.
Proof. unfold div_shift, div_exp. lia. Qed.

(** [SFdiv] on finite operands: the integer quotient of the shifted
    dividend, rounded. *)
Lemma fdiv_finite_eq mx ex my ey :
  Py.fdiv (S754_finite false mx ex) (S754_finite false my ey)
  = binary_round_aux Py.prec Py.emax false
      (Zpos mx * 2 ^ div_shift mx ex my ey / Zpos my)
      (div_exp mx ex my ey)
      (new_location (Zpos my)
         ((Zpos mx * 2 ^ div_shift mx ex my ey) mod Zpos my)).
Proof.
  pose proof (div_shift_nonneg mx ex my ey) as Hs.
  unfold Py.fdiv, SFdiv, SFdiv_core_binary. cbn [xorb].
  fold (div_exp mx ex my ey). fold (div_shift mx ex my ey).
  set (s := div_shift mx ex my ey) in *.
  set (m' := match s with
             | 0 => Zpos mx
             | Zpos _ => Z.shiftl (Zpos mx) s
             | Zneg _ => 0
             end).
  assert (Hm' : m' = Zpos mx * 2 ^ s).
  { unfold m'. destruct s eqn:E; try lia.
    apply Z.shiftl_mul_pow2. lia. }
  clearbody m'. rewrite div_eucl_eq, Hm'. reflexivity.
Qed.

(** The quotient is aligned: its exponent is at most the format's. *)
Lemma div_quotient_aligned mx ex my ey :
  div_exp mx ex my ey
  <= fexp (Zdigits2 (Zpos mx * 2 ^ div_shift mx ex my ey / Zpos my)
           + div_exp mx ex my ey).
Proof.
  pose proof (div_shift_nonneg mx ex my ey) as Hs.
  set (e' := div_exp mx ex my ey) in *.
  set (s := div_shift mx ex my ey) in *.
  set (d1 := Zdigits2 (Zpos mx)). set (d2 := Zdigits2 (Zpos my)).
  set (D := d1 + ex - (d2 + ey)).
  assert (He' : e' <= fexp D) by (unfold e', div_exp; fold d1 d2 D; lia).
  assert (Hse : s = ex - ey - e') by reflexivity.
  pose proof (Zdigits2_bounds (Zpos mx) ltac:(lia)) as [Hlo1 Hhi1].
  pose proof (Zdigits2_bounds (Zpos my) ltac:(lia)) as [Hlo2 Hhi2].
  pose proof (Zdigits2_pos (Zpos mx) ltac:(lia)) as Hd1.
  pose proof (Zdigits2_pos (Zpos my) ltac:(lia)) as Hd2.
  fold d1 in Hlo1, Hhi1, Hd1. fold d2 in Hlo2, Hhi2, Hd2.
  pose proof (pow2_pos s Hs) as Hps.
  set (q := Zpos mx * 2 ^ s / Zpos my).
  pose proof (Z.div_mod (Zpos mx * 2 ^ s) (Zpos my) ltac:(lia)) as Hdm.
  pose proof (Z.mod_pos_bound (Zpos mx * 2 ^ s) (Zpos my) ltac:(lia)) as Hr.
  fold q in Hdm.
  assert (Hq0 : 0 <= q) by (apply Z.div_pos; lia).
  destruct (Z.eq_dec q 0) as [Hz|Hnz].
  - rewrite Hz. cbn [Zdigits2]. rewrite Z.add_0_l.
    assert (d1 - 1 + s < d2).
    { apply pow2_lt_inv; [lia|]. rewrite Z.pow_add_r by lia. nia. }
    rewrite fexp_eq in *. unfold D in *. lia.
  - pose proof (Zdigits2_bounds q ltac:(lia)) as [_ Hhiq].
    pose proof (Zdigits2_pos q ltac:(lia)) as Hdq.
    assert (d1 - 1 + s < Zdigits2 q + d2).
    { apply pow2_lt_inv; [lia|]. rewrite !Z.pow_add_r by lia. nia. }
    eapply Z.le_trans; [exact He'|].
    apply fexp_mono. unfold D in *. lia.
Qed.

(** Rounding to nearest never goes below a representable bound. *)
Lemma round_aux_ge mx ex lx mC eC :
  0 < mx ->
  ex <= fexp (Zdigits2 mx + ex) ->
  bounded Py.prec Py.emax mC eC = true ->
  eC <= fexp (Zdigits2 mx + ex) ->
  (fexp (Zdigits2 mx + ex) = eC -> Zpos mC * 2 ^ (eC - ex) <= mx) ->
  binary_round_aux Py.prec Py.emax false mx ex lx = S754_infinity false
  \/ (good (binary_round_aux Py.prec Py.emax false mx ex lx)
      /\ scaled (S754_finite false mC eC)
         <= scaled (binary_round_aux Py.prec Py.emax false mx ex lx)).
Proof.
  intros Hmx Hal BC HeC Hval.
  destruct (bounded_facts _ _ BC) as (HeCr & HmC & _).
  destruct (round_aux_shape mx ex lx ltac:(lia) Hal)
    as (m2 & Hm2 & _ & Hm2hi & Hm2lo & ->).
  specialize (Hm2lo Hmx).
  set (e1 := fexp (Zdigits2 mx + ex)) in *.
  set (n := e1 - ex) in *.
  assert (Hn : 0 <= n) by (unfold n; lia).
  pose proof (pow2_pos n Hn) as Hpn.
  pose proof (pow2_pos (eC + 1074) ltac:(lia)) as HpC.
  assert (Hsc : 2 ^ (e1 + 1074) = 2 ^ (e1 - eC) * 2 ^ (eC + 1074)).
  { rewrite <- Z.pow_add_r by lia. f_equal. lia. }
  pose proof (pow2_pos (e1 - eC) ltac:(lia)) as Hpd.
  (* the mantissa against the bound's, at exponent e1 *)
  assert (Hlow : Zpos mC <= m2 * 2 ^ (e1 - eC)).
  { destruct (Z.eq_dec e1 eC) as [E|E].
    - specialize (Hval E). rewrite E, Z.sub_diag, Z.pow_0_r, Z.mul_1_r.
      assert (Zpos mC <= mx / 2 ^ n); [|lia].
      apply Z.div_le_lower_bound; [lia|].
      unfold n. rewrite E. lia.
    - assert (He : e1 <> -1074) by lia.
      destruct Hm2lo as [H52|]; [|contradiction].
      assert (2 ^ 1 <= 2 ^ (e1 - eC)) by (apply pow2_le; lia).
      change (2 ^ 1) with 2 in *. change (2 ^ 53) with (2 * 2 ^ 52) in HmC.
      nia. }
  assert (Hm2pos : 0 < m2) by nia.
  destruct (Z.ltb_spec m2 (2 ^ 53)) as [Hsmall|Hbig].
  - destruct m2 as [|p|p]; try lia.
    destruct (Z.leb_spec e1 971) as [Hle|Hgt]; [right|now left].
    split.
    + right.
      assert (He1 : -1074 <= e1) by (unfold e1; rewrite fexp_eq; lia).
      destruct (bounded_intro (Zpos p) e1) as (p' & Hp & Hb);
        [lia|lia|exact Hm2lo|].
      injection Hp as <-. eauto.
    + cbn [scaled]. rewrite Hsc. nia.
  - assert (Hm2e : m2 = 2 ^ 53) by lia.
    destruct (Z.leb_spec (e1 + 1) 971) as [Hle|Hgt]; [right|now left].
    split.
    + right. do 2 eexists. split; [reflexivity|].
      rewrite bounded_spec, fexp_eq.
      replace (Zdigits2 (Zpos 4503599627370496)) with 53 by reflexivity.
      assert (-1074 <= e1) by (unfold e1; rewrite fexp_eq; lia). lia.
    + cbn [scaled].
      replace (e1 + 1 + 1074) with (Z.succ (e1 + 1074)) by lia.
      rewrite Z.pow_succ_r, Hsc by lia.
      change (Zpos 4503599627370496) with (2 ^ 52).
      rewrite Hm2e in Hlow. change (2 ^ 53) with (2 * 2 ^ 52) in Hlow. nia.
Qed.

(** The quotient of two positive finite operands is at least [C] when the
    dividend is at least [C] times the divisor (or it is infinite). *)
Lemma fdiv_ge mx ex my ey mC eC c :
  bounded Py.prec Py.emax mC eC = true ->
  0 <= ex + c -> 0 <= eC + ey + c ->
  Zpos mC * Zpos my * 2 ^ (eC + ey + c) <= Zpos mx * 2 ^ (ex + c) ->
  Py.fdiv (S754_finite false mx ex) (S754_finite false my ey)
  = S754_infinity false
  \/ (good (Py.fdiv (S754_finite false mx ex) (S754_finite false my ey))
      /\ scaled (S754_finite false mC eC)
         <= scaled (Py.fdiv (S754_finite false mx ex) (S754_finite false my ey))).
Proof.
  intros BC Ha Hb Hle.
  rewrite fdiv_finite_eq.
  pose proof (div_quotient_aligned mx ex my ey) as Hal.
  pose proof (div_shift_nonneg mx ex my ey) as Hs.
  set (e' := div_exp mx ex my ey) in *.
  set (s := div_shift mx ex my ey) in *.
  assert (Hse : s = ex - ey - e') by reflexivity.
  pose proof (pow2_pos s Hs) as Hps.
  set (m' := Zpos mx * 2 ^ s) in *.
  set (q := m' / Zpos my) in *.
  pose proof (Z.div_mod m' (Zpos my) ltac:(lia)) as Hdm.
  pose proof (Z.mod_pos_bound m' (Zpos my) ltac:(lia)) as Hr.
  fold q in Hdm.
  assert (Hq0 : 0 <= q) by (apply Z.div_pos; unfold m'; lia).
  destruct (bounded_facts _ _ BC) as (HeCr & HmC & _).
  pose proof BC as BC'. apply bounded_spec in BC'. destruct BC' as [HcC _].
  pose proof (pow2_pos (ex + c) Ha) as Hpa.
  pose proof (pow2_pos (eC + ey + c) Hb) as Hpb.
  destruct (Z_lt_le_dec eC e') as [Hlt|Hge].
  - (* the quotient lies in a higher binade than the bound *)
    assert (Hqpos : 0 < q).
    { destruct (Z.eq_dec q 0) as [Hz|]; [|lia].
      rewrite Hz in Hal. cbn [Zdigits2] in Hal. rewrite fexp_eq in Hal. lia. }
    apply round_aux_ge; try assumption; lia.
  - set (K := Zpos mC * 2 ^ (eC - e')).
    pose proof (pow2_pos (eC - e') ltac:(lia)) as HpK.
    assert (Hbound : Zpos my * K <= m').
    { unfold K, m'.
      destruct (Z_lt_le_dec (ey + c + e') 0) as [Hg|Hg].
      - pose proof (pow2_pos (- (ey + c + e')) ltac:(lia)) as Hpg.
        replace s with ((ex + c) + - (ey + c + e')) by lia.
        replace (eC - e') with ((eC + ey + c) + - (ey + c + e')) by lia.
        rewrite (Z.pow_add_r 2 (ex + c)), (Z.pow_add_r 2 (eC + ey + c)) by lia.
        set (X := 2 ^ (ex + c)) in *. set (Y := 2 ^ (eC + ey + c)) in *.
        set (G := 2 ^ (- (ey + c + e'))) in *.
        assert (Zpos mC * Zpos my * Y * G <= Zpos mx * X * G) by nia. lia.
      - pose proof (pow2_pos (ey + c + e') Hg) as Hpg.
        assert (Zpos my * (Zpos mC * 2 ^ (eC - e')) * 2 ^ (ey + c + e')
                <= Zpos mx * 2 ^ s * 2 ^ (ey + c + e')); [|nia].
        rewrite <- !Z.mul_assoc, <- !Z.pow_add_r by lia.
        replace (s + (ey + c + e')) with (ex + c) by lia.
        replace (eC - e' + (ey + c + e')) with (eC + ey + c) by lia. lia. }
    assert (HKq : K <= q) by nia.
    assert (HK1 : 0 < K) by (unfold K; nia).
    assert (Hdig : Zdigits2 (Zpos mC) + (eC - e') <= Zdigits2 q).
    { rewrite <- Zdigits2_shift by lia. fold K.
      pose proof (Zdigits2_bounds K HK1) as [HloK _].
      pose proof (Zdigits2_pos K HK1).
      assert (Zdigits2 K - 1 < Zdigits2 q); [|lia].
      apply Zdigits2_gt_pow; lia. }
    apply round_aux_ge; try assumption; try lia.
    rewrite <- HcC. apply fexp_mono. lia.
Qed.

(** Two valid values that compare equal have the same scaled value. *)
Lemma good_compare_eq x y :
  good x -> good y -> SFcompare x y = Some Eq -> scaled x = scaled y.
Proof.
  intros [->|(mx & ex & -> & _)] [->|(my & ey & -> & _)]; try reflexivity;
    try discriminate.
  rewrite SFcompare_finite_pos.
  destruct (Z.compare_spec ex ey) as [->|?|?]; try discriminate.
  destruct (Pos.compare_spec mx my) as [->|?|?]; try discriminate.
  reflexivity.
Qed.

(** On valid non-negative values [<] is [<] on the scaled integers. *)
Lemma good_flt x y :
  good x -> good y -> (Py.flt x y = true <-> scaled x < scaled y).
Proof.
  intros Gx Gy. unfold Py.flt, SFltb. split.
  - intros H. destruct (Z_lt_le_dec (scaled x) (scaled y)) as [|Hle]; [assumption|].
    pose proof (good_fle y x Gy Gx Hle) as Hyx.
    unfold Py.fle, SFleb in Hyx. rewrite (SFcompare_antisym x y) in Hyx.
    destruct (SFcompare x y) as [[| |]|]; cbn in *; congruence.
  - intros Hlt.
    pose proof (good_fle x y Gx Gy ltac:(lia)) as Hxy.
    unfold Py.fle, SFleb in Hxy.
    destruct (SFcompare x y) as [[| |]|] eqn:E; try congruence.
    apply good_compare_eq in E; auto. lia.
Qed.

(** *** Quotients of integers against representable bounds *)

Lemma int_truediv_value a b q :
  0 < a -> 0 < b -> Py.int_truediv a b = Py.ret q ->
  exists pa pb,
    a = Zpos pa /\ b = Zpos pb
    /\ q = Py.fdiv (S754_finite false pa 0) (S754_finite false pb 0)
    /\ q <> S754_infinity false.
Proof.
  intros Ha Hb. unfold Py.int_truediv.
  replace (b =? 0) with false by (symmetry; apply Z.eqb_neq; lia).
  destruct a as [|pa|pa]; try lia. destruct b as [|pb|pb]; try lia.
  cbn [Py.raw_int]. intros H. exists pa, pb.
  destruct (Py.fdiv _ _) as [s|s| |s m e] eqn:E; try discriminate;
    injection H as <-; repeat split; discriminate.
Qed.

Lemma int_truediv_zero b q :
  0 < b -> Py.int_truediv 0 b = Py.ret q -> q = Py.f0_0.
Proof.
  intros Hb. unfold Py.int_truediv.
  replace (b =? 0) with false by (symmetry; apply Z.eqb_neq; lia).
  destruct b as [|pb|pb]; try lia. cbn. now intros [= <-].
Qed.

(** [a / b <= C] when [a <= C * b], for [C = mC * 2^eC] with [eC <= 0]. *)
Lemma int_truediv_le_bound a b q mC eC :
  0 <= a -> 0 < b -> Py.int_truediv a b = Py.ret q ->
  bounded Py.prec Py.emax mC eC = true -> eC <= 0 ->
  a * 2 ^ (- eC) <= Zpos mC * b ->
  good q /\ scaled q <= scaled (S754_finite false mC eC).
Proof.
  intros Ha Hb Hq BC HeC Hle.
  destruct (Z.eq_dec a 0) as [->|Hne].
  - rewrite (int_truediv_zero b q Hb Hq). split; [now left|].
    destruct (bounded_facts _ _ BC) as (He & _). cbn [scaled Py.f0_0].
    pose proof (pow2_pos (eC + 1074) ltac:(lia)). lia.
  - destruct (int_truediv_value a b q ltac:(lia) Hb Hq)
      as (pa & pb & -> & -> & -> & _).
    apply (fdiv_le pa 0 pb 0 mC eC (- eC)); try assumption; try lia.
    replace (eC + 0 + - eC) with 0 by lia. rewrite Z.pow_0_r. cbn [Z.add]. lia.
Qed.

(** [C <= a / b] when [C * b <= a]. *)
Lemma int_truediv_ge_bound a b q mC eC :
  0 < b -> Py.int_truediv a b = Py.ret q ->
  bounded Py.prec Py.emax mC eC = true -> eC <= 0 ->
  Zpos mC * b <= a * 2 ^ (- eC) ->
  good q /\ scaled (S754_finite false mC eC) <= scaled q.
Proof.
  intros Hb Hq BC HeC Hle.
  pose proof (pow2_pos (- eC) ltac:(lia)) as Hp.
  assert (Ha : 0 < a) by nia.
  destruct (int_truediv_value a b q Ha Hb Hq)
    as (pa & pb & -> & -> & -> & Hinf).
  destruct (fdiv_ge pa 0 pb 0 mC eC (- eC)) as [H|H];
    try assumption; try lia.
  - replace (eC + 0 + - eC) with 0 by lia. rewrite Z.pow_0_r. cbn [Z.add]. lia.
  - contradiction.
Qed.

(** [a / b < C] exactly when the integers say so: [P] is the binary64
    just below [C]. *)
Lemma int_truediv_lt_iff a b q mC eC mP eP (cond : Prop) :
  0 <= a -> 0 < b -> Py.int_truediv a b = Py.ret q ->
  bounded Py.prec Py.emax mC eC = true -> eC <= 0 ->
  bounded Py.prec Py.emax mP eP = true -> eP <= 0 ->
  scaled (S754_finite false mP eP) < scaled (S754_finite false mC eC) ->
  cond \/ ~ cond ->
  (cond -> a * 2 ^ (- eP) <= Zpos mP * b) ->
  (~ cond -> Zpos mC * b <= a * 2 ^ (- eC)) ->
  (Py.flt q (S754_finite false mC eC) = true <-> cond).
Proof.
  intros Ha Hb Hq BC HeC BP HeP HPC Hdec Hyes Hno.
  assert (GC : good (S754_finite false mC eC)) by (right; eauto).
  split.
  - intros Hlt. destruct Hdec as [|Hn]; [assumption|].
    destruct (int_truediv_ge_bound a b q mC eC Hb Hq BC HeC (Hno Hn)) as [G H].
    apply good_flt in Hlt; auto. lia.
  - intros Hc.
    destruct (int_truediv_le_bound a b q mP eP Ha Hb Hq BP HeP (Hyes Hc)) as [G H].
    apply good_flt; auto. lia.
Qed.

(** *** The thresholds of the rules, on integers *)

Lemma ratio_lt_0_3 a b q :
  0 <= a -> 0 < b <= 2 ^ 50 -> Py.int_truediv a b = Py.ret q ->
  (Py.flt q Py.f0_3 = true <-> 10 * a < 3 * b).
Proof.
  intros Ha Hb Hq.
  apply (int_truediv_lt_iff a b q 5404319552844595 (-54)
           5404319552844594 (-54)); try assumption; try reflexivity; try lia.
Qed.

Lemma ratio_lt_0_5 a b q :
  0 <= a -> 0 < b <= 2 ^ 53 -> Py.int_truediv a b = Py.ret q ->
  (Py.flt q Py.f0_5 = true <-> 2 * a < b).
Proof.
  intros Ha Hb Hq.
  apply (int_truediv_lt_iff a b q 4503599627370496 (-53)
           9007199254740991 (-54)); try assumption; try reflexivity; try lia.
Qed.

Lemma avg_lt_50 a b q :
  0 <= a -> 0 < b <= 2 ^ 47 -> Py.int_truediv a b = Py.ret q ->
  (Py.flt q (Py.of_int 50) = true <-> a < 50 * b).
Proof.
  intros Ha Hb Hq.
  change (Py.of_int 50) with (S754_finite false 7036874417766400 (-47)).
  apply (int_truediv_lt_iff a b q 7036874417766400 (-47)
           7036874417766399 (-47)); try assumption; try reflexivity; try lia.
Qed.

Lemma size_gt_5 size q :
  0 <= size -> Py.int_truediv size (1024 * 1024) = Py.ret q ->
  (Py.fgt q (Py.of_int 5) = true <-> size > 5 * (1024 * 1024)).
Proof.
  intros Ha Hq. unfold Py.fgt. fold (Py.flt (Py.of_int 5) q).
  change (Py.of_int 5) with (S754_finite false 5629499534213120 (-50)).
  assert (G5 : good (S754_finite false 5629499534213120 (-50)))
    by (right; do 2 eexists; split; reflexivity).
  split.
  - intros Hlt.
    destruct (Z_lt_le_dec (5 * (1024 * 1024)) size) as [|Hle]; [lia|].
    destruct (int_truediv_le_bound size (1024 * 1024) q
                5629499534213120 (-50)) as [G H];
      try assumption; try reflexivity; try lia.
    apply good_flt in Hlt; auto. lia.
  - intros Hgt.
    destruct (int_truediv_ge_bound size (1024 * 1024) q
                5629499534213121 (-50)) as [G H];
      try assumption; try reflexivity; try lia.
    apply good_flt; auto.
    assert (scaled (S754_finite false 5629499534213120 (-50))
            < scaled (S754_finite false 5629499534213121 (-50)))
      by reflexivity.
    lia.
Qed.

Section MoreMetrics.

Import PDF_Ocr_Analyzer.

Lemma needs_ocr_analysis_iff text d file :
  needs_ocr_analysis text d file = true <->
  (has_text_layer text = false
   \/ Py.flt (text_pages_ratio text) Py.f0_3 = true
   \/ Py.flt d Py.f0_02 = true
   \/ (Py.fgt (file_size_mb file) (Py.of_int 5) = true
       /\ Py.flt (avg_text_per_page text) (Py.of_int 50) = true)
   \/ (total_pages text > 10
       /\ Py.flt (text_pages_ratio text) Py.f0_5 = true)).
Proof.
  unfold needs_ocr_analysis, rules, Py.any. cbn [existsb].
  rewrite !orb_true_iff, !andb_true_iff, negb_true_iff, Z.gtb_gt.
  intuition congruence.
Qed.

Lemma has_text_len text : has_text text = true -> 1 <= Py.len (Py.strip text).
Proof.
  unfold has_text, Py.str_truthy, Py.len.
  destruct (Py.strip text); [discriminate|]. cbn [List.length]. lia.
Qed.

Lemma count_le_sum texts : count_text_pages texts <= sum_text_length texts.
Proof.
  unfold count_text_pages.
  induction texts as [|text rest IH]; cbn [filter sum_text_length List.length];
    [lia|].
  destruct (has_text text) eqn:E; cbn [List.length]; [|lia].
  pose proof (has_text_len text E). lia.
Qed.

(** What a returned record holds, in terms of the page texts. *)
Lemma text_layer_facts pdf metrics :
  analyze_pdf_text_layer pdf = Py.ret metrics ->
  exists texts,
    fitz_open pdf = inr (map inr texts)
    /\ total_pages metrics = Z.of_nat (List.length texts)
    /\ pages_with_text metrics = count_text_pages texts
    /\ total_text_length metrics = sum_text_length texts
    /\ has_text_layer metrics = (count_text_pages texts >? 0)
    /\ (texts = [] ->
        text_pages_ratio metrics = Py.f0_0 /\ avg_text_per_page metrics = Py.f0_0)
    /\ (texts <> [] ->
        Py.int_truediv (count_text_pages texts) (Z.of_nat (List.length texts))
        = Py.ret (text_pages_ratio metrics)
        /\ Py.int_truediv (sum_text_length texts)
                          (Z.max (count_text_pages texts) 1)
           = Py.ret (avg_text_per_page metrics)).
Proof.
  unfold analyze_pdf_text_layer.
  destruct (fitz_open pdf) as [e|pages]; [discriminate|]. cbn [Py.bind].
  destruct (pages_all_or_first_failure pages)
    as [[texts ->]|(before & e & after & ->)].
  2:{ rewrite text_layer_loop_raises. discriminate. }
  rewrite text_layer_loop_ok. cbn [Py.bind Py.ret].
  cbn [total_pages pages_with_text total_text_length has_text_layer
       text_pages_ratio avg_text_per_page orb].
  rewrite length_map, !Z.add_0_l.
  pose proof (has_text_layer_count texts) as Hh.
  intros H. exists texts. split; [reflexivity|].
  destruct (Z.of_nat (List.length texts) >? 0) eqn:Hpos.
  - destruct (Py.int_truediv (count_text_pages texts) _) as [e|q] eqn:Hq;
      [discriminate|].
    destruct (Py.int_truediv (sum_text_length texts) _) as [e|avg] eqn:Havg;
      [discriminate|].
    cbn [Py.bind Py.ret] in H. injection H as <-.
    cbn [total_pages pages_with_text total_text_length has_text_layer
         text_pages_ratio avg_text_per_page].
    repeat split; try assumption;
      match goal with
      | E : texts = [] |- _ => rewrite E in Hpos; cbn in Hpos; discriminate
      end.
  - injection H as <-.
    cbn [total_pages pages_with_text total_text_length has_text_layer
         text_pages_ratio avg_text_per_page].
    assert (texts = []) as ->.
    { destruct texts; [reflexivity|]. cbn in Hpos. discriminate. }
    repeat split; try reflexivity; congruence.
Qed.

End MoreMetrics.

(** X1. The verdict on a document, on integers: with [p] of [t] pages
    bearing text ([t] at most 2^47), [n] stripped characters and a file
    of [size] bytes, [needs_ocr_analysis] on the computed metrics is true
    exactly when [p = 0], or [10 p < 3 t], or the density is below 0.02,
    or [size > 5 * 2^20] and [n < 50 * max(p, 1)], or [t > 10] and
    [2 p < t]: rounding in the two divisions never moves a document
    across a threshold. *)
Theorem verdict_on_integers :
  forall (pdf : pdf_file) (size : Z) (file : file_metrics)
         (text : text_analysis) (d : Py.float),
    st_size pdf = inr size -> 0 <= size ->
    PDF_Ocr_Analyzer.get_file_metrics pdf = Py.ret file ->
    PDF_Ocr_Analyzer.analyze_pdf_text_layer pdf = Py.ret text ->
    total_pages text <= 2 ^ 47 ->
    (PDF_Ocr_Analyzer.needs_ocr_analysis text d file = true <->
     (pages_with_text text = 0
      \/ 10 * pages_with_text text < 3 * total_pages text
      \/ Py.flt d Py.f0_02 = true
      \/ (size > 5 * (1024 * 1024)
          /\ total_text_length text < 50 * Z.max (pages_with_text text) 1)
      \/ (total_pages text > 10
          /\ 2 * pages_with_text text < total_pages text))).
Proof.
  intros pdf size file text d Hsize Hs0 Hfile Htext Hpages.
  destruct (text_layer_facts pdf text Htext)
    as (texts & _ & Ht & Hp & Hl & Hh & Hnil & Hcons).
  pose proof (count_text_pages_bounds texts) as Hc.
  pose proof (sum_text_length_nonneg texts) as Hsum.
  unfold PDF_Ocr_Analyzer.get_file_metrics in Hfile. rewrite Hsize in Hfile.
  cbn [Py.bind] in Hfile.
  destruct (Py.int_truediv size (1024 * 1024)) as [e|mb] eqn:Hmb;
    [discriminate|].
  cbn [Py.bind Py.ret] in Hfile. injection Hfile as <-.
  rewrite needs_ocr_analysis_iff. cbn [file_size_mb].
  rewrite (size_gt_5 size mb Hs0 Hmb), Hh, Ht, Hp, Hl.
  rewrite Ht in Hpages.
  destruct (list_eq_dec (list_eq_dec N.eq_dec) texts []) as [Hnone|Hne].
  - rewrite Hnone. split; intros _; left; reflexivity.
  - destruct (Hcons Hne) as [Hq Havg].
    assert (Hlen : 0 < Z.of_nat (List.length texts))
      by (destruct texts; [exfalso; apply Hne; reflexivity|cbn; lia]).
    assert (H50 : 2 ^ 47 <= 2 ^ 50) by (apply pow2_le; lia).
    assert (H53 : 2 ^ 47 <= 2 ^ 53) by (apply pow2_le; lia).
    assert (Hb1 : 0 < Z.of_nat (List.length texts) <= 2 ^ 50) by lia.
    assert (Hb2 : 0 < Z.of_nat (List.length texts) <= 2 ^ 53) by lia.
    assert (Hb3 : 0 < Z.max (count_text_pages texts) 1 <= 2 ^ 47) by lia.
    rewrite (ratio_lt_0_3 _ _ _ (proj1 Hc) Hb1 Hq).
    rewrite (ratio_lt_0_5 _ _ _ (proj1 Hc) Hb2 Hq).
    rewrite (avg_lt_50 _ _ _ Hsum Hb3 Havg).
    destruct (Z.gtb_spec (count_text_pages texts) 0);
      intuition (try lia; try congruence).
Qed.

Lemma verdict_on_integers_witness :
  st_size good_pdf = inr 2097152
  /\ 0 <= 2097152
  /\ PDF_Ocr_Analyzer.get_file_metrics good_pdf
     = Py.ret (mk_file_metrics (Py.of_int 2) "good.pdf")
  /\ PDF_Ocr_Analyzer.analyze_pdf_text_layer good_pdf
     = Py.ret (mk_text_analysis true 2 2 4 Py.f1_0 (Py.of_int 2))
  /\ total_pages (mk_text_analysis true 2 2 4 Py.f1_0 (Py.of_int 2)) <= 2 ^ 47
  /\ (PDF_Ocr_Analyzer.needs_ocr_analysis
        (mk_text_analysis true 2 2 4 Py.f1_0 (Py.of_int 2)) Py.f0_5
        (mk_file_metrics (Py.of_int 2) "good.pdf") = true <->
      (2 = 0 \/ 10 * 2 < 3 * 2 \/ Py.flt Py.f0_5 Py.f0_02 = true
       \/ (2097152 > 5 * (1024 * 1024) /\ 4 < 50 * Z.max 2 1)
       \/ (2 > 10 /\ 2 * 2 < 2))).
Proof.
  assert (H1 : PDF_Ocr_Analyzer.get_file_metrics good_pdf
               = Py.ret (mk_file_metrics (Py.of_int 2) "good.pdf"))
    by (vm_compute; reflexivity).
  assert (H2 : PDF_Ocr_Analyzer.analyze_pdf_text_layer good_pdf
               = Py.ret (mk_text_analysis true 2 2 4 Py.f1_0 (Py.of_int 2)))
    by (vm_compute; reflexivity).
  assert (H3 : total_pages (mk_text_analysis true 2 2 4 Py.f1_0 (Py.of_int 2))
               <= 2 ^ 47) by (vm_compute; discriminate).
  split; [reflexivity|]. split; [lia|]. split; [exact H1|].
  split; [exact H2|]. split; [exact H3|].
  exact (verdict_on_integers good_pdf 2097152 _ _ Py.f0_5 eq_refl
           ltac:(lia) H1 H2 H3).
Defined.

(** [x < y] and [y <= z] give [x < z]. *)
Lemma flt_fle_trans (x y z : Py.float) :
  Py.flt x y = true -> Py.fle y z = true -> Py.flt x z = true.
Proof.
  unfold Py.fle, Py.flt, SFleb, SFltb.
  destruct x as [sx|sx| |sx mx ex], y as [sy|sy| |sy my ey],
      z as [sz|sz| |sz mz ez];
    try (destruct sx); try (destruct sy); try (destruct sz);
    try (cbn; congruence).
  - rewrite !SFcompare_finite_neg.
    destruct (Z.compare_spec ex ey), (Z.compare_spec ey ez),
      (Z.compare_spec ex ez); try lia; subst; try congruence;
      cbn; try congruence.
    destruct (Pos.compare_spec mx my), (Pos.compare_spec my mz),
      (Pos.compare_spec mx mz); cbn; try congruence; lia.
  - rewrite !SFcompare_finite_pos.
    destruct (Z.compare_spec ex ey), (Z.compare_spec ey ez),
      (Z.compare_spec ex ez); try lia; subst; try congruence;
      cbn; try congruence.
    destruct (Pos.compare_spec mx my), (Pos.compare_spec my mz),
      (Pos.compare_spec mx mz); cbn; try congruence; lia.
Qed.

(** X2. The verdict is monotone, in both files: a document that is
    flagged for OCR stays flagged when its text layer disappears, when
    its share of text pages, its characters per text page or its visual
    density do not grow, and when its size and its number of pages do
    not shrink. *)
Theorem needs_ocr_analysis_monotone :
  forall (text text' : text_analysis) (d d' : Py.float)
         (file file' : file_metrics),
    (has_text_layer text' = true -> has_text_layer text = true) ->
    Py.fle (text_pages_ratio text') (text_pages_ratio text) = true ->
    Py.fle (avg_text_per_page text') (avg_text_per_page text) = true ->
    Py.fle d' d = true ->
    Py.fle (file_size_mb file) (file_size_mb file') = true ->
    total_pages text <= total_pages text' ->
    (PDF_Ocr_Analyzer.needs_ocr_analysis text d file = true ->
     PDF_Ocr_Analyzer.needs_ocr_analysis text' d' file' = true)
    /\ (TextQualityCheck.needs_ocr_analysis text d file = true ->
        TextQualityCheck.needs_ocr_analysis text' d' file' = true).
Proof.
  intros text text' d d' file file' Hh Hr Ha Hd Hs Hp.
  assert (H : PDF_Ocr_Analyzer.needs_ocr_analysis text d file = true ->
              PDF_Ocr_Analyzer.needs_ocr_analysis text' d' file' = true).
  { rewrite !needs_ocr_analysis_iff.
    intros [H|[H|[H|[[H1 H2]|[H1 H2]]]]].
    - left. destruct (has_text_layer text'); [|reflexivity].
      rewrite Hh in H by reflexivity. discriminate.
    - right; left. eapply fle_flt_trans; eauto.
    - right; right; left. eapply fle_flt_trans; eauto.
    - right; right; right; left. split.
      + unfold Py.fgt in *. eapply flt_fle_trans; eauto.
      + eapply fle_flt_trans; eauto.
    - right; right; right; right. split; [lia|].
      eapply fle_flt_trans; eauto. }
  split; [exact H|]. rewrite !needs_ocr_analysis_same. exact H.
Qed.

Lemma needs_ocr_analysis_monotone_witness :
  Py.fle f0_4 Py.f1_0 = true
  /\ (PDF_Ocr_Analyzer.needs_ocr_analysis
        (mk_text_analysis true 11 11 900 Py.f1_0 (Py.of_int 300)) Py.f0_0
        (mk_file_metrics Py.f1_0 "a.pdf") = true ->
      PDF_Ocr_Analyzer.needs_ocr_analysis
        (mk_text_analysis true 12 5 900 f0_4 (Py.of_int 180)) Py.f0_0
        (mk_file_metrics (Py.of_int 6) "a.pdf") = true).
Proof.
  split; [reflexivity|].
  apply (needs_ocr_analysis_monotone
           (mk_text_analysis true 11 11 900 Py.f1_0 (Py.of_int 300))
           (mk_text_analysis true 12 5 900 f0_4 (Py.of_int 180))
           Py.f0_0 Py.f0_0
           (mk_file_metrics Py.f1_0 "a.pdf")
           (mk_file_metrics (Py.of_int 6) "a.pdf"));
    try reflexivity. cbn. lia.
Defined.

Section Batch.

Import PDF_Ocr_Analyzer.

Variable cvt : Z * Z * Z -> Z.

Lemma rows_of_length pdf_files :
  (List.length (rows_of cvt pdf_files) <= List.length pdf_files)%nat.
Proof.
  induction pdf_files as [|pdf rest IH]; cbn [rows_of flat_map List.length];
    [lia|].
  fold (rows_of cvt rest). rewrite length_app.
  destruct (analyze_pdf_ocr_need_body cvt pdf); cbn [List.length]; lia.
Qed.

Lemma rows_of_in row pdf_files :
  In row (rows_of cvt pdf_files) <->
  exists pdf, In pdf pdf_files /\ analyze_pdf_ocr_need_body cvt pdf = inr row.
Proof.
  unfold rows_of. rewrite in_flat_map. split.
  - intros (pdf & Hin & Hrow). exists pdf. split; [exact Hin|].
    destruct (analyze_pdf_ocr_need_body cvt pdf) as [e|r]; cbn in Hrow;
      [contradiction|]. destruct Hrow as [->|[]]. reflexivity.
  - intros (pdf & Hin & Hrow). exists pdf. split; [exact Hin|].
    rewrite Hrow. now left.
Qed.

(** What the body of the orchestrator returns. *)
Lemma analyze_pdf_ocr_need_body_inv pdf row :
  analyze_pdf_ocr_need_body cvt pdf = inr row ->
  exists file text d,
    get_file_metrics pdf = Py.ret file
    /\ analyze_pdf_text_layer pdf = Py.ret text
    /\ filename file = basename pdf
    /\ d = match setup_poppler pdf with
           | Some (String _ _) => analyze_visual_text_density cvt pdf 5
           | _ => Py.f0_0
           end
    /\ row = result_dict file text d (needs_ocr_analysis text d file).
Proof.
  unfold analyze_pdf_ocr_need_body.
  destruct (get_file_metrics pdf) as [e|file] eqn:Hf; [discriminate|].
  destruct (analyze_pdf_text_layer pdf) as [e|text] eqn:Ht; [discriminate|].
  cbn [Py.bind Py.ret]. intros [= <-].
  exists file, text. eexists. repeat split.
  - unfold get_file_metrics in Hf.
    destruct (st_size pdf); [discriminate|]. cbn [Py.bind] in Hf.
    destruct (Py.int_truediv _ _); [discriminate|].
    cbn in Hf. now injection Hf as <-.
Qed.

End Batch.

(** On a console that cannot encode what the program prints, the line
    printed before the [try] of [analyze_pdf_ocr_need] raises, and so
    do the lines [analyze_pdf_folder] prints outside its [try]. *)
Lemma pipeline_aborts_when_print_raises :
  PDF_Ocr_Analyzer.Console.analyze_pdf_ocr_need ascii_console rgb2gray_601
    good_pdf
  = Py.raise (Py.UnicodeEncodeError "'ascii' codec can't encode character")
  /\ PDF_Ocr_Analyzer.Console.analyze_pdf_folder ascii_console rgb2gray_601
       (Some [good_pdf])
     = Py.raise (Py.UnicodeEncodeError "'ascii' codec can't encode character").
Proof. split; reflexivity. Qed.

(** X3. What a batch returns.  On a console that takes every line it
    prints, [analyze_pdf_folder] does not raise: it returns the results
    of the documents whose analysis returned one, in the order of the
    folder, and nothing for the others, so there are at most as many
    rows as files, each row is the result of one of the files and none
    has an ['error'] key; a missing or an empty folder gives no row. *)
Theorem analyze_pdf_folder_rows :
  forall (out : Py.stdout) (cvt : Z * Z * Z -> Z)
         (folder : option (list pdf_file)),
    takes_every_line out ->
    PDF_Ocr_Analyzer.Console.analyze_pdf_folder out cvt folder
    = Py.ret match folder with
             | None => []
             | Some pdf_files => rows_of cvt pdf_files
             end
    /\ (forall pdf_files, folder = Some pdf_files ->
          (List.length (rows_of cvt pdf_files) <= List.length pdf_files)%nat
          /\ Forall (fun row => Py.get row "error" = None)
                    (rows_of cvt pdf_files)
          /\ forall row,
               In row (rows_of cvt pdf_files) <->
               exists pdf,
                 In pdf pdf_files
                 /\ PDF_Ocr_Analyzer.Console.analyze_pdf_ocr_need out cvt pdf
                    = Py.ret (Some row)).
Proof.
  intros out cvt folder Hout. split.
  - rewrite (console_analyze_pdf_folder cvt out folder Hout).
    destruct folder as [pdf_files|]; [apply analyze_pdf_folder_spec|reflexivity].
  - intros pdf_files _. split; [apply rows_of_length|]. split.
    + apply Forall_forall. intros row Hin. apply rows_of_in in Hin.
      destruct Hin as (pdf & _ & Hrow).
      destruct (analyze_pdf_ocr_need_body_inv cvt pdf row Hrow)
        as (file & text & d & _ & _ & _ & _ & ->). reflexivity.
    + intros row. rewrite rows_of_in. split.
      * intros (pdf & Hin & Hrow). exists pdf. split; [exact Hin|].
        rewrite (console_analyze_pdf_ocr_need cvt out pdf Hout).
        now rewrite analyze_pdf_ocr_need_spec, Hrow.
      * intros (pdf & Hin & Hrow). exists pdf. split; [exact Hin|].
        rewrite (console_analyze_pdf_ocr_need cvt out pdf Hout) in Hrow.
        rewrite analyze_pdf_ocr_need_spec in Hrow.
        destruct (PDF_Ocr_Analyzer.analyze_pdf_ocr_need_body cvt pdf);
          [discriminate|]. now injection Hrow as <-.
Qed.

Lemma analyze_pdf_folder_rows_witness :
  takes_every_line (fun _ => Py.ret tt)
  /\ PDF_Ocr_Analyzer.Console.analyze_pdf_folder (fun _ => Py.ret tt)
       rgb2gray_601 (Some [good_pdf; corrupt_pdf])
     = Py.ret (rows_of rgb2gray_601 [good_pdf; corrupt_pdf]).
Proof.
  assert (H : takes_every_line (fun _ => Py.ret tt)) by (intros line; reflexivity).
  split; [exact H|].
  exact (proj1 (analyze_pdf_folder_rows (fun _ => Py.ret tt) rgb2gray_601
                  (Some [good_pdf; corrupt_pdf]) H)).
Defined.

(** X4. Every result [analyze_pdf_ocr_need] returns has the seven keys
    of the source in their order and no ['error']; its file name is the
    base name of the path; its flags and its density are a [bool], a
    [float] and a [bool]; and it requires OCR whenever it has no text
    layer and whenever its density is below 0.02. *)
Theorem result_row_invariants :
  forall (cvt : Z * Z * Z -> Z) (pdf : pdf_file) (row : Py.dict),
    PDF_Ocr_Analyzer.analyze_pdf_ocr_need cvt pdf = Py.ret (Some row) ->
    map fst row
    = [ "filename"; "has_text_layer"; "text_pages_ratio"; "avg_text_density";
        "ocr_required"; "file_size_mb"; "total_pages" ]%string
    /\ Py.get row "error" = None
    /\ Py.get row "filename" = Some (Py.VStr (basename pdf))
    /\ exists has_text density ocr,
         Py.get row "has_text_layer" = Some (Py.VBool has_text)
         /\ Py.get row "avg_text_density" = Some (Py.VFloat density)
         /\ Py.get row "ocr_required" = Some (Py.VBool ocr)
         /\ (has_text = false -> ocr = true)
         /\ (Py.flt density Py.f0_02 = true -> ocr = true).
Proof.
  intros cvt pdf row Hrow.
  rewrite analyze_pdf_ocr_need_spec in Hrow.
  destruct (PDF_Ocr_Analyzer.analyze_pdf_ocr_need_body cvt pdf) as [e|r] eqn:Hb;
    [discriminate|]. injection Hrow as ->.
  destruct (analyze_pdf_ocr_need_body_inv cvt pdf row Hb)
    as (file & text & d & Hf & Ht & Hname & Hd & ->).
  split; [reflexivity|]. split; [reflexivity|].
  split; [cbn; now rewrite Hname|].
  exists (has_text_layer text), d,
    (PDF_Ocr_Analyzer.needs_ocr_analysis text d file).
  split; [reflexivity|]. split; [reflexivity|]. split; [reflexivity|].
  split.
  - intros H. apply needs_ocr_analysis_iff. now left.
  - intros H. apply needs_ocr_analysis_iff. now right; right; left.
Qed.

Lemma result_row_invariants_witness :
  exists row,
    PDF_Ocr_Analyzer.analyze_pdf_ocr_need rgb2gray_601 good_pdf
    = Py.ret (Some row)
    /\ Py.get row "error" = None.
Proof.
  eexists. split; [vm_compute; reflexivity|].
  refine (proj1 (proj2 (result_row_invariants rgb2gray_601 good_pdf _ _))).
  vm_compute. reflexivity.
Defined.

(** *** The order of the report *)

Lemma ascii_compare_lt_trans a b c :
  Ascii.compare a b = Lt -> Ascii.compare b c = Lt -> Ascii.compare a c = Lt.
Proof.
  unfold Ascii.compare. rewrite !N.compare_lt_iff. apply N.lt_trans.
Qed.

Lemma string_compare_refl s : String.compare s s = Eq.
Proof.
  pose proof (String.compare_antisym s s) as H.
  destruct (String.compare s s); [reflexivity|discriminate|discriminate].
Qed.

Lemma string_compare_lt_trans s1 : forall s2 s3,
  String.compare s1 s2 = Lt -> String.compare s2 s3 = Lt ->
  String.compare s1 s3 = Lt.
Proof.
  induction s1 as [|a s1 IH]; intros [|b s2] [|c s3]; cbn;
    try discriminate; try reflexivity.
  destruct (Ascii.compare a b) eqn:Hab; try discriminate;
    destruct (Ascii.compare b c) eqn:Hbc; try discriminate.
  - apply Ascii.compare_eq_iff in Hab, Hbc. subst.
    rewrite (proj2 (N.compare_eq_iff _ _) eq_refl : Ascii.compare c c = Eq).
    apply IH.
  - apply Ascii.compare_eq_iff in Hab. subst. rewrite Hbc. reflexivity.
  - apply Ascii.compare_eq_iff in Hbc. subst. rewrite Hab. reflexivity.
  - rewrite (ascii_compare_lt_trans _ _ _ Hab Hbc). reflexivity.
Qed.

Lemma string_ltb_irrefl s : String.ltb s s = false.
Proof. unfold String.ltb. now rewrite string_compare_refl. Qed.

Lemma string_ltb_asym s1 s2 :
  String.ltb s1 s2 = true -> String.ltb s2 s1 = false.
Proof.
  unfold String.ltb. rewrite (String.compare_antisym s1 s2).
  destruct (String.compare s2 s1); cbn; congruence.
Qed.

(** [s1 <= s2] and [s2 <= s3] give [s1 <= s3], with [<=] as [not >]. *)
Lemma string_ltb_le_trans s1 s2 s3 :
  String.ltb s2 s1 = false -> String.ltb s3 s2 = false ->
  String.ltb s3 s1 = false.
Proof.
  unfold String.ltb. intros H12 H23.
  destruct (String.compare s3 s1) eqn:H31; try reflexivity.
  destruct (String.compare s2 s1) eqn:H21; try discriminate.
  - apply String.compare_eq_iff in H21. subst. now rewrite H31 in H23.
  - destruct (String.compare s3 s2) eqn:H32; try discriminate.
    + apply String.compare_eq_iff in H32. subst. congruence.
    + rewrite String.compare_antisym in H21, H32.
      destruct (String.compare s1 s2) eqn:E12; try discriminate.
      destruct (String.compare s2 s3) eqn:E23; try discriminate.
      pose proof (string_compare_lt_trans _ _ _ E12 E23) as H13.
      rewrite String.compare_antisym, H13 in H31. discriminate.
Qed.

Section StableSort.

Context {A K : Type}.
Variable lt : K -> K -> bool.
Variable key : A -> K.

Hypothesis lt_irrefl : forall k, lt k k = false.
Hypothesis lt_asym : forall k1 k2, lt k1 k2 = true -> lt k2 k1 = false.
Hypothesis le_trans : forall k1 k2 k3,
  lt k2 k1 = false -> lt k3 k2 = false -> lt k3 k1 = false.

Lemma insert_sorted_perm x l :
  Permutation (x :: l) (Py.insert_sorted lt key x l).
Proof.
  induction l as [|y l IH]; cbn; [reflexivity|].
  destruct (lt (key y) (key x)); [|reflexivity].
  rewrite perm_swap. now constructor.
Qed.

Lemma sorted_perm l : Permutation l (Py.sorted lt key l).
Proof.
  induction l as [|x l IH]; cbn; [constructor|].
  rewrite <- insert_sorted_perm. now constructor.
Qed.

Lemma insert_sorted_sorted x l :
  StronglySorted (fun a b => lt (key b) (key a) = false) l ->
  StronglySorted (fun a b => lt (key b) (key a) = false)
                 (Py.insert_sorted lt key x l).
Proof.
  induction l as [|y l IH]; cbn; intros Hs.
  - repeat constructor.
  - apply StronglySorted_inv in Hs. destruct Hs as [Hs Hy].
    destruct (lt (key y) (key x)) eqn:E.
    + constructor; [now apply IH|].
      eapply Permutation_Forall; [apply insert_sorted_perm|].
      constructor; [now apply lt_asym|exact Hy].
    + constructor; [now constructor|].
      constructor; [exact E|].
      eapply Forall_impl; [|exact Hy]. cbn. intros z Hz.
      now apply (le_trans (key x) (key y) (key z)).
Qed.

Lemma sorted_sorted l :
  StronglySorted (fun a b => lt (key b) (key a) = false) (Py.sorted lt key l).
Proof.
  induction l as [|x l IH]; cbn; [constructor|].
  now apply insert_sorted_sorted.
Qed.

Lemma insert_sorted_filter (p : A -> bool) x l :
  (forall a b, p a = true -> p b = true -> key a = key b) ->
  filter p (Py.insert_sorted lt key x l) = filter p (x :: l).
Proof.
  intros Hp. induction l as [|y l IH]; [reflexivity|].
  cbn [Py.insert_sorted]. destruct (lt (key y) (key x)) eqn:E; [|reflexivity].
  cbn [filter] in *. rewrite IH.
  destruct (p y) eqn:Ey, (p x) eqn:Ex; try reflexivity.
  rewrite (Hp y x Ey Ex), lt_irrefl in E. discriminate.
Qed.

Lemma sorted_filter (p : A -> bool) l :
  (forall a b, p a = true -> p b = true -> key a = key b) ->
  filter p (Py.sorted lt key l) = filter p l.
Proof.
  intros Hp. induction l as [|x l IH]; [reflexivity|].
  cbn [Py.sorted fold_right]. fold (Py.sorted lt key l).
  rewrite insert_sorted_filter by exact Hp. cbn [filter]. now rewrite IH.
Qed.

End StableSort.

Section ReportOrder.

Import PDF_Ocr_Analyzer.

Lemma key_lt_irrefl k : key_lt k k = false.
Proof.
  unfold key_lt. destruct (fst k); apply string_ltb_irrefl.
Qed.

Lemma key_lt_le_trans k1 k2 k3 :
  key_lt k2 k1 = false -> key_lt k3 k2 = false -> key_lt k3 k1 = false.
Proof.
  unfold key_lt. destruct k1 as [[|] s1], k2 as [[|] s2], k3 as [[|] s3];
    cbn; try discriminate; try reflexivity; apply string_ltb_le_trans.
Qed.

Lemma key_lt_asym k1 k2 : key_lt k1 k2 = true -> key_lt k2 k1 = false.
Proof.
  unfold key_lt. destruct k1 as [[|] s1], k2 as [[|] s2]; cbn;
    try discriminate; try reflexivity; apply string_ltb_asym.
Qed.

Lemma with_keys_some results :
  (forall x, In x results ->
     exists name, Py.get x "filename" = Some (Py.VStr name)) ->
  exists keyed,
    with_keys results = Some keyed
    /\ map snd keyed = results
    /\ Forall (fun kx => report_key (snd kx) = Some (fst kx)) keyed.
Proof.
  induction results as [|x rest IH]; intros H.
  - exists []. repeat split. constructor.
  - destruct IH as (keyed & Hk & Hm & Hf).
    { intros y Hy. apply H. now right. }
    destruct (H x (or_introl eq_refl)) as (name & Hn).
    assert (Hx : exists k, report_key x = Some k).
    { unfold report_key. rewrite Hn. eauto. }
    destruct Hx as (k & Hx).
    exists ((k, x) :: keyed). cbn [with_keys]. rewrite Hx, Hk.
    repeat split; [cbn; now rewrite Hm|]. now constructor.
Qed.

Lemma sorted_groups l :
  StronglySorted row_le l ->
  l = filter flagged l ++ filter (fun x => negb (flagged x)) l.
Proof.
  induction 1 as [|x l Hs IH Hx]; [reflexivity|].
  cbn [filter]. destruct (flagged x) eqn:Ex; cbn [negb app].
  - now rewrite <- IH.
  - assert (Hl : Forall (fun y => flagged y = false) l).
    { eapply Forall_impl; [|exact Hx]. cbn. intros y. unfold row_le, report_key.
      fold (flagged x) (flagged y).
      destruct (Py.get x "filename") as [[]|]; try contradiction.
      destruct (Py.get y "filename") as [[]|]; try contradiction.
      rewrite Ex. unfold key_lt. cbn.
      destruct (flagged y); [discriminate|reflexivity]. }
    assert (E1 : filter flagged l = []).
    { clear -Hl. induction Hl as [|y l Hy _ IH]; [reflexivity|].
      cbn. now rewrite Hy. }
    assert (E2 : filter (fun x => negb (flagged x)) l = l).
    { clear -Hl. induction Hl as [|y l Hy _ IH]; [reflexivity|].
      cbn. rewrite Hy. cbn. now rewrite IH. }
    now rewrite E1, E2.
Qed.

End ReportOrder.

(** X5. When every result has a file name, the report lists the results
    in the order of a stable sort by [(not ocr_required, filename)]: the
    listing is a permutation of the results; it is ordered by that key,
    so the results that require OCR come first and the names ascend by
    code point inside each of the two groups; and the results of equal
    key keep the order they had. *)
Theorem results_sorted_stable_sort :
  forall results : list Py.dict,
    (forall x, In x results ->
       exists name, Py.get x "filename" = Some (Py.VStr name)) ->
    exists sorted,
      PDF_Ocr_Analyzer.results_sorted results = Some sorted
      /\ Permutation results sorted
      /\ StronglySorted row_le sorted
      /\ sorted = filter flagged sorted
                  ++ filter (fun x => negb (flagged x)) sorted
      /\ forall k, filter (has_key k) sorted = filter (has_key k) results.
Proof.
  intros results H.
  destruct (with_keys_some results H) as (keyed & Hk & Hm & Hf).
  unfold PDF_Ocr_Analyzer.results_sorted. rewrite Hk.
  eexists. split; [reflexivity|].
  set (s := Py.sorted PDF_Ocr_Analyzer.key_lt fst keyed).
  assert (Hperm : Permutation keyed s)
    by apply sorted_perm.
  assert (Hfs : Forall (fun kx => PDF_Ocr_Analyzer.report_key (snd kx)
                                  = Some (fst kx)) s)
    by (eapply Permutation_Forall; [exact Hperm|exact Hf]).
  assert (Hsorted : StronglySorted row_le (map snd s)).
  { pose proof (sorted_sorted PDF_Ocr_Analyzer.key_lt fst key_lt_asym
                  key_lt_le_trans keyed)
      as Hs. fold s in Hs. clear -Hs Hfs.
    induction Hs as [|kx l Hs IH Hx]; [constructor|].
    apply Forall_cons_iff in Hfs. destruct Hfs as [Hkx Hfs].
    cbn [map]. constructor; [now apply IH|].
    apply Forall_map. rewrite Forall_forall in *.
    intros ky Hy. unfold row_le. rewrite Hkx, (Hfs ky Hy). now apply Hx. }
  split; [rewrite <- Hm; now apply Permutation_map|].
  split; [exact Hsorted|]. split; [now apply sorted_groups|].
  intros k. rewrite <- Hm.
  assert (Hfilter : forall l,
             Forall (fun kx => PDF_Ocr_Analyzer.report_key (snd kx)
                               = Some (fst kx)) l ->
             filter (has_key k) (map snd l)
             = map snd (filter (fun kx => Bool.eqb (fst k) (fst (fst kx))
                                          && String.eqb (snd k) (snd (fst kx)))
                               l)).
  { induction 1 as [|kx l Hkx _ IH]; [reflexivity|].
    cbn [map filter]. unfold has_key at 1. rewrite Hkx, IH.
    now destruct (_ && _). }
  rewrite !Hfilter by assumption. f_equal.
  apply sorted_filter; [apply key_lt_irrefl|].
  intros [ka a] [kb b]. cbn [fst snd].
  rewrite !andb_true_iff, !Bool.eqb_true_iff, !String.eqb_eq.
  intros [E1 E2] [E3 E4]. destruct ka, kb. cbn in *. congruence.
Qed.

Lemma results_sorted_stable_sort_witness :
  exists sorted,
    PDF_Ocr_Analyzer.results_sorted
      [ [("filename", Py.VStr "b.pdf"); ("ocr_required", Py.VBool false)];
        [("filename", Py.VStr "c.pdf"); ("ocr_required", Py.VBool true)];
        [("filename", Py.VStr "a.pdf"); ("ocr_required", Py.VBool true)]
      ]%string
    = Some sorted
    /\ sorted
       = [ [("filename", Py.VStr "a.pdf"); ("ocr_required", Py.VBool true)];
           [("filename", Py.VStr "c.pdf"); ("ocr_required", Py.VBool true)];
           [("filename", Py.VStr "b.pdf"); ("ocr_required", Py.VBool false)]
         ]%string.
Proof.
  destruct (results_sorted_stable_sort
              [ [("filename", Py.VStr "b.pdf"); ("ocr_required", Py.VBool false)];
                [("filename", Py.VStr "c.pdf"); ("ocr_required", Py.VBool true)];
                [("filename", Py.VStr "a.pdf"); ("ocr_required", Py.VBool true)]
              ]%string) as (sorted & Hs & _).
  - intros x [<-|[<-|[<-|[]]]]; eexists; reflexivity.
  - exists sorted. split; [exact Hs|].
    vm_compute in Hs. now injection Hs as <-.
Defined.

Section BatchRows.

Import PDF_Ocr_Analyzer.
Variable cvt : Z * Z * Z -> Z.

(** every row of a batch is a [result_dict] carrying its own verdict *)
Lemma rows_of_shape pdf_files :
  Forall (fun row =>
            exists file text d,
              row = result_dict file text d (needs_ocr_analysis text d file))
         (rows_of cvt pdf_files).
Proof.
  apply Forall_forall. intros row Hin.
  apply rows_of_in in Hin. destruct Hin as (pdf & _ & Hrow).
  destruct (analyze_pdf_ocr_need_body_inv cvt pdf row Hrow)
    as (file & text & d & _ & _ & _ & _ & ->). eauto.
Qed.

Lemma analyze_pdf_folder_shape folder results :
  analyze_pdf_folder cvt folder = Py.ret results ->
  Forall (fun row =>
            exists file text d,
              row = result_dict file text d (needs_ocr_analysis text d file))
         results.
Proof.
  destruct folder as [pdf_files|].
  - rewrite analyze_pdf_folder_spec. intros [= <-]. apply rows_of_shape.
  - intros [= <-]. constructor.
Qed.

Lemma count_where_bounds field results :
  0 <= count_where field results <= total_files results.
Proof.
  unfold count_where, total_files.
  pose proof (filter_length_le
                (fun r => Py.value_truthy
                            (Py.get_default r field (Py.VBool false)))
                results). lia.
Qed.

End BatchRows.

(** X6. The statistics of the report on the results of a batch: the
    number of documents that require OCR lies between 0 and the number
    of results; the documents that do not require OCR are at most as
    many as the documents with a text layer, because a document without
    a text layer is always flagged; and the sort of the report does not
    raise on those results and lists every one of them. *)
Theorem report_statistics_of_batch :
  forall (cvt : Z * Z * Z -> Z) (folder : option (list pdf_file))
         (results : list Py.dict),
    PDF_Ocr_Analyzer.analyze_pdf_folder cvt folder = Py.ret results ->
    0 <= PDF_Ocr_Analyzer.ocr_required_count results
      <= PDF_Ocr_Analyzer.total_files results
    /\ PDF_Ocr_Analyzer.total_files results
       - PDF_Ocr_Analyzer.ocr_required_count results
       <= PDF_Ocr_Analyzer.has_text_count results
       <= PDF_Ocr_Analyzer.total_files results
    /\ exists sorted,
         PDF_Ocr_Analyzer.results_sorted results = Some sorted
         /\ List.length sorted = List.length results.
Proof.
  intros cvt folder results Hres.
  pose proof (analyze_pdf_folder_shape cvt folder results Hres) as Hshape.
  split; [apply count_where_bounds|]. split.
  - split; [|apply count_where_bounds].
    unfold PDF_Ocr_Analyzer.total_files, PDF_Ocr_Analyzer.ocr_required_count,
      PDF_Ocr_Analyzer.has_text_count, PDF_Ocr_Analyzer.count_where.
    clear Hres. induction Hshape as [|row rest Hrow _ IH]; [cbn; lia|].
    destruct Hrow as (file & text & d & ->). cbn [filter List.length].
    change (Py.get_default (PDF_Ocr_Analyzer.result_dict file text d
              (PDF_Ocr_Analyzer.needs_ocr_analysis text d file))
              "ocr_required" (Py.VBool false))
      with (Py.VBool (PDF_Ocr_Analyzer.needs_ocr_analysis text d file)).
    change (Py.get_default (PDF_Ocr_Analyzer.result_dict file text d
              (PDF_Ocr_Analyzer.needs_ocr_analysis text d file))
              "has_text_layer" (Py.VBool false))
      with (Py.VBool (has_text_layer text)).
    cbn [Py.value_truthy].
    destruct (PDF_Ocr_Analyzer.needs_ocr_analysis text d file) eqn:Eo,
             (has_text_layer text) eqn:Eh; cbn [List.length]; try lia.
    exfalso. rewrite <- Bool.not_true_iff_false in Eo. apply Eo.
    apply needs_ocr_analysis_iff. now left.
  - destruct (with_keys_some results) as (keyed & Hk & Hm & _).
    + intros x Hx. rewrite Forall_forall in Hshape.
      destruct (Hshape x Hx) as (file & text & d & ->).
      eexists. reflexivity.
    + unfold PDF_Ocr_Analyzer.results_sorted. rewrite Hk.
      eexists. split; [reflexivity|].
      rewrite length_map, <- Hm, length_map. symmetry.
      apply Permutation_length, sorted_perm.
Qed.

Lemma report_statistics_of_batch_witness :
  PDF_Ocr_Analyzer.total_files (rows_of rgb2gray_601 [good_pdf; corrupt_pdf])
  - PDF_Ocr_Analyzer.ocr_required_count
      (rows_of rgb2gray_601 [good_pdf; corrupt_pdf])
  <= PDF_Ocr_Analyzer.has_text_count
       (rows_of rgb2gray_601 [good_pdf; corrupt_pdf]).
Proof.
  refine (proj1 (proj1 (proj2 (report_statistics_of_batch rgb2gray_601
                                 (Some [good_pdf; corrupt_pdf]) _ _)))).
  vm_compute. reflexivity.
Defined.

(** X7. The CSV file of a batch.  [save_to_csv] leaves the file
    unopened exactly when the batch has no result or [open] raises.
    Whatever the file does, the lines the writer takes are first lines
    of the header followed by one line per result.  To a file that
    opens and takes every line it writes the header and one line per
    result, in the order of the results, whose four cells are the file
    name, the text-layer flag, the density and the verdict of that
    result, none of them the blank default; and a line that says OCR is
    not required belongs to a document with a text layer and a density
    that is not below 0.02. *)
Theorem csv_of_batch :
  forall (cvt : Z * Z * Z -> Z) (folder : option (list pdf_file))
         (results : list Py.dict) (csv : csv_file),
    PDF_Ocr_Analyzer.analyze_pdf_folder cvt folder = Py.ret results ->
    (PDF_Ocr_Analyzer.save_to_csv results csv = None <->
     results = [] \/ exists e, csv_open csv = inl e)
    /\ (forall lines,
           PDF_Ocr_Analyzer.save_to_csv results csv = Some lines ->
           exists n,
             lines = firstn n (PDF_Ocr_Analyzer.csv_lines results))
    /\ (results <> [] ->
        csv_open csv = inr tt ->
        csv_room csv = None ->
        exists body,
          PDF_Ocr_Analyzer.save_to_csv results csv
          = Some (map Py.VStr PDF_Ocr_Analyzer.fieldnames :: body)
          /\ Forall2
               (fun result line =>
                  exists name has_text density ocr,
                    line = [ Py.VStr name; Py.VBool has_text;
                             Py.VFloat density; Py.VBool ocr ]
                    /\ Py.get result "filename" = Some (Py.VStr name)
                    /\ Py.get result "has_text_layer"
                       = Some (Py.VBool has_text)
                    /\ Py.get result "avg_text_density"
                       = Some (Py.VFloat density)
                    /\ Py.get result "ocr_required" = Some (Py.VBool ocr)
                    /\ (ocr = false ->
                        has_text = true
                        /\ Py.flt density Py.f0_02 = false))
               results body).
Proof.
  intros cvt folder results csv Hres.
  pose proof (analyze_pdf_folder_shape cvt folder results Hres) as Hshape.
  split; [|split].
  - unfold PDF_Ocr_Analyzer.save_to_csv.
    destruct results as [|r rest]; [split; [now left|reflexivity]|].
    destruct (csv_open csv) as [e|[]]; split.
    + intros _. right. now exists e.
    + reflexivity.
    + discriminate.
    + intros [H|(e & H)]; discriminate H.
  - intros lines Hl. now apply save_to_csv_prefix in Hl.
  - intros Hne Hopen Hroom. unfold PDF_Ocr_Analyzer.save_to_csv.
    rewrite Hopen, Hroom.
    destruct results as [|r rest] eqn:E; [congruence|]. rewrite <- E in *.
    eexists. split; [reflexivity|].
    clear E Hres Hne. induction Hshape as [|row rest' Hrow _ IH]; cbn [map];
      constructor; [|exact IH].
    destruct Hrow as (file & text & d & ->).
    exists (filename file), (has_text_layer text), d,
      (PDF_Ocr_Analyzer.needs_ocr_analysis text d file).
    repeat (split; [reflexivity|]).
    intros Ho. rewrite <- Bool.not_true_iff_false in Ho.
    rewrite needs_ocr_analysis_iff in Ho.
    split.
    + destruct (has_text_layer text); [reflexivity|]. exfalso. apply Ho. now left.
    + destruct (Py.flt d Py.f0_02); [|reflexivity]. exfalso. apply Ho.
      now right; right; left.
Qed.

Lemma csv_of_batch_witness :
  exists body,
    PDF_Ocr_Analyzer.save_to_csv
      (rows_of rgb2gray_601 [good_pdf; corrupt_pdf]) writable
    = Some (map Py.VStr PDF_Ocr_Analyzer.fieldnames :: body)
    /\ List.length body = 1%nat.
Proof.
  destruct (proj2 (proj2 (csv_of_batch rgb2gray_601
                            (Some [good_pdf; corrupt_pdf])
                            (rows_of rgb2gray_601 [good_pdf; corrupt_pdf])
                            writable
                            ltac:(vm_compute; reflexivity)))
              ltac:(vm_compute; discriminate) eq_refl eq_refl)
    as (body & Hbody & Hlines).
  exists body. split; [exact Hbody|].
  apply Forall2_length in Hlines. rewrite <- Hlines. reflexivity.
Defined.

(** *** White space around the text of a page *)

Lemma lstrip_spaces ws s :
  Forall (fun c => Py.isspace c = true) ws ->
  Py.lstrip (ws ++ s) = Py.lstrip s.
Proof.
  induction 1 as [|c ws Hc _ IH]; [reflexivity|].
  cbn [app Py.lstrip]. now rewrite Hc.
Qed.

Lemma lstrip_cases s :
  (Forall (fun c => Py.isspace c = true) s /\ Py.lstrip s = [])
  \/ (Py.lstrip s <> [] /\ forall t, Py.lstrip (s ++ t) = Py.lstrip s ++ t).
Proof.
  induction s as [|c s IH].
  - left. split; [constructor|reflexivity].
  - cbn [Py.lstrip app]. destruct (Py.isspace c) eqn:Hc.
    + destruct IH as [[Hs Hl]|[Hl Ht]].
      * left. split; [now constructor|exact Hl].
      * right. split; [exact Hl|exact Ht].
    + right. split; [discriminate|reflexivity].
Qed.

Lemma rstrip_spaces s ws :
  Forall (fun c => Py.isspace c = true) ws ->
  Py.rstrip (s ++ ws) = Py.rstrip s.
Proof.
  intros Hws. unfold Py.rstrip. rewrite rev_app_distr, lstrip_spaces;
    [reflexivity|].
  apply Forall_rev. exact Hws.
Qed.

Lemma strip_padded text text' :
  padded text text' -> Py.strip text' = Py.strip text.
Proof.
  intros (before & after & Hb & Ha & ->). unfold Py.strip.
  rewrite lstrip_spaces by exact Hb.
  destruct (lstrip_cases text) as [[Hs Hl]|[Hl Ht]].
  - rewrite Hl. rewrite <- (app_nil_r (text ++ after)), <- app_assoc.
    rewrite lstrip_spaces by exact Hs.
    rewrite lstrip_spaces by exact Ha. reflexivity.
  - rewrite Ht. now apply rstrip_spaces.
Qed.

Lemma padded_texts texts texts' :
  Forall2 padded texts texts' ->
  List.length texts' = List.length texts
  /\ existsb has_text texts' = existsb has_text texts
  /\ count_text_pages texts' = count_text_pages texts
  /\ sum_text_length texts' = sum_text_length texts.
Proof.
  unfold count_text_pages.
  induction 1 as [|text text' rest rest' Hp _ IH]; [now repeat split|].
  destruct IH as (IH1 & IH2 & IH3 & IH4).
  cbn [List.length existsb filter sum_text_length]. unfold has_text in *.
  rewrite (strip_padded _ _ Hp), IH1, IH2, IH4.
  repeat split.
  destruct (Py.str_truthy (Py.strip text)); cbn [List.length]; lia.
Qed.

(** X8. White space around the text of a page does not count: two
    documents whose pages hold the same text up to leading and trailing
    white space get the same text-layer analysis, in both files. *)
Theorem text_layer_ignores_surrounding_space :
  forall (pdf pdf' : pdf_file) (texts texts' : list Py.str),
    fitz_open pdf = inr (map inr texts) ->
    fitz_open pdf' = inr (map inr texts') ->
    Forall2 padded texts texts' ->
    PDF_Ocr_Analyzer.analyze_pdf_text_layer pdf'
    = PDF_Ocr_Analyzer.analyze_pdf_text_layer pdf
    /\ TextQualityCheck.analyze_pdf_text_layer pdf'
       = TextQualityCheck.analyze_pdf_text_layer pdf.
Proof.
  intros pdf pdf' texts texts' Hopen Hopen' Hpad.
  destruct (padded_texts texts texts' Hpad) as (E1 & E2 & E3 & E4).
  assert (H : PDF_Ocr_Analyzer.analyze_pdf_text_layer pdf'
              = PDF_Ocr_Analyzer.analyze_pdf_text_layer pdf).
  { unfold PDF_Ocr_Analyzer.analyze_pdf_text_layer.
    rewrite Hopen, Hopen'. cbn [Py.bind].
    rewrite !text_layer_loop_ok, !length_map, E1, E2, E3, E4. reflexivity. }
  split; [exact H|]. rewrite !text_layer_same. exact H.
Qed.

Lemma text_layer_ignores_surrounding_space_witness :
  PDF_Ocr_Analyzer.analyze_pdf_text_layer
    (mk_pdf_file "p.pdf" (inr 1)
       (inr [inr [32; 104; 105; 10]%N; inr [9; 32; 111; 107; 10; 10]%N])
       None (inr []))
  = PDF_Ocr_Analyzer.analyze_pdf_text_layer good_pdf.
Proof.
  refine (proj1 (text_layer_ignores_surrounding_space good_pdf
                   (mk_pdf_file "p.pdf" (inr 1)
                      (inr [inr [32; 104; 105; 10]%N;
                            inr [9; 32; 111; 107; 10; 10]%N])
                      None (inr []))
                   [[104; 105]; [32; 111; 107; 10]]%N
                   [[32; 104; 105; 10]; [9; 32; 111; 107; 10; 10]]%N
                   eq_refl eq_refl _)).
  constructor; [|constructor; [|constructor]].
  - exists [32%N], [10%N]. repeat split; repeat constructor.
  - exists [9%N], [10%N]. repeat split; repeat constructor.
Defined.

(** X9. The text layer is either present or absent.  With a text layer
    there is at least one text page, at least one character per text
    page, a positive share of text pages and an average of at least 1.0
    character per text page; without one the two counters are 0 and the
    two quotients are 0.0. *)
Theorem text_layer_present_or_absent :
  forall (pdf : pdf_file) (metrics : text_analysis),
    PDF_Ocr_Analyzer.analyze_pdf_text_layer pdf = Py.ret metrics ->
    total_pages metrics <= 2 ^ 1074 ->
    (has_text_layer metrics = true ->
     1 <= pages_with_text metrics <= total_text_length metrics
     /\ Py.flt Py.f0_0 (text_pages_ratio metrics) = true
     /\ Py.fle Py.f1_0 (avg_text_per_page metrics) = true)
    /\ (has_text_layer metrics = false ->
        pages_with_text metrics = 0
        /\ total_text_length metrics = 0
        /\ text_pages_ratio metrics = Py.f0_0
        /\ avg_text_per_page metrics = Py.f0_0).
Proof.
  intros pdf metrics Hret Hpages.
  destruct (text_layer_facts pdf metrics Hret)
    as (texts & _ & Hn & Hk & Hs & Hh & Hempty & Hdiv).
  pose proof (count_text_pages_bounds texts) as Hc.
  pose proof (count_le_sum texts) as Hcs.
  pose proof (sum_text_length_nonneg texts) as Hs0.
  rewrite Hn, Hk, Hs, Hh in *. split.
  - intros Hpos. apply Z.gtb_lt in Hpos.
    assert (Hne : texts <> []).
    { intros ->. change (count_text_pages []) with 0 in *. lia. }
    destruct (Hdiv Hne) as [Hratio Havg].
    assert (Hlen : 0 < Z.of_nat (List.length texts)) by lia.
    assert (Hmax : 0 < Z.max (count_text_pages texts) 1) by lia.
    assert (H1074 : -1074 <= 0) by lia.
    assert (H52 : -52 <= 0) by lia.
    split; [lia|]. split.
    + destruct (int_truediv_ge_bound _ _ _ 1 (-1074) Hlen Hratio
                  eq_refl H1074) as [G Hle].
      { change (2 ^ (- (-1074))) with (2 ^ 1074). nia. }
      apply (good_flt Py.f0_0 _ (or_introl eq_refl) G).
      change (scaled Py.f0_0) with 0.
      change (scaled (S754_finite false 1 (-1074))) with 1 in Hle. lia.
    + destruct (int_truediv_ge_bound _ _ _ 4503599627370496 (-52) Hmax
                  Havg eq_refl H52) as [G Hle].
      { change (2 ^ (- (-52))) with (Zpos 4503599627370496). nia. }
      apply good_fle; [apply good_one|exact G|exact Hle].
  - intros Hzero. rewrite Z.gtb_ltb in Hzero. apply Z.ltb_ge in Hzero.
    assert (E : count_text_pages texts = 0) by lia.
    assert (E' : sum_text_length texts = 0).
    { clear -E. unfold count_text_pages in E.
      induction texts as [|text rest IH]; [reflexivity|].
      cbn [filter sum_text_length] in *.
      destruct (has_text text); cbn [List.length] in E; [lia|].
      now rewrite IH. }
    split; [exact E|]. split; [exact E'|].
    destruct texts as [|t rest].
    + now apply Hempty.
    + destruct Hdiv as [Hratio Havg]; [discriminate|].
      rewrite E in Hratio. rewrite E, E' in Havg.
      split; eapply int_truediv_zero; try eassumption.
      * cbn [List.length]. lia.
      * reflexivity.
Qed.

Lemma text_layer_present_or_absent_witness :
  PDF_Ocr_Analyzer.analyze_pdf_text_layer good_pdf
  = Py.ret (mk_text_analysis true 2 2 4 Py.f1_0
              (S754_finite false 4503599627370496 (-51)))
  /\ Py.fle Py.f1_0 (S754_finite false 4503599627370496 (-51)) = true.
Proof.
  split; [vm_compute; reflexivity|].
  refine (proj2 (proj2 (proj1 (text_layer_present_or_absent good_pdf
                                 (mk_text_analysis true 2 2 4 Py.f1_0
                                    (S754_finite false 4503599627370496 (-51)))
                                 _ _) eq_refl))).
  - vm_compute. reflexivity.
  - cbn. apply Z.leb_le. vm_compute. reflexivity.
Defined.

Section Failures.

Import PDF_Ocr_Analyzer.
Variable cvt : Z * Z * Z -> Z.

Lemma get_file_metrics_returns pdf size :
  st_size pdf = inr size -> 0 <= size <= 2 ^ 1023 ->
  exists file, get_file_metrics pdf = Py.ret file.
Proof.
  intros Hsize Hb. unfold get_file_metrics. rewrite Hsize. cbn [Py.bind].
  destruct (int_truediv_returns size (1024 * 1024) Hb) as (q & ->); [lia|].
  eexists. reflexivity.
Qed.

Lemma analyze_pdf_text_layer_fails pdf e :
  analyze_pdf_text_layer pdf = inl e ->
  (forall texts, fitz_open pdf = inr (map inr texts) ->
                 sum_text_length texts <= 2 ^ 1023) ->
  fitz_open pdf = inl e
  \/ exists pages, fitz_open pdf = inr pages /\ In (inl e) pages.
Proof.
  intros Hfail Hsum. unfold analyze_pdf_text_layer in Hfail.
  destruct (fitz_open pdf) as [e'|pages] eqn:Hopen.
  - left. cbn in Hfail. congruence.
  - right. exists pages. split; [reflexivity|].
    destruct (pages_all_or_first_failure pages)
      as [[texts ->]|(before & e' & after & ->)].
    + destruct (analyze_pdf_text_layer_returns pdf texts Hopen
                  (Hsum texts eq_refl)) as (metrics & Hm).
      unfold analyze_pdf_text_layer in Hm. rewrite Hopen in Hm.
      rewrite Hm in Hfail. discriminate Hfail.
    + cbn [Py.bind] in Hfail. rewrite text_layer_loop_raises in Hfail.
      cbn in Hfail. injection Hfail as ->.
      apply in_or_app. right. now left.
Qed.

Lemma text_layer_loop_fails pages : forall results e,
  In (inl e) pages -> exists e', text_layer_loop pages results = inl e'.
Proof.
  induction pages as [|[e0|text] rest IH]; intros results e Hin.
  - destruct Hin.
  - cbn. eauto.
  - cbn [text_layer_loop Py.bind]. destruct Hin as [Hin|Hin]; [discriminate|].
    now apply (IH _ e).
Qed.

End Failures.

(** X10. When the analysis is lost.  On a console that takes every
    line it prints, [analyze_pdf_ocr_need] does not raise, and for a
    document of realistic size it loses the analysis (returns [None])
    exactly when [os.stat] fails, when the document does not open, or
    when the text of one of its pages cannot be extracted; a missing
    poppler and a failure of the rendering never lose it. *)
Theorem analysis_is_lost_exactly_on_stat_open_or_page_failure :
  forall (out : Py.stdout) (cvt : Z * Z * Z -> Z) (pdf : pdf_file),
    takes_every_line out ->
    (forall size, st_size pdf = inr size -> 0 <= size <= 2 ^ 1023) ->
    (forall texts, fitz_open pdf = inr (map inr texts) ->
                   sum_text_length texts <= 2 ^ 1023) ->
    (exists result,
        PDF_Ocr_Analyzer.Console.analyze_pdf_ocr_need out cvt pdf
        = Py.ret result)
    /\ (PDF_Ocr_Analyzer.Console.analyze_pdf_ocr_need out cvt pdf
        = Py.ret None <->
        (exists e, st_size pdf = inl e)
        \/ (exists e, fitz_open pdf = inl e)
        \/ (exists pages e, fitz_open pdf = inr pages /\ In (inl e) pages)).
Proof.
  intros out cvt pdf Hout Hsize Hsum.
  rewrite (console_analyze_pdf_ocr_need cvt out pdf Hout).
  rewrite analyze_pdf_ocr_need_spec.
  split; [eauto|]. unfold PDF_Ocr_Analyzer.analyze_pdf_ocr_need_body. split.
  - intros Hnone.
    destruct (PDF_Ocr_Analyzer.get_file_metrics pdf) as [e|file] eqn:Hf.
    + left. destruct (st_size pdf) as [e'|size] eqn:Hs; [eauto|].
      destruct (get_file_metrics_returns pdf size Hs (Hsize size eq_refl))
        as (file & Hfile). rewrite Hfile in Hf. discriminate Hf.
    + right. cbn [Py.bind] in Hnone.
      destruct (PDF_Ocr_Analyzer.analyze_pdf_text_layer pdf) as [e|text] eqn:Ht;
        [|discriminate].
      destruct (analyze_pdf_text_layer_fails pdf e Ht Hsum)
        as [Ho|(pages & Ho & Hin)]; eauto.
  - intros [(e & He)|[(e & He)|(pages & e & Hp & Hin)]].
    + unfold PDF_Ocr_Analyzer.get_file_metrics. now rewrite He.
    + destruct (PDF_Ocr_Analyzer.get_file_metrics pdf); [reflexivity|].
      cbn [Py.bind]. unfold PDF_Ocr_Analyzer.analyze_pdf_text_layer.
      now rewrite He.
    + destruct (PDF_Ocr_Analyzer.get_file_metrics pdf); [reflexivity|].
      cbn [Py.bind]. unfold PDF_Ocr_Analyzer.analyze_pdf_text_layer.
      rewrite Hp. cbn [Py.bind].
      destruct (text_layer_loop_fails pages
                  (mk_text_analysis false (Z.of_nat (List.length pages)) 0 0
                     Py.f0_0 Py.f0_0) e Hin) as (e' & ->).
      reflexivity.
Qed.

Lemma analysis_is_lost_exactly_on_stat_open_or_page_failure_witness :
  PDF_Ocr_Analyzer.Console.analyze_pdf_ocr_need (fun _ => Py.ret tt)
    rgb2gray_601 bad_page_pdf
  = Py.ret None
  <-> (exists e, st_size bad_page_pdf = inl e)
      \/ (exists e, fitz_open bad_page_pdf = inl e)
      \/ (exists pages e,
             fitz_open bad_page_pdf = inr pages /\ In (inl e) pages).
Proof.
  refine (proj2 (analysis_is_lost_exactly_on_stat_open_or_page_failure
                   (fun _ => Py.ret tt) rgb2gray_601 bad_page_pdf _ _ _)).
  - intros line. reflexivity.
  - intros size H. injection H as <-. split; [lia|].
    apply Z.leb_le. vm_compute. reflexivity.
  - intros [|t1 [|t2 [|t3 rest]]] H; discriminate H.
Defined.

(** X11. The text-layer analyzer of [TextQualityCheck.py] returns, or
    raises, what the analyzer of [PDF_Ocr_Analyzer.py] does, on every
    document. *)
Theorem analyze_pdf_text_layer_files_agree :
  forall pdf : pdf_file,
    TextQualityCheck.analyze_pdf_text_layer pdf
    = PDF_Ocr_Analyzer.analyze_pdf_text_layer pdf.
Proof.
  intros pdf. unfold TextQualityCheck.analyze_pdf_text_layer,
    PDF_Ocr_Analyzer.analyze_pdf_text_layer.
  destruct (fitz_open pdf) as [e|doc]; [reflexivity|]. cbn [Py.bind].
  assert (Hloop : forall pages results,
             TextQualityCheck.text_layer_loop pages results
             = PDF_Ocr_Analyzer.text_layer_loop pages results).
  { induction pages as [|[e|text] rest IH]; intros results;
      [reflexivity|reflexivity|]. cbn [TextQualityCheck.text_layer_loop
      PDF_Ocr_Analyzer.text_layer_loop Py.bind]. apply IH. }
  now rewrite Hloop.
Qed.

(** *** The density of one page *)

Lemma good_scaled_inj x y : good x -> good y -> scaled x = scaled y -> x = y.
Proof.
  intros [->|(m1 & e1 & -> & B1)] [->|(m2 & e2 & -> & B2)]; cbn [scaled];
    try reflexivity.
  - destruct (bounded_facts _ _ B2) as (He & _).
    pose proof (pow2_pos (e2 + 1074) ltac:(lia)). nia.
  - destruct (bounded_facts _ _ B1) as (He & _).
    pose proof (pow2_pos (e1 + 1074) ltac:(lia)). nia.
  - destruct (bounded_facts _ _ B1) as (He1 & Hm1 & Hn1).
    destruct (bounded_facts _ _ B2) as (He2 & Hm2 & Hn2).
    intros Heq.
    assert (Hlt : forall ma ea mb eb,
               -1074 <= ea -> ea < eb -> Zpos ma < 2 ^ 53 ->
               (2 ^ 52 <= Zpos mb \/ eb = -1074) ->
               Zpos ma * 2 ^ (ea + 1074) = Zpos mb * 2 ^ (eb + 1074) -> False).
    { intros ma ea mb eb Hea Hlt Hma Hnb E.
      rewrite (pow2_split (ea + 1074) (eb + 1074)) in E by lia.
      pose proof (pow2_pos (ea + 1074) ltac:(lia)) as Hp.
      assert (E' : Zpos ma = Zpos mb * 2 ^ (eb + 1074 - (ea + 1074))) by nia.
      pose proof (pow2_le 1 (eb + 1074 - (ea + 1074)) ltac:(lia)) as H2.
      change (2 ^ 1) with 2 in H2.
      change (2 ^ 53) with (2 * 2 ^ 52) in Hma.
      destruct Hnb as [Hnb|Hnb]; [nia|lia]. }
    destruct (Z.lt_trichotomy e1 e2) as [H|[H|H]].
    + exfalso. exact (Hlt m1 e1 m2 e2 ltac:(lia) H Hm1 Hn2 Heq).
    + subst e2. pose proof (pow2_pos (e1 + 1074) ltac:(lia)).
      assert (Zpos m1 = Zpos m2) by nia. congruence.
    + exfalso. exact (Hlt m2 e2 m1 e1 ltac:(lia) H Hm2 Hn1 (eq_sym Heq)).
Qed.

Lemma min_one_id x : unit_interval x -> Py.min x Py.f1_0 = x.
Proof.
  intros [G Hle]. unfold Py.min.
  destruct (Py.flt Py.f1_0 x) eqn:E; [|reflexivity].
  apply (good_flt _ _ good_one G) in E. lia.
Qed.

Lemma fdiv_of_int_zero b :
  0 < b < 2 ^ 53 -> Py.fdiv (Py.of_int 0) (Py.of_int b) = Py.f0_0.
Proof.
  intros Hb. destruct (of_int_spec b Hb) as (mb & eb & -> & _). reflexivity.
Qed.

Lemma fdiv_of_int_le a b mC eC :
  0 < a < 2 ^ 53 -> 0 < b < 2 ^ 53 ->
  bounded Py.prec Py.emax mC eC = true -> eC <= 0 ->
  a * 2 ^ (- eC) <= Zpos mC * b ->
  good (Py.fdiv (Py.of_int a) (Py.of_int b))
  /\ scaled (Py.fdiv (Py.of_int a) (Py.of_int b))
     <= scaled (S754_finite false mC eC).
Proof.
  intros Ha Hb BC HeC Hle.
  destruct (of_int_spec a Ha) as (ma & ea & -> & Ba & Va).
  destruct (of_int_spec b Hb) as (mb & eb & -> & Bb & Vb).
  destruct (bounded_facts _ _ Ba) as (Hea & _).
  destruct (bounded_facts _ _ Bb) as (Heb & _).
  destruct (bounded_facts _ _ BC) as (HeC' & _).
  apply (fdiv_le ma ea mb eb mC eC 2148); [exact BC|lia|lia|].
  replace (ea + 2148) with ((ea + 1074) + 1074) by lia.
  replace (eC + eb + 2148) with ((eb + 1074) + (eC + 1074)) by lia.
  rewrite (Z.pow_add_r 2 (ea + 1074)), (Z.pow_add_r 2 (eb + 1074)) by lia.
  rewrite Z.mul_assoc, Va.
  replace (Zpos mC * Zpos mb * (2 ^ (eb + 1074) * 2 ^ (eC + 1074)))
    with (Zpos mC * (Zpos mb * 2 ^ (eb + 1074)) * 2 ^ (eC + 1074)) by ring.
  rewrite Vb.
  assert (HAB : 2 ^ 1074 = 2 ^ (eC + 1074) * 2 ^ (- eC)).
  { rewrite (pow2_split (eC + 1074) 1074) by lia. do 2 f_equal. lia. }
  set (A := 2 ^ 1074) in *. set (B := 2 ^ (eC + 1074)) in *.
  set (D := 2 ^ (- eC)) in *.
  assert (HA : 0 < A) by (apply pow2_pos; lia).
  assert (HB : 0 < B) by (apply pow2_pos; lia).
  replace (a * A * A) with ((a * D) * (A * B)) by (rewrite HAB; ring).
  replace (Zpos mC * (b * A) * B) with ((Zpos mC * b) * (A * B)) by ring.
  apply Z.mul_le_mono_nonneg_r; [nia|exact Hle].
Qed.

Lemma fdiv_of_int_ge a b mC eC :
  0 < a <= b -> 0 < b < 2 ^ 53 ->
  bounded Py.prec Py.emax mC eC = true -> eC <= 0 ->
  Zpos mC * b <= a * 2 ^ (- eC) ->
  scaled (S754_finite false mC eC)
  <= scaled (Py.fdiv (Py.of_int a) (Py.of_int b)).
Proof.
  intros Ha Hb BC HeC Hle.
  destruct (fdiv_of_int_unit a b ltac:(lia) Hb) as [G _].
  destruct (of_int_spec a ltac:(lia)) as (ma & ea & Ea & Ba & Va).
  destruct (of_int_spec b Hb) as (mb & eb & Eb & Bb & Vb).
  rewrite Ea, Eb in *.
  destruct (bounded_facts _ _ Ba) as (Hea & _).
  destruct (bounded_facts _ _ Bb) as (Heb & _).
  destruct (bounded_facts _ _ BC) as (HeC' & _).
  destruct (fdiv_ge ma ea mb eb mC eC 2148) as [Hinf|[_ H]];
    [exact BC|lia|lia| | |exact H].
  - replace (ea + 2148) with ((ea + 1074) + 1074) by lia.
    replace (eC + eb + 2148) with ((eb + 1074) + (eC + 1074)) by lia.
    rewrite (Z.pow_add_r 2 (ea + 1074)), (Z.pow_add_r 2 (eb + 1074)) by lia.
    rewrite (Z.mul_assoc (Zpos ma)), Va.
    replace (Zpos mC * Zpos mb * (2 ^ (eb + 1074) * 2 ^ (eC + 1074)))
      with (Zpos mC * (Zpos mb * 2 ^ (eb + 1074)) * 2 ^ (eC + 1074)) by ring.
    rewrite Vb.
    assert (HAB : 2 ^ 1074 = 2 ^ (eC + 1074) * 2 ^ (- eC)).
    { rewrite (pow2_split (eC + 1074) 1074) by lia. do 2 f_equal. lia. }
    set (A := 2 ^ 1074) in *. set (B := 2 ^ (eC + 1074)) in *.
    set (D := 2 ^ (- eC)) in *.
    assert (HA : 0 < A) by (apply pow2_pos; lia).
    assert (HB : 0 < B) by (apply pow2_pos; lia).
    replace (a * A * A) with ((a * D) * (A * B)) by (rewrite HAB; ring).
    replace (Zpos mC * (b * A) * B) with ((Zpos mC * b) * (A * B)) by ring.
    apply Z.mul_le_mono_nonneg_r; [nia|exact Hle].
  - rewrite Hinf in G. destruct G as [G|(m & e & G & _)]; discriminate G.
Qed.

Section PageDensity.

Import PDF_Ocr_Analyzer.
Variable cvt : Z * Z * Z -> Z.

Lemma count_255_dark gray :
  count_255 (map threshold_binary_inv (cells gray)) = dark_pixels gray.
Proof.
  unfold count_255, dark_pixels. f_equal.
  induction (cells gray) as [|v l IH]; [reflexivity|].
  cbn [map filter]. unfold threshold_binary_inv at 1.
  rewrite Z.gtb_ltb, Z.ltb_antisym.
  destruct (v <=? 127); cbn [negb Z.eqb Pos.eqb List.length]; now rewrite IH.
Qed.

Lemma dark_pixels_bounds gray :
  wf_array gray ->
  0 <= dark_pixels gray <= Z.of_nat (shape0 gray) * Z.of_nat (shape1 gray).
Proof.
  intros [Hlen _]. unfold dark_pixels.
  pose proof (filter_length_le (fun v => v <=? 127) (cells gray)) as H.
  rewrite Hlen in H. lia.
Qed.

(** on a well-formed page [min] leaves the quotient as it is *)
Lemma density_of_gray_quotient gray :
  wf_array gray ->
  density_of_gray gray
  = Py.ret (Py.fdiv (Py.of_int (dark_pixels gray))
              (Py.of_int (Z.of_nat (shape0 gray) * Z.of_nat (shape1 gray)))).
Proof.
  intros Hwf. pose proof (dark_pixels_bounds gray Hwf) as Hd.
  unfold density_of_gray. rewrite count_255_dark.
  destruct Hwf as [_ Hsize].
  replace (Z.of_nat (shape0 gray) * Z.of_nat (shape1 gray) =? 0) with false
    by (symmetry; apply Z.eqb_neq; lia).
  f_equal. apply min_one_id, fdiv_of_int_unit; [exact Hd|exact Hsize].
Qed.

Lemma calculate_text_density_gray_of img :
  calculate_text_density cvt img
  = match gray_of cvt img with
    | Some gray =>
        match density_of_gray gray with
        | inr density => density
        | inl _ => Py.f0_0
        end
    | None => Py.f0_0
    end.
Proof. destruct img; reflexivity. Qed.

(** the density of a page with pixels *)
Lemma calculate_text_density_wf img gray :
  gray_of cvt img = Some gray -> wf_array gray ->
  calculate_text_density cvt img
  = Py.fdiv (Py.of_int (dark_pixels gray))
            (Py.of_int (Z.of_nat (shape0 gray) * Z.of_nat (shape1 gray))).
Proof.
  intros Hgray Hwf.
  now rewrite calculate_text_density_gray_of, Hgray,
    (density_of_gray_quotient gray Hwf).
Qed.



End PageDensity.

(** X12. The density of a rendered page counts its dark pixels, those
    of luminance at most 127: it is 0.0 exactly when the page has none
    and 1.0 exactly when it has nothing else; it is below the threshold
    0.02 when fewer than one pixel in fifty is dark, and not below it
    when more than one in fifty is. *)
Theorem page_density_counts_dark_pixels :
  forall (cvt : Z * Z * Z -> Z) (img : image) (gray : ndarray Z) (total : Z),
    gray_of cvt img = Some gray ->
    wf_array gray ->
    total = Z.of_nat (shape0 gray) * Z.of_nat (shape1 gray) ->
    (PDF_Ocr_Analyzer.calculate_text_density cvt img = Py.f0_0
     <-> dark_pixels gray = 0)
    /\ (PDF_Ocr_Analyzer.calculate_text_density cvt img = Py.f1_0
        <-> dark_pixels gray = total)
    /\ (total <= 2 ^ 52 -> 50 * dark_pixels gray < total ->
        Py.flt (PDF_Ocr_Analyzer.calculate_text_density cvt img) Py.f0_02
        = true)
    /\ (50 * dark_pixels gray > total ->
        Py.flt (PDF_Ocr_Analyzer.calculate_text_density cvt img) Py.f0_02
        = false).
Proof.
  intros cvt img gray total Hgray Hwf ->.
  rewrite (calculate_text_density_wf cvt img gray Hgray Hwf).
  pose proof (dark_pixels_bounds gray Hwf) as Hd.
  destruct Hwf as [_ Hsize].
  set (k := dark_pixels gray) in *.
  set (n := Z.of_nat (shape0 gray) * Z.of_nat (shape1 gray)) in *.
  assert (Hunit : unit_interval (Py.fdiv (Py.of_int k) (Py.of_int n)))
    by (apply fdiv_of_int_unit; assumption).
  destruct Hunit as [G Hone].
  assert (H52 : -52 <= 0) by lia. assert (H53 : -53 <= 0) by lia.
  assert (H58 : -58 <= 0) by lia. assert (H1074 : -1074 <= 0) by lia.
  assert (G02 : good Py.f0_02) by (right; do 2 eexists; split; reflexivity).
  split; [|split; [|split]].
  - split.
    + intros Hz. destruct (Z.eq_dec k 0) as [|Hne]; [assumption|]. exfalso.
      pose proof (fdiv_of_int_ge k n 1 (-1074) ltac:(lia) Hsize eq_refl H1074)
        as Hge.
      rewrite Hz in Hge.
      change (scaled (S754_finite false 1 (-1074))) with 1 in Hge.
      change (scaled Py.f0_0) with 0 in Hge.
      assert (1 <= 0); [apply Hge|lia].
      change (- (-1074)) with 1074.
      pose proof (pow2_le 53 1074 ltac:(lia)). nia.
    + intros ->. now apply fdiv_of_int_zero.
  - split.
    + intros Hz. destruct (Z.eq_dec k n) as [|Hne]; [assumption|]. exfalso.
      destruct (fdiv_of_int_le k n 9007199254740991 (-53)) as [_ Hle];
        [| |reflexivity|exact H53| |].
      * destruct (Z.eq_dec k 0) as [E|]; [|lia]. exfalso.
        rewrite E, fdiv_of_int_zero in Hz by assumption. discriminate Hz.
      * exact Hsize.
      * change (2 ^ (- (-53))) with 9007199254740992.
        change (2 ^ 53) with 9007199254740992 in Hsize. lia.
      * rewrite Hz in Hle. vm_compute in Hle. now apply Hle.
    + intros E.
      apply good_scaled_inj; [exact G|apply good_one|].
      apply Z.le_antisymm; [exact Hone|].
      apply (fdiv_of_int_ge k n 4503599627370496 (-52));
        [lia|exact Hsize|reflexivity|exact H52|].
      change (2 ^ (- (-52))) with 4503599627370496. lia.
  - intros Hn Hlt.
    destruct (Z.eq_dec k 0) as [E|Hne].
    + rewrite E, fdiv_of_int_zero by assumption. reflexivity.
    + destruct (fdiv_of_int_le k n 5764607523034234 (-58)) as [_ Hle];
        [lia|exact Hsize|reflexivity|exact H58| |].
      * change (2 ^ (- (-58))) with 288230376151711744.
        change (2 ^ 52) with 4503599627370496 in Hn. lia.
      * apply (good_flt _ _ G G02).
        eapply Z.le_lt_trans; [exact Hle|]. reflexivity.
  - intros Hgt.
    pose proof (fdiv_of_int_ge k n 5764607523034235 (-58) ltac:(lia) Hsize
                  eq_refl H58) as Hge.
    destruct (Py.flt _ Py.f0_02) eqn:E; [|reflexivity]. exfalso.
    apply (good_flt _ _ G G02) in E.
    assert (scaled Py.f0_02
            <= scaled (Py.fdiv (Py.of_int k) (Py.of_int n))); [|lia].
    apply Hge.
    change (2 ^ (- (-58))) with 288230376151711744.
    change (2 ^ 53) with 9007199254740992 in Hsize. lia.
Qed.

Lemma page_density_counts_dark_pixels_witness :
  PDF_Ocr_Analyzer.calculate_text_density rgb2gray_601 all_ink = Py.f1_0
  <-> dark_pixels (mk_ndarray 1 2 [0; 0]) = 2.
Proof.
  refine (proj1 (proj2 (page_density_counts_dark_pixels rgb2gray_601 all_ink
                          (mk_ndarray 1 2 [0; 0]) 2 eq_refl _ eq_refl))).
  split; [reflexivity|]. cbn. split; [lia|]. apply Z.ltb_lt. vm_compute.
  reflexivity.
Defined.



(** X14. The orchestrator looks at the first five rendered pages only:
    two documents that differ in nothing but the pages poppler renders
    after the fifth get the same result. *)
Theorem verdict_reads_five_rendered_pages :
  forall (cvt : Z * Z * Z -> Z) (pdf pdf' : pdf_file),
    basename pdf' = basename pdf ->
    st_size pdf' = st_size pdf ->
    fitz_open pdf' = fitz_open pdf ->
    which_pdftoppm pdf' = which_pdftoppm pdf ->
    match pdf2image_pages pdf, pdf2image_pages pdf' with
    | inr pages, inr pages' => firstn 5 pages' = firstn 5 pages
    | inl _, inl _ => True
    | _, _ => False
    end ->
    PDF_Ocr_Analyzer.analyze_pdf_ocr_need cvt pdf'
    = PDF_Ocr_Analyzer.analyze_pdf_ocr_need cvt pdf.
Proof.
  intros cvt pdf pdf' Hname Hsize Hopen Hwhich Hpages.
  rewrite !analyze_pdf_ocr_need_spec. f_equal.
  unfold PDF_Ocr_Analyzer.analyze_pdf_ocr_need_body,
    PDF_Ocr_Analyzer.get_file_metrics,
    PDF_Ocr_Analyzer.analyze_pdf_text_layer, PDF_Ocr_Analyzer.setup_poppler.
  rewrite Hname, Hsize, Hopen, Hwhich.
  assert (Hd : PDF_Ocr_Analyzer.analyze_visual_text_density cvt pdf' 5
               = PDF_Ocr_Analyzer.analyze_visual_text_density cvt pdf 5).
  { rewrite !analyze_visual_text_density_cases.
    change (Z.to_nat (Z.min 5 10)) with 5%nat.
    destruct (pdf2image_pages pdf) as [e|pages],
             (pdf2image_pages pdf') as [e'|pages'];
      try contradiction; [reflexivity|]. now rewrite Hpages. }
  now rewrite Hd.
Qed.

Lemma verdict_reads_five_rendered_pages_witness :
  PDF_Ocr_Analyzer.analyze_pdf_ocr_need rgb2gray_601
    (mk_pdf_file "good.pdf" (inr 2097152)
       (inr [inr [104; 105]%N; inr [32; 111; 107; 10]%N])
       (Some "/usr/bin"%string)
       (inr [half_inked; half_inked; half_inked; half_inked; half_inked;
             all_ink]))
  = PDF_Ocr_Analyzer.analyze_pdf_ocr_need rgb2gray_601
      (mk_pdf_file "good.pdf" (inr 2097152)
         (inr [inr [104; 105]%N; inr [32; 111; 107; 10]%N])
         (Some "/usr/bin"%string)
         (inr [half_inked; half_inked; half_inked; half_inked; half_inked])).
Proof.
  apply (verdict_reads_five_rendered_pages rgb2gray_601
           (mk_pdf_file "good.pdf" (inr 2097152)
              (inr [inr [104; 105]%N; inr [32; 111; 107; 10]%N])
              (Some "/usr/bin"%string)
              (inr [half_inked; half_inked; half_inked; half_inked;
                    half_inked]))
           (mk_pdf_file "good.pdf" (inr 2097152)
              (inr [inr [104; 105]%N; inr [32; 111; 107; 10]%N])
              (Some "/usr/bin"%string)
              (inr [half_inked; half_inked; half_inked; half_inked;
                    half_inked; all_ink])));
    reflexivity.
Defined.

Section Readable.

Import PDF_Ocr_Analyzer.
Variable cvt : Z * Z * Z -> Z.

Lemma readable_body pdf :
  readable pdf ->
  exists row,
    analyze_pdf_ocr_need_body cvt pdf = inr row
    /\ Py.get row "filename" = Some (Py.VStr (basename pdf)).
Proof.
  intros [(size & Hsize & Hb) (texts & Hopen & Hsum)].
  destruct (get_file_metrics_returns pdf size Hsize Hb) as (file & Hfile).
  destruct (analyze_pdf_text_layer_returns pdf texts Hopen Hsum)
    as (text & Htext).
  unfold analyze_pdf_ocr_need_body. rewrite Hfile, Htext. cbn [Py.bind].
  eexists. split; [reflexivity|].
  unfold get_file_metrics in Hfile. rewrite Hsize in Hfile.
  cbn [Py.bind] in Hfile.
  destruct (Py.int_truediv size (1024 * 1024)); [discriminate|].
  cbn in Hfile. injection Hfile as <-. reflexivity.
Qed.

End Readable.

(** X15. A batch keeps every readable file: when [os.stat] and PyMuPDF
    read every file of the folder without error, [analyze_pdf_folder]
    returns one result per file, in the order of the folder, and the
    file name of each result is the base name of its file, whatever
    poppler does. *)
Theorem batch_keeps_every_readable_file :
  forall (cvt : Z * Z * Z -> Z) (pdf_files : list pdf_file),
    Forall readable pdf_files ->
    exists results,
      PDF_Ocr_Analyzer.analyze_pdf_folder cvt (Some pdf_files)
      = Py.ret results
      /\ map (fun result => Py.get result "filename") results
         = map (fun pdf => Some (Py.VStr (basename pdf))) pdf_files.
Proof.
  intros cvt pdf_files Hall. rewrite analyze_pdf_folder_spec.
  eexists. split; [reflexivity|].
  induction Hall as [|pdf rest Hpdf _ IH]; [reflexivity|].
  unfold rows_of in *. cbn [flat_map].
  destruct (readable_body cvt pdf Hpdf) as (row & -> & Hname).
  cbn [app map]. now rewrite Hname, IH.
Qed.

Lemma batch_keeps_every_readable_file_witness :
  exists results,
    PDF_Ocr_Analyzer.analyze_pdf_folder rgb2gray_601
      (Some [good_pdf; partial_failure_pdf])
    = Py.ret results
    /\ map (fun result => Py.get result "filename") results
       = [Some (Py.VStr "good.pdf"); Some (Py.VStr "partial.pdf")].
Proof.
  apply (batch_keeps_every_readable_file rgb2gray_601
           [good_pdf; partial_failure_pdf]).
  repeat constructor.
  - eexists. split; [reflexivity|]. split; [lia|].
    apply Z.leb_le. vm_compute. reflexivity.
  - exists [[104; 105]; [32; 111; 107; 10]]%N. split; [reflexivity|].
    apply Z.leb_le. vm_compute. reflexivity.
  - eexists. split; [reflexivity|]. split; [lia|].
    apply Z.leb_le. vm_compute. reflexivity.
  - exists [[]; []]. split; [reflexivity|].
    apply Z.leb_le. vm_compute. reflexivity.
Defined.

(** X16. The size in megabytes is exact: for a file of fewer than 2^53
    bytes, ['file_size_mb'] is the quotient of the size by 1024 * 1024
    without any rounding ([scaled] is the value times 2^1074), and
    ['filename'] is the base name of the path. *)
Theorem file_size_mb_is_exact :
  forall (pdf : pdf_file) (size : Z) (file : file_metrics),
    st_size pdf = inr size ->
    0 <= size < 2 ^ 53 ->
    PDF_Ocr_Analyzer.get_file_metrics pdf = Py.ret file ->
    filename file = basename pdf
    /\ good (file_size_mb file)
    /\ scaled (file_size_mb file) * (1024 * 1024) = size * 2 ^ 1074.
Proof.
  intros pdf size file Hsize Hb Hfile.
  unfold PDF_Ocr_Analyzer.get_file_metrics in Hfile. rewrite Hsize in Hfile.
  cbn [Py.bind] in Hfile.
  destruct (Py.int_truediv size (1024 * 1024)) as [e|mb] eqn:Hmb;
    [discriminate|].
  cbn in Hfile. injection Hfile as <-. cbn [filename file_size_mb].
  split; [reflexivity|].
  destruct (Z.eq_dec size 0) as [->|Hne].
  - rewrite (int_truediv_zero (1024 * 1024) mb ltac:(lia) Hmb).
    split; [now left|reflexivity].
  - destruct (of_int_spec size ltac:(lia)) as (m & e & _ & B & V).
    destruct (bounded_facts _ _ B) as (He & Hm & Hn).
    assert (He52 : -52 <= e <= 0).
    { pose proof (pow2_pos (e + 1074) ltac:(lia)) as Hp.
      split.
      - destruct (Z_lt_le_dec e (-52)) as [Hlt|]; [exfalso|assumption].
        (* below 2^-52 the value of a canonical mantissa is below 1 *)
        rewrite (pow2_split (e + 1074) 1074) in V by lia.
        assert (V' : Zpos m = size * 2 ^ (1074 - (e + 1074))) by nia.
        pose proof (pow2_le 53 (1074 - (e + 1074)) ltac:(lia)). nia.
      - destruct (Z_lt_le_dec 0 e) as [Hlt|]; [exfalso|assumption].
        rewrite (pow2_split 1074 (e + 1074)) in V by lia.
        assert (V' : Zpos m * 2 ^ (e + 1074 - 1074) = size)
          by (pose proof (pow2_pos 1074 ltac:(lia)); nia).
        pose proof (pow2_le 1 (e + 1074 - 1074) ltac:(lia)) as H2.
        change (2 ^ 1) with 2 in H2.
        change (2 ^ 53) with (2 * 2 ^ 52) in Hb, Hm.
        destruct Hn as [Hn|Hn]; [nia|lia]. }
    destruct (bounded_intro (Zpos m) (e - 20) ltac:(lia) ltac:(lia))
      as (p & Hp & Bp).
    { destruct Hn as [Hn|Hn]; [now left|lia]. }
    injection Hp as <-.
    assert (Heq : size * 2 ^ (- (e - 20)) = Zpos m * (1024 * 1024)).
    { replace (- (e - 20)) with (20 + - e) by lia.
      rewrite Z.pow_add_r by lia. change (2 ^ 20) with (1024 * 1024).
      rewrite (pow2_split (e + 1074) 1074) in V by lia.
      replace (1074 - (e + 1074)) with (- e) in V by lia.
      pose proof (pow2_pos (e + 1074) ltac:(lia)). nia. }
    destruct (int_truediv_le_bound size (1024 * 1024) mb m (e - 20))
      as [G Hle]; [lia|lia|exact Hmb|exact Bp|lia|lia|].
    destruct (int_truediv_ge_bound size (1024 * 1024) mb m (e - 20))
      as [_ Hge]; [lia|exact Hmb|exact Bp|lia|lia|].
    split; [exact G|].
    assert (Hs : scaled mb = scaled (S754_finite false m (e - 20))) by lia.
    rewrite Hs. cbn [scaled].
    replace (e - 20 + 1074) with ((e + 1074) - 20) by lia.
    rewrite <- V.
    rewrite (pow2_split 20 (e + 1074)) by lia.
    change (2 ^ 20) with (1024 * 1024). ring.
Qed.

Lemma file_size_mb_is_exact_witness :
  scaled (Py.of_int 2) * (1024 * 1024) = 2097152 * 2 ^ 1074.
Proof.
  refine (proj2 (proj2 (file_size_mb_is_exact good_pdf 2097152
                          (mk_file_metrics (Py.of_int 2) "good.pdf")
                          eq_refl _ _))).
  - split; [lia|]. apply Z.ltb_lt. vm_compute. reflexivity.
  - vm_compute. reflexivity.
Defined.
